(** * Polly Prediction Partners: trading backend

    A shallow embedding of the market cache (market_cache.py), the
    WebSocket sequence-gap logic (kalshi/websocket_client.py), the trading
    permission layer (trading/permission_layer.py), the REST retry loop
    (kalshi/rest_client.py) and the execution engine
    (trading/execution_engine.py), with the properties of the
    specification stated over them; then the subscription management of the
    WebSocket client, the market pass of the discovery
    (market_discovery.py) and the decision of agent Peritia
    (agents/peritia.py), with further properties of all of them.

    Conventions of the embedding.
    - Python [int] is [Z]; Python [float], which the code only produces by
      dividing an [int] by [2.0] or [100.0], is an exact rational [Q]; so
      are the pauses in seconds and, in agent Peritia, the quotient of two
      [int]s.
    - A message [dict] read with [msg.get(key, default)] is a record with one
      [option] field per key the code reads: [None] is an absent key.
    - A [dict] used as a map is a [gmap], a [set] a [gset].
    - A coroutine is a function from the state at its call to the state at
      its return, run without another coroutine in between; what it does to
      the outside world (HTTP requests, sleeps, log records, broadcasts,
      tasks handed to the event loop) is recorded in the state.  Where a
      property must also hold for a call made while another one is suspended
      at an [await], it is stated for every state the object can be in. *)

From Stdlib Require Import ZArith QArith Lia.
From stdpp Require Import gmap strings list.

Local Open Scope Z_scope.

(** Python truthiness of an optional string: [None] and [""] are falsy. *)
Definition truthy (s : option string) : bool :=
  match s with
  | Some EmptyString => false
  | Some _ => true
  | None => false
  end.

(** A record written through [logger]: its level and its message (the
    [extra] dict is left out). *)
Inductive level := DEBUG | INFO | WARNING | ERROR.

Definition LogRecord : Type := level * string.

(** * market_cache.py *)
Module MarketCache.

(** The optional orderbook [{"yes": {price: qty}, "no": {price: qty}, "seq": seq}]. *)
Record Orderbook := mkOrderbook {
  ob_yes : gmap Z Z;
  ob_no : gmap Z Z;
  ob_seq : option Z
}.

(** One entry of [recent_trades]. *)
Record Trade := mkTrade {
  tr_yes_price : Z;
  tr_count : Z;
  tr_taker_side : string;
  tr_ts : Z
}.

Record MarketState := mkMarketState {
  market_ticker : string;
  event_ticker : string;
  series_ticker : string;
  market_status : string;
  yes_bid : Z;
  no_bid : Z;
  yes_ask : Z;
  no_ask : Z;
  last_price : Z;
  volume : Z;
  open_interest : Z;
  spread : Z;
  midpoint : Q;
  implied_probability : Q;
  last_updated_timestamp : Z;
  orderbook : option Orderbook;
  recent_trades : list Trade
}.

(** [_compute_derived(yes_bid, no_bid)]. *)
Definition _compute_derived (yes_bid no_bid : Z) : Z * Z * Z * Q * Q :=
  let yes_ask := 100 - no_bid in
  let no_ask := 100 - yes_bid in
  let spread := yes_ask - yes_bid in
  let midpoint := (inject_Z (yes_bid + yes_ask) / 2)%Q in
  let implied_probability := (inject_Z yes_bid / 100)%Q in
  (yes_ask, no_ask, spread, midpoint, implied_probability).

(** The cache object: the [_cache] dict and the [update_notification] event
    ([true] when set).  The lock only serialises the writers. *)
Record Cache := mkCache {
  cache : gmap string MarketState;
  update_notification : bool
}.

(** [MarketCache()] *)
Definition new_cache : Cache := mkCache ∅ false.

(** [_notify]: sets the event and does not clear it. *)
Definition _notify (c : Cache) : Cache :=
  mkCache (cache c) true.

(** The keys [upsert_from_ticker] reads from a [ticker] message. *)
Record TickerMsg := mkTickerMsg {
  tm_market_ticker : option string;
  tm_yes_bid : option Z;
  tm_no_bid : option Z;
  tm_yes_ask : option Z;
  tm_last_price : option Z;
  tm_volume : option Z;
  tm_open_interest : option Z;
  tm_ts : option Z;
  tm_event_ticker : option string;
  tm_series_ticker : option string;
  tm_status : option string
}.

Definition upsert_from_ticker (msg : TickerMsg) (c : Cache) : Cache :=
  if negb (truthy (tm_market_ticker msg)) then c
  else
    let ticker := default EmptyString (tm_market_ticker msg) in
    let yes_bid := default 0 (tm_yes_bid msg) in
    let no_bid := default 0 (tm_no_bid msg) in
    let '(yes_ask, no_ask) :=
      match tm_yes_ask msg with
      | Some a => (a, 100 - yes_bid)
      | None =>
          let '(yes_ask, no_ask, _, _, _) := _compute_derived yes_bid no_bid in
          (yes_ask, no_ask)
      end in
    let '(_, _, spread, midpoint, implied_prob) := _compute_derived yes_bid no_bid in
    let entry :=
      match cache c !! ticker with
      | Some existing =>
          {| market_ticker := market_ticker existing;
             event_ticker := event_ticker existing;
             series_ticker := series_ticker existing;
             market_status := market_status existing;
             yes_bid := yes_bid;
             no_bid := no_bid;
             yes_ask := yes_ask;
             no_ask := no_ask;
             last_price := default (last_price existing) (tm_last_price msg);
             volume := default (volume existing) (tm_volume msg);
             open_interest := default (open_interest existing) (tm_open_interest msg);
             spread := spread;
             midpoint := midpoint;
             implied_probability := implied_prob;
             last_updated_timestamp :=
               default (last_updated_timestamp existing) (tm_ts msg);
             orderbook := orderbook existing;
             recent_trades := recent_trades existing |}
      | None =>
          {| market_ticker := ticker;
             event_ticker := default EmptyString (tm_event_ticker msg);
             series_ticker := default EmptyString (tm_series_ticker msg);
             market_status := default "open"%string (tm_status msg);
             yes_bid := yes_bid;
             no_bid := no_bid;
             yes_ask := yes_ask;
             no_ask := no_ask;
             last_price := default 0 (tm_last_price msg);
             volume := default 0 (tm_volume msg);
             open_interest := default 0 (tm_open_interest msg);
             spread := spread;
             midpoint := midpoint;
             implied_probability := implied_prob;
             last_updated_timestamp := default 0 (tm_ts msg);
             orderbook := None;
             recent_trades := [] |}
      end in
    _notify (mkCache (<[ticker := entry]> (cache c)) (update_notification c)).

(** The keys [upsert_from_discovery] reads from a REST [/markets] entry.
    [market_data.get(k, 0) or 0] is [default 0]. *)
Record MarketData := mkMarketData {
  md_ticker : option string;
  md_yes_bid : option Z;
  md_no_bid : option Z;
  md_last_price : option Z;
  md_volume : option Z;
  md_open_interest : option Z;
  md_event_ticker : option string;
  md_series_ticker : option string;
  md_status : option string
}.

Definition upsert_from_discovery (market_data : MarketData) (c : Cache) : Cache :=
  if negb (truthy (md_ticker market_data)) then c
  else
    let ticker := default EmptyString (md_ticker market_data) in
    let yes_bid := default 0 (md_yes_bid market_data) in
    let no_bid := default 0 (md_no_bid market_data) in
    let '(yes_ask, no_ask, spread, midpoint, implied_prob) :=
      _compute_derived yes_bid no_bid in
    let entry :=
      match cache c !! ticker with
      | Some existing =>
          {| market_ticker := market_ticker existing;
             event_ticker := default (event_ticker existing) (md_event_ticker market_data);
             series_ticker := default (series_ticker existing) (md_series_ticker market_data);
             market_status := default (market_status existing) (md_status market_data);
             yes_bid := MarketCache.yes_bid existing;
             no_bid := MarketCache.no_bid existing;
             yes_ask := MarketCache.yes_ask existing;
             no_ask := MarketCache.no_ask existing;
             last_price := last_price existing;
             volume := volume existing;
             open_interest := open_interest existing;
             spread := MarketCache.spread existing;
             midpoint := MarketCache.midpoint existing;
             implied_probability := implied_probability existing;
             last_updated_timestamp := last_updated_timestamp existing;
             orderbook := orderbook existing;
             recent_trades := recent_trades existing |}
      | None =>
          {| market_ticker := ticker;
             event_ticker := default EmptyString (md_event_ticker market_data);
             series_ticker := default EmptyString (md_series_ticker market_data);
             market_status := default "open"%string (md_status market_data);
             yes_bid := yes_bid;
             no_bid := no_bid;
             yes_ask := yes_ask;
             no_ask := no_ask;
             last_price := default 0 (md_last_price market_data);
             volume := default 0 (md_volume market_data);
             open_interest := default 0 (md_open_interest market_data);
             spread := spread;
             midpoint := midpoint;
             implied_probability := implied_prob;
             last_updated_timestamp := 0;
             orderbook := None;
             recent_trades := [] |}
      end in
    mkCache (<[ticker := entry]> (cache c)) (update_notification c).

(** The keys [apply_orderbook_delta] reads from an [orderbook_delta]
    message; an absent ["yes"] or ["no"] key is the empty list of levels. *)
Record OrderbookMsg := mkOrderbookMsg {
  om_market_ticker : option string;
  om_seq : option Z;
  om_yes : list (Z * Z);
  om_no : list (Z * Z)
}.

(** [{int(p): int(q) for p, q in levels}]: a later level of the same price
    overwrites an earlier one, and a quantity of 0 is stored as it is. *)
Definition dict_of_levels (levels : list (Z * Z)) : gmap Z Z :=
  fold_left (fun d '(p, q) => <[p := q]> d) levels ∅.

(** The loop of the incremental branch over one side of the book. *)
Definition patch_levels (levels : list (Z * Z)) (side : gmap Z Z) : gmap Z Z :=
  fold_left
    (fun d '(price, qty) => if qty =? 0 then delete price d else <[price := qty]> d)
    levels side.

(** [max(d.keys(), default=0)] *)
Definition max_key (d : gmap Z Z) : Z :=
  match elements (dom d) with
  | [] => 0
  | k :: ks => fold_left Z.max ks k
  end.

Definition apply_orderbook_delta (msg : OrderbookMsg) (c : Cache) : Cache :=
  if negb (truthy (om_market_ticker msg)) then c
  else
    let ticker := default EmptyString (om_market_ticker msg) in
    let seq := om_seq msg in
    let yes_levels := om_yes msg in
    let no_levels := om_no msg in
    match cache c !! ticker with
    | None => c
    | Some state =>
        let is_snapshot :=
          bool_decide (seq = Some 1)
          || match orderbook state with None => true | Some _ => false end in
        let ob :=
          match is_snapshot, orderbook state with
          | false, Some ob =>
              mkOrderbook (patch_levels yes_levels (ob_yes ob))
                          (patch_levels no_levels (ob_no ob)) seq
          | _, _ =>
              mkOrderbook (dict_of_levels yes_levels) (dict_of_levels no_levels) seq
          end in
        (* [if state.orderbook:] holds, the dict has its three keys *)
        let best_yes_bid := max_key (ob_yes ob) in
        let best_no_bid := max_key (ob_no ob) in
        let yes_ask := 100 - best_no_bid in
        let no_ask := 100 - best_yes_bid in
        let state' :=
          {| market_ticker := market_ticker state;
             event_ticker := event_ticker state;
             series_ticker := series_ticker state;
             market_status := market_status state;
             yes_bid := best_yes_bid;
             no_bid := best_no_bid;
             yes_ask := yes_ask;
             no_ask := no_ask;
             last_price := last_price state;
             volume := volume state;
             open_interest := open_interest state;
             spread := yes_ask - best_yes_bid;
             midpoint := (inject_Z (best_yes_bid + yes_ask) / 2)%Q;
             implied_probability := (inject_Z best_yes_bid / 100)%Q;
             last_updated_timestamp := last_updated_timestamp state;
             orderbook := Some ob;
             recent_trades := recent_trades state |} in
        _notify (mkCache (<[ticker := state']> (cache c)) (update_notification c))
    end.

(** The keys [append_trade] reads from a [trade] message. *)
Record TradeMsg := mkTradeMsg {
  trm_market_ticker : option string;
  trm_yes_price : option Z;
  trm_count : option Z;
  trm_taker_side : option string;
  trm_ts : option Z
}.

(** [deque(maxlen=n).append(x)]: the oldest entries fall out on the left. *)
Definition deque_append (maxlen : nat) (d : list Trade) (x : Trade) : list Trade :=
  let d' := d ++ [x] in drop (length d' - maxlen)%nat d'.

Definition set_recent_trades (st : MarketState) (trades : list Trade) : MarketState :=
  {| market_ticker := market_ticker st;
     event_ticker := event_ticker st;
     series_ticker := series_ticker st;
     market_status := market_status st;
     yes_bid := yes_bid st;
     no_bid := no_bid st;
     yes_ask := yes_ask st;
     no_ask := no_ask st;
     last_price := last_price st;
     volume := volume st;
     open_interest := open_interest st;
     spread := spread st;
     midpoint := midpoint st;
     implied_probability := implied_probability st;
     last_updated_timestamp := last_updated_timestamp st;
     orderbook := orderbook st;
     recent_trades := trades |}.

Definition set_market_status (st : MarketState) (status : string) : MarketState :=
  {| market_ticker := market_ticker st;
     event_ticker := event_ticker st;
     series_ticker := series_ticker st;
     market_status := status;
     yes_bid := yes_bid st;
     no_bid := no_bid st;
     yes_ask := yes_ask st;
     no_ask := no_ask st;
     last_price := last_price st;
     volume := volume st;
     open_interest := open_interest st;
     spread := spread st;
     midpoint := midpoint st;
     implied_probability := implied_probability st;
     last_updated_timestamp := last_updated_timestamp st;
     orderbook := orderbook st;
     recent_trades := recent_trades st |}.

Definition append_trade (msg : TradeMsg) (c : Cache) : Cache :=
  if negb (truthy (trm_market_ticker msg)) then c
  else
    let ticker := default EmptyString (trm_market_ticker msg) in
    let trade :=
      {| tr_yes_price := default 0 (trm_yes_price msg);
         tr_count := default 0 (trm_count msg);
         tr_taker_side := default EmptyString (trm_taker_side msg);
         tr_ts := default 0 (trm_ts msg) |} in
    let cache' :=
      match cache c !! ticker with
      | Some state =>
          <[ticker := set_recent_trades state (deque_append 100 (recent_trades state) trade)]>
            (cache c)
      | None => cache c
      end in
    _notify (mkCache cache' (update_notification c)).

Definition update_status (ticker status : string) (c : Cache) : Cache :=
  let cache' :=
    match cache c !! ticker with
    | Some state => <[ticker := set_market_status state status]> (cache c)
    | None => cache c
    end in
  _notify (mkCache cache' (update_notification c)).

(** The write operations of the cache, as one type. *)
Inductive write :=
| UpsertFromTicker (msg : TickerMsg)
| UpsertFromDiscovery (market_data : MarketData)
| ApplyOrderbookDelta (msg : OrderbookMsg)
| AppendTrade (msg : TradeMsg)
| UpdateStatus (ticker status : string).

Definition run_write (w : write) (c : Cache) : Cache :=
  match w with
  | UpsertFromTicker msg => upsert_from_ticker msg c
  | UpsertFromDiscovery market_data => upsert_from_discovery market_data c
  | ApplyOrderbookDelta msg => apply_orderbook_delta msg c
  | AppendTrade msg => append_trade msg c
  | UpdateStatus ticker status => update_status ticker status c
  end.

Definition run_writes (ws : list write) (c : Cache) : Cache :=
  fold_left (fun c w => run_write w c) ws c.

(** The equations the data model gives for the derived fields. *)
Definition derived_ok (st : MarketState) : Prop :=
  yes_ask st = 100 - no_bid st
  /\ no_ask st = 100 - yes_bid st
  /\ spread st = yes_ask st - yes_bid st
  /\ (midpoint st == (inject_Z (yes_bid st) + inject_Z (yes_ask st)) / 2)%Q.

Definition cache_inv (c : Cache) : Prop :=
  forall t st, cache c !! t = Some st -> derived_ok st.

(** A ticker message that carries its own [yes_ask] agrees with the derived
    value; a message without the key always does. *)
Definition ticker_consistent (msg : TickerMsg) : Prop :=
  match tm_yes_ask msg with
  | Some a => a = 100 - default 0 (tm_no_bid msg)
  | None => True
  end.

Definition write_consistent (w : write) : Prop :=
  match w with
  | UpsertFromTicker msg => ticker_consistent msg
  | _ => True
  end.

(** No entry is ever stored under the empty ticker. *)
Definition well_keyed (c : Cache) : Prop := cache c !! EmptyString = None.

(** ** Sample inputs *)

(** [{"market_ticker": "BTC-X", "yes_bid": 40, "no_bid": 50, "yes_ask": 55}] *)
Definition ticker_with_ask : TickerMsg :=
  {| tm_market_ticker := Some "BTC-X"%string;
     tm_yes_bid := Some 40; tm_no_bid := Some 50; tm_yes_ask := Some 55;
     tm_last_price := None; tm_volume := None; tm_open_interest := None;
     tm_ts := None; tm_event_ticker := None; tm_series_ticker := None;
     tm_status := None |}.

(** [{"market_ticker": "BTC-X", "yes_bid": 40, "no_bid": 50}] *)
Definition ticker_plain : TickerMsg :=
  {| tm_market_ticker := Some "BTC-X"%string;
     tm_yes_bid := Some 40; tm_no_bid := Some 50; tm_yes_ask := None;
     tm_last_price := None; tm_volume := None; tm_open_interest := None;
     tm_ts := None; tm_event_ticker := None; tm_series_ticker := None;
     tm_status := None |}.

(** [{"ticker": "BTC-X", "yes_bid": 40, "no_bid": 50, "status": "open"}] *)
Definition discovered_btc : MarketData :=
  {| md_ticker := Some "BTC-X"%string;
     md_yes_bid := Some 40; md_no_bid := Some 50;
     md_last_price := None; md_volume := None; md_open_interest := None;
     md_event_ticker := None; md_series_ticker := None;
     md_status := Some "open"%string |}.

(** [{"ticker": "BTC-X", "status": "closed"}] *)
Definition discovered_btc_closed : MarketData :=
  {| md_ticker := Some "BTC-X"%string;
     md_yes_bid := None; md_no_bid := None;
     md_last_price := None; md_volume := None; md_open_interest := None;
     md_event_ticker := None; md_series_ticker := None;
     md_status := Some "closed"%string |}.

(** [{"market_ticker": "BTC-X", "seq": 1, "yes": [[40, 10], [38, 5]], "no": [[55, 7]]}] *)
Definition snapshot_btc : OrderbookMsg :=
  {| om_market_ticker := Some "BTC-X"%string;
     om_seq := Some 1;
     om_yes := [(40, 10); (38, 5)];
     om_no := [(55, 7)] |}.

(** [update_notification.clear()], as the agents call it after waking. *)
Definition clear_notification (c : Cache) : Cache := mkCache (cache c) false.

(** The empty cache after discovery has found BTC-X. *)
Definition cache_with_btc : Cache := upsert_from_discovery discovered_btc new_cache.

(** [{"market_ticker": "BTC-X", "seq": 7, "yes": [[30, 2]], "no": [[60, 1], [61, 4]]}] *)
Definition book_seq7 : OrderbookMsg :=
  {| om_market_ticker := Some "BTC-X"%string;
     om_seq := Some 7;
     om_yes := [(30, 2)];
     om_no := [(60, 1); (61, 4)] |}.

(** BTC-X with a first orderbook in place. *)
Definition cache_with_book : Cache := apply_orderbook_delta book_seq7 cache_with_btc.

(** ** Invariants of the entries *)

(** Every entry is stored under its own, non-empty ticker. *)
Definition keyed (c : Cache) : Prop :=
  forall t st, cache c !! t = Some st -> market_ticker st = t /\ t <> EmptyString.

(** No entry holds more than 100 recent trades. *)
Definition trades_bounded (c : Cache) : Prop :=
  forall t st, cache c !! t = Some st -> (length (recent_trades st) <= 100)%nat.

(** The trade [append_trade] builds from a message. *)
Definition trade_of (msg : TradeMsg) : Trade :=
  {| tr_yes_price := default 0 (trm_yes_price msg);
     tr_count := default 0 (trm_count msg);
     tr_taker_side := default EmptyString (trm_taker_side msg);
     tr_ts := default 0 (trm_ts msg) |}.

(** [{"market_ticker": "BTC-X", "seq": 8, "yes": [[30, 0], [31, 6]], "no": [[61, 9]]}] *)
Definition patch_seq8 : OrderbookMsg :=
  {| om_market_ticker := Some "BTC-X"%string;
     om_seq := Some 8;
     om_yes := [(30, 0); (31, 6)];
     om_no := [(61, 9)] |}.

(** [{"market_ticker": "BTC-X", "yes_price": 41, "count": 3, "taker_side": "yes", "ts": 5}] *)
Definition trade_btc : TradeMsg :=
  {| trm_market_ticker := Some "BTC-X"%string;
     trm_yes_price := Some 41;
     trm_count := Some 3;
     trm_taker_side := Some "yes"%string;
     trm_ts := Some 5 |}.

End MarketCache.

(** * kalshi/websocket_client.py *)
Module WebSocket.

Local Open Scope string_scope.
Local Open Scope list_scope.
Local Open Scope Z_scope.

(** [(channel, market_ticker)] *)
Definition SubscriptionKey : Type := string * string.

(** A parsed inbound frame, with the keys [_handle_raw] reads: [type], and
    [market_ticker] and [seq] of the inner [msg] object.  [m_env] is the
    [_env] tag, [m_rest] stands for every other key of the frame. *)
Record Msg := mkMsg {
  m_type : option string;
  m_ticker : option string;
  m_seq : option Z;
  m_env : option string;
  m_rest : string
}.

(** What [json.loads(raw)] gives: a [JSONDecodeError] or a JSON object. *)
Inductive Raw :=
| NotJson
| Json (msg : Msg).

(** A command frame written to the socket. *)
Record Command := mkCommand {
  cmd_id : Z;
  cmd : string;
  cmd_channels : list string;
  cmd_market_tickers : list string
}.

(** A coroutine handed to [asyncio.create_task]; it runs once the current
    coroutine yields. *)
Inductive Task :=
| SubscribeTask (channels market_tickers : list string).

(** The fields of [KalshiWebSocketClient] that message handling and
    subscription management use.  [ws_open] is
    [self._ws and not self._ws.closed]; [_queue] is the inbound queue, oldest
    message first ([put] waits while the queue is full and then appends);
    [sent] are the frames written to the socket and [tasks] the coroutines
    created and not yet run, both oldest first. *)
Record Client := mkClient {
  _env : string;
  _subscriptions : gset SubscriptionKey;
  _ob_seq : gmap string Z;
  ws_open : bool;
  _msg_id : Z;
  _last_pong : Z;
  _queue : list Msg;
  sent : list Command;
  tasks : list Task;
  logged : list LogRecord
}.

Definition set_subscriptions (subs : gset SubscriptionKey) (s : Client) : Client :=
  mkClient (_env s) subs (_ob_seq s) (ws_open s) (_msg_id s) (_last_pong s)
           (_queue s) (sent s) (tasks s) (logged s).

Definition set_ob_seq (seqs : gmap string Z) (s : Client) : Client :=
  mkClient (_env s) (_subscriptions s) seqs (ws_open s) (_msg_id s) (_last_pong s)
           (_queue s) (sent s) (tasks s) (logged s).

Definition set_last_pong (now : Z) (s : Client) : Client :=
  mkClient (_env s) (_subscriptions s) (_ob_seq s) (ws_open s) (_msg_id s) now
           (_queue s) (sent s) (tasks s) (logged s).

Definition queue_put (msg : Msg) (s : Client) : Client :=
  mkClient (_env s) (_subscriptions s) (_ob_seq s) (ws_open s) (_msg_id s)
           (_last_pong s) (_queue s ++ [msg]) (sent s) (tasks s) (logged s).

Definition create_task (t : Task) (s : Client) : Client :=
  mkClient (_env s) (_subscriptions s) (_ob_seq s) (ws_open s) (_msg_id s)
           (_last_pong s) (_queue s) (sent s) (tasks s ++ [t]) (logged s).

Definition log (l : level) (text : string) (s : Client) : Client :=
  mkClient (_env s) (_subscriptions s) (_ob_seq s) (ws_open s) (_msg_id s)
           (_last_pong s) (_queue s) (sent s) (tasks s) (logged s ++ [(l, text)]).

(** [_send_subscribe] on the current socket: nothing when it is closed,
    else one [subscribe] frame under the next message id ([_next_id]). *)
Definition _send_subscribe (channels market_tickers : list string) (s : Client) : Client :=
  if negb (ws_open s) then s
  else
    let id := _msg_id s + 1 in
    mkClient (_env s) (_subscriptions s) (_ob_seq s) (ws_open s) id (_last_pong s)
             (_queue s)
             (sent s ++ [mkCommand id "subscribe" channels market_tickers])
             (tasks s) (logged s).

(** [{(ch, mt) for ch in channels for mt in market_tickers}] *)
Definition key_set (channels market_tickers : list string) : gset SubscriptionKey :=
  list_to_set (ch ← channels; mt ← market_tickers; [(ch, mt)]).

Definition subscribe (channels market_tickers : list string) (s : Client) : Client :=
  let new_keys := key_set channels market_tickers ∖ _subscriptions s in
  if decide (new_keys = ∅) then s
  else
    let s := set_subscriptions (_subscriptions s ∪ new_keys) s in
    if ws_open s then _send_subscribe channels market_tickers s else s.

Definition run_task (t : Task) (s : Client) : Client :=
  match t with
  | SubscribeTask channels market_tickers => subscribe channels market_tickers s
  end.

(** [msg["_env"] = self._env] *)
Definition tag_env (env : string) (msg : Msg) : Msg :=
  mkMsg (m_type msg) (m_ticker msg) (m_seq msg) (Some env) (m_rest msg).

(** [_handle_raw(raw)]; [now] is the reading of [time.monotonic()]. *)
Definition _handle_raw (now : Z) (raw : Raw) (s : Client) : Client :=
  match raw with
  | NotJson => log WARNING "WebSocket received non-JSON message" s
  | Json msg =>
      let msg_type := default "" (m_type msg) in
      if decide (msg_type = "pong") then set_last_pong now s
      else if bool_decide (msg_type ∈ ["subscribed"; "unsubscribed"; "ok"]) then s
      else
        let msg := tag_env (_env s) msg in
        if decide (msg_type = "orderbook_delta") then
          let ticker := default "" (m_ticker msg) in
          match m_seq msg with
          | Some seq =>
              if truthy (Some ticker) then
                match _ob_seq s !! ticker with
                | Some last_seq =>
                    let expected := last_seq + 1 in
                    if decide (seq ≠ expected) then
                      let s := log WARNING
                                 "Orderbook sequence gap detected — re-subscribing" s in
                      let s := set_ob_seq (delete ticker (_ob_seq s)) s in
                      let s := set_subscriptions
                                 (_subscriptions s ∖ {[("orderbook_delta", ticker)]}) s in
                      create_task (SubscribeTask ["orderbook_delta"] [ticker]) s
                    else
                      queue_put msg (set_ob_seq (<[ticker := seq]> (_ob_seq s)) s)
                | None =>
                    queue_put msg (set_ob_seq (<[ticker := seq]> (_ob_seq s)) s)
                end
              else queue_put msg s
          | None => queue_put msg s
          end
        else queue_put msg s
  end.

(** ** Sample inputs *)

(** A connected client that tracks seq 11 for BTC-X. *)
Definition client_at_11 : Client :=
  {| _env := "demo";
     _subscriptions := {[("orderbook_delta", "BTC-X"); ("ticker", "BTC-X")]};
     _ob_seq := {["BTC-X" := 11%Z]};
     ws_open := true;
     _msg_id := 4;
     _last_pong := 0;
     _queue := [];
     sent := [];
     tasks := [];
     logged := [] |}.

(** [{"type": "orderbook_delta", "msg": {"market_ticker": "BTC-X", "seq": seq}}] *)
Definition delta_btc (seq : Z) : Msg :=
  mkMsg (Some "orderbook_delta") (Some "BTC-X") (Some seq) None "".

(** ** Subscriptions, reconnects and runs of the client *)

(** [unsubscribe(channels, market_tickers)] *)
Definition unsubscribe (channels market_tickers : list string) (s : Client) : Client :=
  let s := set_subscriptions (_subscriptions s ∖ key_set channels market_tickers) s in
  if ws_open s then
    let id := _msg_id s + 1 in
    mkClient (_env s) (_subscriptions s) (_ob_seq s) (ws_open s) id (_last_pong s)
             (_queue s)
             (sent s ++ [mkCommand id "unsubscribe" channels market_tickers])
             (tasks s) (logged s)
  else s.

(** The backoff ladder, in seconds. *)
Definition _RECONNECT_DELAYS : list Q := [0.5; 1.0; 2.0; 4.0; 8.0; 30.0]%Q.

(** [_backoff_delay()], on the [_reconnect_attempts] counter it reads and
    increments: the delay ([None] would be an [IndexError]) and the counter
    after the call. *)
Definition _backoff_delay (_reconnect_attempts : nat) : option Q * nat :=
  let idx := Nat.min _reconnect_attempts (length _RECONNECT_DELAYS - 1) in
  (_RECONNECT_DELAYS !! idx, S _reconnect_attempts).

(** The delays of [n] reconnects that fail one after the other, the counter
    starting at [attempts]. *)
Fixpoint backoff_delays (n : nat) (attempts : nat) : list (option Q) :=
  match n with
  | O => []
  | S n =>
      let '(delay, attempts) := _backoff_delay attempts in
      delay :: backoff_delays n attempts
  end.

Definition set_tasks (ts : list Task) (s : Client) : Client :=
  mkClient (_env s) (_subscriptions s) (_ob_seq s) (ws_open s) (_msg_id s)
           (_last_pong s) (_queue s) (sent s) ts (logged s).

(** What happens to a client between two reconnects: calls of [subscribe]
    and [unsubscribe], inbound frames, and the event loop running the oldest
    task that was created. *)
Inductive Op :=
| Subscribe (channels market_tickers : list string)
| Unsubscribe (channels market_tickers : list string)
| HandleRaw (now : Z) (raw : Raw)
| RunTask.

Definition run_op (o : Op) (s : Client) : Client :=
  match o with
  | Subscribe channels market_tickers => subscribe channels market_tickers s
  | Unsubscribe channels market_tickers => unsubscribe channels market_tickers s
  | HandleRaw now raw => _handle_raw now raw s
  | RunTask =>
      match tasks s with
      | [] => s
      | t :: rest => run_task t (set_tasks rest s)
      end
  end.

Definition run_ops (os : list Op) (s : Client) : Client :=
  fold_left (fun s o => run_op o s) os s.

(** [KalshiWebSocketClient(environment, queue)] once the socket is open or not. *)
Definition new_client (environment : string) (open : bool) : Client :=
  {| _env := environment;
     _subscriptions := ∅;
     _ob_seq := ∅;
     ws_open := open;
     _msg_id := 1;
     _last_pong := 0;
     _queue := [];
     sent := [];
     tasks := [];
     logged := [] |}.

(** The ids of the frames written grow strictly and stay within [_msg_id]. *)
Fixpoint ids_increase (bound : Z) (frames : list Command) : Prop :=
  match frames with
  | [] => True
  | f :: frames => bound < cmd_id f /\ ids_increase (cmd_id f) frames
  end.

(** Every queued message carries the environment tag of the client. *)
Definition queue_tagged (s : Client) : Prop :=
  Forall (fun m => m_env m = Some (_env s)) (_queue s).

(** The frames [seq+1 .. seq+n] of a ticker, in order. *)
Definition deltas (ticker : string) (seq : Z) (n : nat) : list Raw :=
  map (fun k => Json (mkMsg (Some "orderbook_delta") (Some ticker)
                         (Some (seq + 1 + Z.of_nat k)) None ""))
      (List.seq 0 n).

(** ** Re-subscribing after a reconnect *)









End WebSocket.

(** * trading/trade_intent.py *)
Module Trading.

(** [TradeIntent]; the two UUIDs are kept in their [str()] form, the only
    way the permission layer and the engine read them. *)
Record TradeIntent := mkTradeIntent {
  agent_id : string;
  client_order_id : string;
  market_ticker : string;
  action : string;
  side : string;
  order_type : string;
  price : Z;
  count : Z;
  confidence : Q;
  generated_at : Z
}.

(** The exceptions that travel between the REST client, the engine and the
    permission layer. *)
Inductive exn :=
| PermissionError
| RuntimeError
| TimeoutError
| ClientResponseError (status : Z)
| ClientConnectionError.

(** How a coroutine ends. *)
Inductive Result (A : Type) :=
| Ok (a : A)
| Raise (e : exn).

Arguments Ok {A} a.
Arguments Raise {A} e.

End Trading.

(** * trading/permission_layer.py *)
Module Permission.
Import Trading.

Local Open Scope string_scope.
Local Open Scope list_scope.
Local Open Scope Z_scope.

(** The downstream callback is a coroutine [cb(intent, environment)] acting
    on some world [W]. *)
Definition Callback (W : Type) : Type :=
  TradeIntent -> string -> W -> W * Result unit.

Record Layer (W : Type) := mkLayer {
  _global_trading_enabled : bool;
  _active_environment : string;
  _keys_loaded : gmap string bool;
  _agent_modes : gmap string string;
  _on_approved : option (Callback W)
}.

Arguments mkLayer {W}.
Arguments _global_trading_enabled {W}.
Arguments _active_environment {W}.
Arguments _keys_loaded {W}.
Arguments _agent_modes {W}.
Arguments _on_approved {W}.

(** [TradingPermissionLayer()] *)
Definition new_layer {W : Type} : Layer W :=
  mkLayer false "demo" (<["live" := false]> (<["demo" := false]> ∅)) ∅ None.

Definition set_on_approved {W W' : Type} (callback : Callback W') (p : Layer W) : Layer W' :=
  mkLayer (_global_trading_enabled p) (_active_environment p) (_keys_loaded p)
          (_agent_modes p) (Some callback).

Definition set_global_trading {W : Type} (enabled : bool) (p : Layer W) : Layer W :=
  mkLayer enabled (_active_environment p) (_keys_loaded p) (_agent_modes p)
          (_on_approved p).

Definition set_environment {W : Type} (environment : string) (p : Layer W) : Layer W :=
  mkLayer (_global_trading_enabled p) environment (_keys_loaded p) (_agent_modes p)
          (_on_approved p).

Definition set_keys_loaded {W : Type} (environment : string) (loaded : bool)
    (p : Layer W) : Layer W :=
  mkLayer (_global_trading_enabled p) (_active_environment p)
          (<[environment := loaded]> (_keys_loaded p)) (_agent_modes p)
          (_on_approved p).

Definition set_agent_mode {W : Type} (agent : string) (mode : string)
    (p : Layer W) : Layer W :=
  mkLayer (_global_trading_enabled p) (_active_environment p) (_keys_loaded p)
          (<[agent := mode]> (_agent_modes p)) (_on_approved p).

(** [submit(intent)]: the layer itself is not changed; the world is whatever
    the callback makes of it. *)
Definition submit {W : Type} (p : Layer W) (intent : TradeIntent) (w : W)
    : W * Result unit :=
  (* Level 1: Global kill switch *)
  if negb (_global_trading_enabled p) then (w, Ok tt)
  else
    (* Level 2: Environment configured? *)
    let env := _active_environment p in
    if negb (default false (_keys_loaded p !! env)) then (w, Ok tt)
    else
      (* Level 3: Agent in Auto mode? *)
      let agent_mode := default "FullStop" (_agent_modes p !! agent_id intent) in
      if decide (agent_mode ≠ "Auto") then (w, Ok tt)
      else
        match _on_approved p with
        | Some callback => callback intent env w
        | None => (w, Ok tt)
        end.

(** The three gates, in the words of the specification:
    [global_enabled ∧ keys_loaded[env] ∧ mode[agent] == "Auto"]. *)
Definition gates_pass {W : Type} (p : Layer W) (intent : TradeIntent) : Prop :=
  _global_trading_enabled p = true
  /\ _keys_loaded p !! _active_environment p = Some true
  /\ _agent_modes p !! agent_id intent = Some "Auto".

(** A callback that only writes down what it is called with. *)
Definition recorder : Callback (list (TradeIntent * string)) :=
  fun intent env calls => (calls ++ [(intent, env)], Ok tt).

(** ** Sample inputs *)

Definition sample_intent : TradeIntent :=
  {| agent_id := "agent-1";
     client_order_id := "order-1";
     market_ticker := "BTC-X";
     action := "buy";
     side := "yes";
     order_type := "limit";
     price := 41;
     count := 1;
     confidence := 0.7;
     generated_at := 0 |}.

(** Trading on, demo keys loaded, agent-1 in Auto mode. *)
Definition open_layer : Layer (list (TradeIntent * string)) :=
  set_on_approved recorder
    (set_agent_mode "agent-1" "Auto"
       (set_keys_loaded "demo" true
          (set_global_trading true (new_layer (W := unit))))).


(** ** The setters as calls *)

(** The calls that change a layer: the four state setters of the Control
    API and [set_on_approved]. *)
Inductive Setting (W : Type) :=
| SetOnApproved (callback : Callback W)
| SetGlobalTrading (enabled : bool)
| SetEnvironment (environment : string)
| SetKeysLoaded (environment : string) (loaded : bool)
| SetAgentMode (agent : string) (mode : string).

Arguments SetOnApproved {W} callback.
Arguments SetGlobalTrading {W} enabled.
Arguments SetEnvironment {W} environment.
Arguments SetKeysLoaded {W} environment loaded.
Arguments SetAgentMode {W} agent mode.

Definition apply_setting {W : Type} (s : Setting W) (p : Layer W) : Layer W :=
  match s with
  | SetOnApproved callback => set_on_approved callback p
  | SetGlobalTrading enabled => set_global_trading enabled p
  | SetEnvironment environment => set_environment environment p
  | SetKeysLoaded environment loaded => set_keys_loaded environment loaded p
  | SetAgentMode agent mode => set_agent_mode agent mode p
  end.

Definition apply_settings {W : Type} (ss : list (Setting W)) (p : Layer W) : Layer W :=
  fold_left (fun p s => apply_setting s p) ss p.

End Permission.

(** * kalshi/rest_client.py and trading/execution_engine.py *)
Module Execution.
Import Trading.

Local Open Scope string_scope.
Local Open Scope list_scope.
Local Open Scope Z_scope.

(** The JSON body of [POST /portfolio/orders]. *)
Record OrderBody := mkOrderBody {
  b_ticker : string;
  b_client_order_id : string;
  b_type : string;
  b_action : string;
  b_side : string;
  b_count : Z;
  b_yes_price : option Z;
  b_no_price : option Z
}.

(** An order as a dict (from the exchange or a database row), with the keys
    the engine reads. *)
Record OrderDict := mkOrderDict {
  od_order_id : option string;
  od_client_order_id : option string;
  od_status : option string;
  od_remaining_count : option Z
}.

(** The decoded body of a response, a JSON object: its ["order"] key when
    present (an object), and the body itself read as an order. *)
Record RespBody := mkRespBody {
  rb_order : option OrderDict;
  rb_self : OrderDict
}.

(** What one HTTP request comes back with: a response with its status, an
    [asyncio.TimeoutError], or a connection failure. *)
Inductive HttpReply :=
| Response (status : Z) (body : RespBody)
| TimedOut
| Failed.

(** The dict handed to [Database.insert_order]. *)
Record OrderRecord := mkOrderRecord {
  or_order_id : string;
  or_client_order_id : string;
  or_agent_id : string;
  or_market_ticker : string;
  or_action : string;
  or_side : string;
  or_order_type : string;
  or_price : Z;
  or_count : Z;
  or_remaining_count : Z;
  or_status : string
}.

(** A [user:fill] or [user:order] message, with the keys the engine reads. *)
Record UserMsg := mkUserMsg {
  um_order_id : option string;
  um_count : option Z;
  um_fill_id : option string;
  um_status : option string;
  um_rest : string
}.

(** A row of [Database.get_positions]. *)
Record PositionRow := mkPositionRow {
  pr_market_ticker : option string;
  pr_rest : string
}.

Inductive BroadcastEvent :=
| OrderSubmitted (order_id ticker action side : string) (price count : Z)
                 (environment : string)
| OrderFailed (client_order_id ticker environment : string)
| UserEvent (type : string) (msg : UserMsg) (environment : string).

(** What the engine and its REST client do to the outside world. *)
Inductive Event :=
| HttpPost (body : OrderBody) (reply : HttpReply)
| Sleep (seconds : Q)
| Log (l : level) (text : string)
| DbInsertOrder (record : OrderRecord) (environment : string)
| DbUpdateOrderStatus (order_id status environment : string)
| DbInsertFill (msg : UserMsg) (environment : string)
| Broadcast (event : BroadcastEvent).

(** An [ExecutionEngine] with its REST client.  [rest_configured] is
    [self._rest.is_configured()], [served] counts the HTTP requests the
    exchange has answered, [_db] and [_broadcaster] tell whether the engine
    was given a database and a broadcaster, [trace] lists the events so far,
    oldest first. *)
Record Engine := mkEngine {
  rest_configured : bool;
  served : nat;
  _db : bool;
  _env : string;
  _broadcaster : bool;
  _submitted_ids : gset string;
  _open_orders : gmap string OrderDict;
  _positions : gmap string PositionRow;
  trace : list Event
}.

(** [ExecutionEngine(rest_client, db, environment, event_broadcaster)] *)
Definition new_engine (configured db : bool) (environment : string)
    (broadcaster : bool) : Engine :=
  mkEngine configured 0 db environment broadcaster ∅ ∅ ∅ [].

Definition emit (ev : Event) (e : Engine) : Engine :=
  mkEngine (rest_configured e) (served e) (_db e) (_env e) (_broadcaster e)
           (_submitted_ids e) (_open_orders e) (_positions e) (trace e ++ [ev]).

Definition answered (e : Engine) : Engine :=
  mkEngine (rest_configured e) (S (served e)) (_db e) (_env e) (_broadcaster e)
           (_submitted_ids e) (_open_orders e) (_positions e) (trace e).

Definition set_submitted_ids (ids : gset string) (e : Engine) : Engine :=
  mkEngine (rest_configured e) (served e) (_db e) (_env e) (_broadcaster e)
           ids (_open_orders e) (_positions e) (trace e).

Definition set_open_orders (orders : gmap string OrderDict) (e : Engine) : Engine :=
  mkEngine (rest_configured e) (served e) (_db e) (_env e) (_broadcaster e)
           (_submitted_ids e) orders (_positions e) (trace e).

Definition set_positions (positions : gmap string PositionRow) (e : Engine) : Engine :=
  mkEngine (rest_configured e) (served e) (_db e) (_env e) (_broadcaster e)
           (_submitted_ids e) (_open_orders e) positions (trace e).

(** Operator action on the REST client: load or clear its credentials. *)
Definition set_rest_configured (configured : bool) (e : Engine) : Engine :=
  mkEngine configured (served e) (_db e) (_env e) (_broadcaster e)
           (_submitted_ids e) (_open_orders e) (_positions e) (trace e).

(** ** The REST client *)

Definition _NO_RETRY_CODES : list Z := [400; 401; 404].

(** [_RETRY_TABLE] at a status code: [(initial_delay_seconds, max_attempts)]. *)
Definition _RETRY_TABLE (status : Z) : option (Q * nat) :=
  if status =? 429 then Some (0.1%Q, 5%nat)
  else if status =? 500 then Some (0.5%Q, 3%nat)
  else if status =? 503 then Some (1.0%Q, 3%nat)
  else None.

(** [_RETRY_TABLE["timeout"]] *)
Definition _RETRY_TABLE_timeout : Q * nat := (0.25%Q, 3%nat).

(** [resp.raise_for_status()]: raises from status 400 on. *)
Definition raise_for_status (status : Z) : option exn :=
  if 400 <=? status then Some (ClientResponseError status) else None.

(** [2 ** attempt] as a float *)
Definition pow2 (attempt : nat) : Q := inject_Z (2 ^ Z.of_nat attempt).

Section WithExchange.

(** The exchange: [exchange k] is what the [k]-th HTTP request comes back
    with. *)
Variable exchange : nat -> HttpReply.

(** [_request("POST", "/portfolio/orders", json_body=body)].  [fuel] bounds
    the turns of the [while True] loop; [None] is a call that has not
    returned within them.  Waiting for a token of the write bucket has no
    effect that is recorded. *)
Fixpoint _request (fuel : nat) (json_body : OrderBody) (attempt : nat) (e : Engine)
    : option (Engine * Result RespBody) :=
  match fuel with
  | O => None
  | S fuel =>
      if negb (rest_configured e) then Some (e, Raise RuntimeError)
      else
        let reply := exchange (served e) in
        let e := emit (HttpPost json_body reply) (answered e) in
        match reply with
        | Response status body =>
            if (status =? 200) || (status =? 201) then Some (e, Ok body)
            else
              let no_retry := bool_decide (status ∈ _NO_RETRY_CODES) in
              let e :=
                if no_retry
                then emit (Log WARNING "Kalshi REST non-retryable error") e
                else e in
              match (if no_retry then raise_for_status status else None) with
              | Some ex => Some (e, Raise ex)
              | None =>
                  if status =? 401 then
                    Some (emit (Log ERROR
                                  "Kalshi 401 Unauthorized — check API key and private key.") e,
                          Raise PermissionError)
                  else
                    let retry :=
                      match _RETRY_TABLE status with
                      | Some (base_delay, max_att) =>
                          if (attempt <? max_att)%nat
                          then Some (if status =? 429
                                     then (base_delay * pow2 attempt)%Q
                                     else base_delay)
                          else None
                      | None => None
                      end in
                    match retry with
                    | Some delay =>
                        let e := emit (Log WARNING "Kalshi REST retryable error") e in
                        _request fuel json_body (S attempt) (emit (Sleep delay) e)
                    | None =>
                        let e := emit (Log ERROR "Kalshi REST request failed") e in
                        match raise_for_status status with
                        | Some ex => Some (e, Raise ex)
                        | None => _request fuel json_body attempt e
                        end
                    end
              end
        | TimedOut =>
            let '(base_delay, max_att) := _RETRY_TABLE_timeout in
            if (attempt <? max_att)%nat
            then _request fuel json_body (S attempt) (emit (Sleep base_delay) e)
            else Some (e, Raise TimeoutError)
        | Failed => Some (e, Raise ClientConnectionError)
        end
  end.

(** [create_order(body)] *)
Definition create_order (fuel : nat) (body : OrderBody) (e : Engine)
    : option (Engine * Result RespBody) :=
  _request fuel body 0 e.

(** ** The execution engine *)

Definition log (l : level) (text : string) (e : Engine) : Engine :=
  emit (Log l text) e.

Definition _validate (intent : TradeIntent) (e : Engine) : Engine * bool :=
  if negb ((1 <=? price intent) && (price intent <=? 99)) then
    (log WARNING "Invalid price" e, false)
  else if count intent <=? 0 then
    (log WARNING "Invalid count" e, false)
  else if decide (market_ticker intent = "") then
    (log WARNING "Missing market_ticker in TradeIntent" e, false)
  else if negb (bool_decide (action intent ∈ ["buy"; "sell"])) then
    (log WARNING "Invalid action" e, false)
  else if negb (bool_decide (side intent ∈ ["yes"; "no"])) then
    (log WARNING "Invalid side" e, false)
  else (e, true).

(** The [body] dict of [_submit_with_retry]. *)
Definition order_body (intent : TradeIntent) : OrderBody :=
  {| b_ticker := market_ticker intent;
     b_client_order_id := client_order_id intent;
     b_type := order_type intent;
     b_action := action intent;
     b_side := side intent;
     b_count := count intent;
     b_yes_price := if decide (side intent = "yes") then Some (price intent) else None;
     b_no_price := if decide (side intent = "yes") then None else Some (price intent) |}.

Definition _on_order_success (resp : RespBody) (intent : TradeIntent)
    (environment : string) (e : Engine) : Engine :=
  let order := default (rb_self resp) (rb_order resp) in
  let order_id := default "" (od_order_id order) in
  let e := log INFO "Order submitted successfully" e in
  let e := set_open_orders (<[order_id := order]> (_open_orders e)) e in
  let e :=
    if _db e then
      emit (DbInsertOrder
              {| or_order_id := order_id;
                 or_client_order_id := client_order_id intent;
                 or_agent_id := agent_id intent;
                 or_market_ticker := market_ticker intent;
                 or_action := action intent;
                 or_side := side intent;
                 or_order_type := order_type intent;
                 or_price := price intent;
                 or_count := count intent;
                 or_remaining_count := count intent;
                 or_status := default "resting" (od_status order) |}
              environment) e
    else e in
  if _broadcaster e then
    emit (Broadcast (OrderSubmitted order_id (market_ticker intent) (action intent)
                       (side intent) (price intent) (count intent) environment)) e
  else e.

Definition _on_order_failed (intent : TradeIntent) (environment : string)
    (e : Engine) : Engine :=
  if _broadcaster e then
    emit (Broadcast (OrderFailed (client_order_id intent) (market_ticker intent)
                       environment)) e
  else e.

(** The [for attempt in range(5)] loop of [_submit_with_retry], over the
    attempts still to make, and what follows it. *)
Fixpoint submit_attempts (fuel : nat) (attempts : list nat) (body : OrderBody)
    (intent : TradeIntent) (environment : string) (e : Engine) : option Engine :=
  match attempts with
  | [] =>
      (* All retries exhausted *)
      let e := log ERROR "Order permanently FAILED after retries" e in
      Some (_on_order_failed intent environment e)
  | attempt :: rest =>
      match create_order fuel body e with
      | None => None
      | Some (e, Ok resp) => Some (_on_order_success resp intent environment e)
      | Some (e, Raise PermissionError) =>
          Some (log ERROR "Order rejected with 401 — halting further execution." e)
      | Some (e, Raise _) =>
          let wait := (0.1 * pow2 attempt)%Q in
          let e := log WARNING "Order submission failed" e in
          submit_attempts fuel rest body intent environment (emit (Sleep wait) e)
      end
  end.

Definition _submit_with_retry (fuel : nat) (intent : TradeIntent)
    (environment : string) (e : Engine) : option Engine :=
  submit_attempts fuel (seq 0 5) (order_body intent) intent environment e.

(** [execute(intent, environment)]; [None] when a REST call has not returned
    within [fuel] turns of its loop. *)
Definition execute (fuel : nat) (intent : TradeIntent) (environment : string)
    (e : Engine) : option Engine :=
  (* Step 1: Validate *)
  let '(e, valid) := _validate intent e in
  if negb valid then Some e
  else
    let client_id := client_order_id intent in
    (* Step 2: Idempotency guard *)
    if decide (client_id ∈ _submitted_ids e) then
      Some (log DEBUG "Duplicate client_order_id — skipping" e)
    else
      let e := set_submitted_ids (_submitted_ids e ∪ {[client_id]}) e in
      (* Step 3-7: Submit with retry *)
      _submit_with_retry fuel intent environment e.

End WithExchange.

(** [load_state_from_db()], given what [get_open_orders] and [get_positions]
    return. *)
Definition load_state_from_db (open_orders : list OrderDict)
    (positions : list PositionRow) (e : Engine) : Engine :=
  if negb (_db e) then e
  else
    let e :=
      fold_left
        (fun e row =>
           let oid := default "" (od_order_id row) in
           let cid := default "" (od_client_order_id row) in
           let e := set_open_orders (<[oid := row]> (_open_orders e)) e in
           set_submitted_ids (_submitted_ids e ∪ {[cid]}) e)
        open_orders e in
    let e :=
      fold_left
        (fun e pos =>
           let ticker := default "" (pr_market_ticker pos) in
           set_positions (<[ticker := pos]> (_positions e)) e)
        positions e in
    log INFO "Execution engine loaded state from DB" e.

(** [handle_fill(msg, environment)] *)
Definition handle_fill (msg : UserMsg) (environment : string) (e : Engine) : Engine :=
  let order_id := default "" (um_order_id msg) in
  let e :=
    match _open_orders e !! order_id with
    | Some order =>
        let remaining := default 0 (od_remaining_count order) - default 0 (um_count msg) in
        if remaining <=? 0 then
          let e := set_open_orders (delete order_id (_open_orders e)) e in
          if _db e then emit (DbUpdateOrderStatus order_id "filled" environment) e else e
        else
          set_open_orders
            (<[order_id := mkOrderDict (od_order_id order) (od_client_order_id order)
                             (od_status order) (Some remaining)]> (_open_orders e)) e
    | None => e
    end in
  let fill_id := default "" (um_fill_id msg) in
  let e :=
    if truthy (Some fill_id) && _db e then emit (DbInsertFill msg environment) e else e in
  if _broadcaster e then emit (Broadcast (UserEvent "order_filled" msg environment)) e
  else e.

(** [handle_order_update(msg, environment)] *)
Definition handle_order_update (msg : UserMsg) (environment : string)
    (e : Engine) : Engine :=
  let order_id := default "" (um_order_id msg) in
  let status := default "" (um_status msg) in
  if bool_decide (status ∈ ["cancelled"; "filled"; "expired"]) then
    let e := set_open_orders (delete order_id (_open_orders e)) e in
    let e := if _db e then emit (DbUpdateOrderStatus order_id status environment) e else e in
    let event_type :=
      if decide (status = "cancelled") then "order_cancelled" else "order_filled" in
    if _broadcaster e then emit (Broadcast (UserEvent event_type msg environment)) e
    else e
  else e.

(** The calls made on an engine during the life of the process. *)
Inductive Call :=
| Execute (intent : TradeIntent) (environment : string)
| HandleFill (msg : UserMsg) (environment : string)
| HandleOrderUpdate (msg : UserMsg) (environment : string)
| LoadStateFromDb (open_orders : list OrderDict) (positions : list PositionRow)
| SetRestConfigured (configured : bool).

Definition run_call (exchange : nat -> HttpReply) (fuel : nat) (c : Call) (e : Engine)
    : option Engine :=
  match c with
  | Execute intent environment => execute exchange fuel intent environment e
  | HandleFill msg environment => Some (handle_fill msg environment e)
  | HandleOrderUpdate msg environment => Some (handle_order_update msg environment e)
  | LoadStateFromDb open_orders positions =>
      Some (load_state_from_db open_orders positions e)
  | SetRestConfigured configured => Some (set_rest_configured configured e)
  end.

Fixpoint run_calls (exchange : nat -> HttpReply) (fuel : nat) (cs : list Call)
    (e : Engine) : option Engine :=
  match cs with
  | [] => Some e
  | c :: cs =>
      match run_call exchange fuel c e with
      | Some e => run_calls exchange fuel cs e
      | None => None
      end
  end.

(** ** What a trace shows *)

(** The bodies of the HTTP requests made, oldest first. *)
Definition posts (tr : list Event) : list OrderBody :=
  omap (fun ev => match ev with HttpPost body _ => Some body | _ => None end) tr.

(** The [client_order_id]s of the requests the exchange accepted (200 or 201). *)
Definition accepted_ids (tr : list Event) : list string :=
  omap (fun ev =>
          match ev with
          | HttpPost body (Response status _) =>
              if (status =? 200) || (status =? 201)
              then Some (b_client_order_id body) else None
          | _ => None
          end) tr.

(** The order rows handed to the database. *)
Definition inserted_orders (tr : list Event) : list OrderRecord :=
  omap (fun ev => match ev with DbInsertOrder r _ => Some r | _ => None end) tr.

(** The pauses taken, in seconds. *)
Definition sleeps (tr : list Event) : list Q :=
  omap (fun ev => match ev with Sleep d => Some d | _ => None end) tr.

(** An intent whose fields pass every check of [_validate]. *)
Definition valid (intent : TradeIntent) : Prop :=
  1 <= price intent <= 99
  /\ 0 < count intent
  /\ market_ticker intent ≠ ""
  /\ (action intent = "buy" \/ action intent = "sell")
  /\ (side intent = "yes" \/ side intent = "no").

(** [e'] is [e] after the events [evs]: the trace is longer by them and
    nothing but [served] has changed otherwise. *)
Definition grows (e e' : Engine) (evs : list Event) : Prop :=
  trace e' = trace e ++ evs
  /\ rest_configured e' = rest_configured e
  /\ _db e' = _db e
  /\ _env e' = _env e
  /\ _broadcaster e' = _broadcaster e
  /\ _submitted_ids e' = _submitted_ids e
  /\ _open_orders e' = _open_orders e
  /\ _positions e' = _positions e.

(** An exchange that answers with 200, 201 or an error status only. *)
Definition plain (exchange : nat -> HttpReply) : Prop :=
  forall k status body,
    exchange k = Response status body -> status = 200 \/ status = 201 \/ 400 <= status.

(** No accepted request is repeated, and every accepted id is recorded. *)
Definition submits_unique (e : Engine) : Prop :=
  NoDup (accepted_ids (trace e))
  /\ forall id, id ∈ accepted_ids (trace e) -> id ∈ _submitted_ids e.

(** What a call of [_request] that returned [r] has done: requests with the
    given body only, none of them accepted unless [r] is the decoded body of
    the last one, and no [PermissionError]. *)
Definition request_post (body : OrderBody) (e e' : Engine) (r : Result RespBody) : Prop :=
  exists evs,
    grows e e' evs
    /\ served e' = (served e + length (posts evs))%nat
    /\ Forall (eq body) (posts evs)
    /\ inserted_orders evs = []
    /\ accepted_ids evs = match r with Ok _ => [b_client_order_id body] | Raise _ => [] end
    /\ r <> Raise PermissionError
    /\ (rest_configured e = true -> (0 < length (posts evs))%nat).

(** What a call of [_submit_with_retry] that returned has done: requests
    with the body of the intent only, at most one of them accepted, at most
    one order row handed to the database, the recorded ids left alone. *)
Definition submit_post (intent : TradeIntent) (e e' : Engine) : Prop :=
  exists evs,
    trace e' = trace e ++ evs
    /\ _submitted_ids e' = _submitted_ids e
    /\ served e' = (served e + length (posts evs))%nat
    /\ Forall (eq (order_body intent)) (posts evs)
    /\ (accepted_ids evs = [] \/ accepted_ids evs = [client_order_id intent])
    /\ (length (inserted_orders evs) <= length (accepted_ids evs))%nat.

(** The events of one attempt of [_submit_with_retry] that the exchange
    answers with 401. *)
Definition unauthorized_attempt (body : OrderBody) (rb : RespBody) (attempt : nat)
    : list Event :=
  [HttpPost body (Response 401 rb);
   Log WARNING "Kalshi REST non-retryable error";
   Log WARNING "Order submission failed";
   Sleep (0.1 * pow2 attempt)%Q].

(** The events that close a submission whose attempts have all failed. *)
Definition exhausted (intent : TradeIntent) (environment : string) (broadcaster : bool)
    : list Event :=
  Log ERROR "Order permanently FAILED after retries"
  :: (if broadcaster
      then [Broadcast (OrderFailed (client_order_id intent) (market_ticker intent)
                         environment)]
      else []).

(** ** Sample inputs *)

Definition empty_order : OrderDict := mkOrderDict None None None None.

(** [{"order": {"order_id": "O1", "status": "resting"}}] *)
Definition resting_O1 : RespBody :=
  mkRespBody (Some (mkOrderDict (Some "O1") None (Some "resting") None)) empty_order.

Definition empty_body : RespBody := mkRespBody None empty_order.

(** An exchange that answers every request with the same status. *)
Definition always (status : Z) : nat -> HttpReply :=
  fun _ => Response status (if (status =? 200) || (status =? 201) then resting_O1 else empty_body).

(** buy yes BTC-X, limit, one contract, at a given price *)
Definition intent_at (p : Z) : TradeIntent :=
  {| agent_id := "agent-1";
     client_order_id := "order-1";
     market_ticker := "BTC-X";
     action := "buy";
     side := "yes";
     order_type := "limit";
     price := p;
     count := 1;
     confidence := 0.7;
     generated_at := 0 |}.

(** A configured demo engine with a database and a broadcaster. *)
Definition demo_engine : Engine := new_engine true true "demo" true.

(** ** More of the REST client and the engine *)
(** An exchange that answers every request with the given status. *)
Definition answers (exchange : nat -> HttpReply) (status : Z) : Prop :=
  forall k, exists body, exchange k = Response status body.

(** [base_delay * (2 ** attempt) if status == 429 else base_delay] *)
Definition retry_delay (status : Z) (base_delay : Q) (attempt : nat) : Q :=
  if status =? 429 then (base_delay * pow2 attempt)%Q else base_delay.

(** An exchange that lets every request time out. *)
Definition times_out (exchange : nat -> HttpReply) : Prop :=
  forall k, exchange k = TimedOut.

(** The events of one attempt of [_submit_with_retry] that ends in an
    exception other than [PermissionError], after the REST client's own. *)
Definition failed_attempt (attempt : nat) : list Event :=
  [Log WARNING "Order submission failed"; Sleep (0.1 * pow2 attempt)%Q].

(** The status updates handed to the database: [(order_id, status)]. *)
Definition status_updates (tr : list Event) : list (string * string) :=
  omap (fun ev =>
          match ev with
          | DbUpdateOrderStatus order_id status _ => Some (order_id, status)
          | _ => None
          end) tr.

(** [handle_fill] on each message of a list, in order. *)
Definition handle_fills (msgs : list UserMsg) (environment : string) (e : Engine) : Engine :=
  fold_left (fun e msg => handle_fill msg environment e) msgs e.

(** The contracts the messages report as filled. *)
Definition filled (msgs : list UserMsg) : Z :=
  foldr (fun msg total => default 0 (um_count msg) + total) 0 msgs.

(** What the engine promises of an order row: the price and count of an
    intent that passed [_validate], nothing filled yet. *)
Definition row_ok (r : OrderRecord) : Prop :=
  1 <= or_price r <= 99 /\ 0 < or_count r /\ or_remaining_count r = or_count r.

(** The row [_on_order_success] hands to the database. *)
Definition order_record (order : OrderDict) (intent : TradeIntent) : OrderRecord :=
  {| or_order_id := default "" (od_order_id order);
     or_client_order_id := client_order_id intent;
     or_agent_id := agent_id intent;
     or_market_ticker := market_ticker intent;
     or_action := action intent;
     or_side := side intent;
     or_order_type := order_type intent;
     or_price := price intent;
     or_count := count intent;
     or_remaining_count := count intent;
     or_status := default "resting" (od_status order) |}.

(** The order rows of a trace agree with its accepted requests: with a
    database one row for each accepted request, in order and under the same
    [client_order_id], without one no row; and every row is [row_ok]. *)
Definition rows_agree (db : bool) (evs : list Event) : Prop :=
  map or_client_order_id (inserted_orders evs) = (if db then accepted_ids evs else [])
  /\ Forall row_ok (inserted_orders evs).

(** What [handle_fill] leaves of an order with [remaining] contracts open. *)
Definition with_remaining (order : OrderDict) (remaining : Z) : OrderDict :=
  mkOrderDict (od_order_id order) (od_client_order_id order) (od_status order)
              (Some remaining).

(** [{"order_id": order_id, "count": count, "fill_id": fill_id}] *)
Definition fill_of (order_id : string) (count : Z) (fill_id : string) : UserMsg :=
  mkUserMsg (Some order_id) (Some count) (Some fill_id) None "".

(** A step that hands no order row to the database and has no request
    accepted. *)
Definition quiet (e e' : Engine) : Prop :=
  _db e' = _db e
  /\ inserted_orders (trace e') = inserted_orders (trace e)
  /\ accepted_ids (trace e') = accepted_ids (trace e).

(** A demo engine that tracks one order, O1 of client id order-1, with three
    contracts still open. *)
Definition engine_with_O1 : Engine :=
  set_open_orders
    {["O1" := mkOrderDict (Some "O1") (Some "order-1") (Some "resting") (Some 3)]}
    demo_engine.

End Execution.

(** * market_discovery.py *)
Module Discovery.
Import MarketCache WebSocket.

Local Open Scope string_scope.
Local Open Scope list_scope.
Local Open Scope Z_scope.

Definition _WS_CHANNELS : list string :=
  ["ticker"; "orderbook_delta"; "trade"; "market_lifecycle"].

(** Internal market states *)
Definition STATE_ACTIVE : string := "ACTIVE".
Definition STATE_WATCHLIST : string := "WATCHLIST".
Definition STATE_INACTIVE : string := "INACTIVE".
Definition STATE_IGNORED : string := "IGNORED".

Definition _KALSHI_STATUS_TO_INTERNAL : gmap string string :=
  list_to_map
    [("open", STATE_ACTIVE);
     ("active", STATE_ACTIVE);
     ("closed", STATE_INACTIVE);
     ("settled", STATE_INACTIVE);
     ("halted", STATE_WATCHLIST);
     ("finalized", STATE_INACTIVE)].

(** [str.lower()] on the bytes of the string: the letters A to Z are
    lowered, every other byte is kept.  Python also lowers letters beyond
    ASCII; none of them is lowered into a key of the table, whose keys have
    ASCII letters only (and no k, the one ASCII letter that a letter beyond
    ASCII is lowered to), so the state looked up is the same. *)
Definition lower_ascii (c : Ascii.ascii) : Ascii.ascii :=
  let n := Ascii.nat_of_ascii c in
  if ((65 <=? n) && (n <=? 90))%nat then Ascii.ascii_of_nat (n + 32) else c.

Fixpoint lower (s : string) : string :=
  match s with
  | EmptyString => EmptyString
  | String c s => String (lower_ascii c) (lower s)
  end.

(** A [MarketDiscovery] with the cache and the WebSocket client it drives.
    [_db] tells whether it was given a database; [persist_tasks] lists the
    [_persist_market(market, internal_state)] tasks created, oldest first. *)
Record Discovery := mkDiscovery {
  _cache : Cache;
  _ws : Client;
  _db : bool;
  _subscribed : gset string;
  persist_tasks : list (MarketData * string)
}.

(** [MarketDiscovery(rest_client, ws_client, cache, db)] *)
Definition new_discovery (ws_client : Client) (cache : Cache) (db : bool) : Discovery :=
  mkDiscovery cache ws_client db ∅ [].

(** [internal_state] of [_process_market]. *)
Definition internal_state (market : MarketData) : string :=
  let kalshi_status := lower (default "" (md_status market)) in
  default STATE_INACTIVE (_KALSHI_STATUS_TO_INTERNAL !! kalshi_status).

Definition _ensure_subscribed (ticker : string) (d : Discovery) : Discovery :=
  if decide (ticker ∈ _subscribed d) then d
  else
    mkDiscovery (_cache d) (subscribe _WS_CHANNELS [ticker] (_ws d)) (_db d)
                (_subscribed d ∪ {[ticker]}) (persist_tasks d).

Definition _process_market (market : MarketData) (d : Discovery) : Discovery :=
  if negb (truthy (md_ticker market)) then d
  else
    let ticker := default "" (md_ticker market) in
    let internal_state := internal_state market in
    (* Populate local cache (metadata + initial prices) *)
    let d := mkDiscovery (upsert_from_discovery market (_cache d)) (_ws d) (_db d)
                         (_subscribed d) (persist_tasks d) in
    (* Persist to database (fire-and-forget) *)
    let d :=
      if _db d
      then mkDiscovery (_cache d) (_ws d) (_db d) (_subscribed d)
                       (persist_tasks d ++ [(market, internal_state)])
      else d in
    (* Subscribe active/watchlist markets to WebSocket *)
    if bool_decide (internal_state ∈ [STATE_ACTIVE; STATE_WATCHLIST]) then
      _ensure_subscribed ticker d
    else if decide (ticker ∈ _subscribed d) then
      (* Unsubscribe markets that have gone inactive *)
      mkDiscovery (_cache d) (unsubscribe _WS_CHANNELS [ticker] (_ws d)) (_db d)
                  (_subscribed d ∖ {[ticker]}) (persist_tasks d)
    else d.

(** [for market in markets: await self._process_market(market)] *)
Definition process_markets (markets : list MarketData) (d : Discovery) : Discovery :=
  fold_left (fun d market => _process_market market d) markets d.

(** The market is one that [_process_market] keeps subscribed. *)
Definition watched (market : MarketData) : bool :=
  bool_decide (internal_state market ∈ [STATE_ACTIVE; STATE_WATCHLIST]).

(** The markets of a list that carry the ticker. *)
Definition about (ticker : string) (markets : list MarketData) : list MarketData :=
  filter (fun market => md_ticker market = Some ticker) markets.

(** [{"ticker": ticker, "status": status}] *)
Definition market_of (ticker status : string) : MarketData :=
  mkMarketData (Some ticker) None None None None None None None (Some status).

(** What links the discovery's own set to the client's desired set and to
    the cache. *)
Definition agrees (d : Discovery) : Prop :=
  (forall key, key ∈ _subscriptions (_ws d)
               <-> key.1 ∈ _WS_CHANNELS /\ key.2 ∈ _subscribed d)
  /\ (forall t, t ∈ _subscribed d -> t <> "" /\ is_Some (cache (_cache d) !! t)).

End Discovery.

(** * agents/peritia.py *)
Module Peritia.
Import Trading Permission.

Local Open Scope string_scope.
Local Open Scope list_scope.
Local Open Scope Z_scope.

(** minimum abs imbalance to trade (15%) *)
Definition _IMBALANCE_THRESHOLD : Q := 0.15.
Definition _DEFAULT_COUNT : Z := 1.
(** ms between orders on the same market *)
Definition _COOLDOWN_MS : Z := 5000.

(** [a < b] on floats. *)
Definition Qltb (a b : Q) : bool := negb (Qle_bool b a).

(** [abs(x)] *)
Definition abs (x : Q) : Q := if Qltb x 0 then (- x)%Q else x.

(** [min(a, b)] *)
Definition min (a b : Q) : Q := if Qltb b a then b else a.

(** [sum(d.values())] *)
Definition sum_values (d : gmap Z Z) : Z :=
  map_fold (fun _ quantity total => quantity + total) 0 d.

(** The [agent_decision] event, without the two floats it carries rounded
    for display ([round(imbalance, 4)], [round(confidence, 3)]). *)
Record Decision := mkDecision {
  dc_agent_id : string;
  dc_agent_name : string;
  dc_ticker : string;
  dc_side : string;
  dc_price : Z
}.

(** An [AgentPeritia]: its id, whether it was given a broadcaster, the
    cooldown table, and what it has logged and broadcast, oldest first. *)
Record Agent := mkAgent {
  agent_id : string;
  _broadcaster : bool;
  _last_order_ms : gmap string Z;
  logged : list LogRecord;
  broadcast : list Decision
}.

(** [_compute_imbalance(state)].  A stored orderbook always has its three
    keys, so [not state.orderbook] is [state.orderbook is None]; the division
    of two [int]s is the exact quotient.  (The float the code gets is that
    quotient rounded; the comparisons [_evaluate_market] makes of it, with 0
    and with 0.15, come out the same as long as the total volume is below
    2^50.) *)
Definition _compute_imbalance (state : MarketCache.MarketState) : option Q :=
  let '(yes_vol, no_vol) :=
    match MarketCache.orderbook state with
    | None =>
        (* Fall back to top-of-book quantities if full orderbook is absent *)
        (MarketCache.yes_bid state, MarketCache.no_bid state)
    | Some ob =>
        (sum_values (MarketCache.ob_yes ob), sum_values (MarketCache.ob_no ob))
    end in
  let total := yes_vol + no_vol in
  if total =? 0 then None
  else Some (inject_Z (yes_vol - no_vol) / inject_Z total)%Q.

(** [_evaluate_market(state)]: [now_ms] is the time read from the clock at
    its start, [new_id] the [uuid4()] drawn for the intent and [made_at] the
    time the [TradeIntent] reads for its [generated_at]; [layer] is the
    permission layer the agent submits to, [w] the world behind it. *)
Definition _evaluate_market {W : Type} (now_ms made_at : Z) (new_id : string)
    (state : MarketCache.MarketState) (layer : Layer W) (a : Agent) (w : W)
    : Agent * (W * Result unit) :=
  let ticker := MarketCache.market_ticker state in
  (* Cooldown check *)
  let last := default 0 (_last_order_ms a !! ticker) in
  if now_ms - last <? _COOLDOWN_MS then (a, (w, Ok tt))
  else
    match _compute_imbalance state with
    | None => (a, (w, Ok tt))
    | Some imbalance =>
        let abs_imbalance := abs imbalance in
        if Qltb abs_imbalance _IMBALANCE_THRESHOLD then (a, (w, Ok tt))
        else
          let confidence := min 1 abs_imbalance in
          let '(side, price) :=
            if Qltb 0 imbalance then
              (* More yes-bid volume → buy yes *)
              ("yes",
               if MarketCache.yes_bid state <? 98
               then MarketCache.yes_bid state + 1 else MarketCache.yes_bid state)
            else
              (* More no-bid volume → buy no *)
              ("no",
               if MarketCache.no_bid state <? 98
               then MarketCache.no_bid state + 1 else MarketCache.no_bid state) in
          let action := "buy" in
          let price := Z.max 1 (Z.min 99 price) in
          let intent :=
            {| Trading.agent_id := agent_id a;
               client_order_id := new_id;
               market_ticker := ticker;
               action := action;
               side := side;
               order_type := "limit";
               price := price;
               count := _DEFAULT_COUNT;
               confidence := confidence;
               generated_at := made_at |} in
          let a :=
            mkAgent (agent_id a) (_broadcaster a)
                    (<[ticker := now_ms]> (_last_order_ms a))
                    (logged a ++ [(INFO, "AgentPeritia generating TradeIntent")])
                    (if _broadcaster a
                     then broadcast a ++ [mkDecision (agent_id a) "AgentPeritia" ticker side price]
                     else broadcast a) in
          (a, submit layer intent w)
    end.

(** The limit price [_evaluate_market] derives from a best bid. *)
Definition limit_price (bid : Z) : Z :=
  Z.max 1 (Z.min 99 (if bid <? 98 then bid + 1 else bid)).

(** The two volumes [_compute_imbalance] compares. *)
Definition volumes (state : MarketCache.MarketState) : Z * Z :=
  match MarketCache.orderbook state with
  | None => (MarketCache.yes_bid state, MarketCache.no_bid state)
  | Some ob => (sum_values (MarketCache.ob_yes ob), sum_values (MarketCache.ob_no ob))
  end.

(** No quantity of the book is negative (no bid, when there is no book). *)
Definition nonneg_volumes (state : MarketCache.MarketState) : Prop :=
  match MarketCache.orderbook state with
  | None => 0 <= MarketCache.yes_bid state /\ 0 <= MarketCache.no_bid state
  | Some ob =>
      map_Forall (fun _ quantity => 0 <= quantity) (MarketCache.ob_yes ob)
      /\ map_Forall (fun _ quantity => 0 <= quantity) (MarketCache.ob_no ob)
  end.

(** BTC-X, open, with the book [{"yes": {40: 3}, "no": {55: 1}, "seq": 1}]. *)
Definition btc_with_book : MarketCache.MarketState :=
  {| MarketCache.market_ticker := "BTC-X";
     MarketCache.event_ticker := "";
     MarketCache.series_ticker := "";
     MarketCache.market_status := "open";
     MarketCache.yes_bid := 40;
     MarketCache.no_bid := 55;
     MarketCache.yes_ask := 45;
     MarketCache.no_ask := 60;
     MarketCache.last_price := 0;
     MarketCache.volume := 0;
     MarketCache.open_interest := 0;
     MarketCache.spread := 5;
     MarketCache.midpoint := 42.5;
     MarketCache.implied_probability := 0.4;
     MarketCache.last_updated_timestamp := 0;
     MarketCache.orderbook := Some (MarketCache.mkOrderbook {[40 := 3]} {[55 := 1]} (Some 1));
     MarketCache.recent_trades := [] |}.

(** An agent with the id that [open_layer] holds in Auto mode. *)
Definition peritia_1 : Agent := mkAgent "agent-1" true ∅ [] [].

End Peritia.
(** * Properties *)

#[local] Set Warnings "-clear-no-such-hyp".

Lemma truthy_Some (s : option string) :
  truthy s = true -> exists t, s = Some t /\ t <> EmptyString.
Proof.
  destruct s as [[|a t]|]; simpl; intros H; try discriminate.
  exists (String a t). split; [reflexivity | discriminate].
Qed.

Lemma truthy_nonempty (t : string) : t <> EmptyString -> truthy (Some t) = true.
Proof. destruct t; [congruence | reflexivity]. Qed.


(** * The market cache *)
Module MarketCacheFacts.
Import MarketCache.

Ltac ticker_cases opt H t Ht Hne :=
  destruct (truthy opt) eqn:H; simpl;
  [ destruct (truthy_Some _ H) as (t & Ht & Hne); rewrite Ht in *; simpl in * | ].

Section Derived.

Lemma midpoint_eq (b a : Z) :
  (inject_Z (b + a) / 2 == (inject_Z b + inject_Z a) / 2)%Q.
Proof. rewrite inject_Z_plus. reflexivity. Qed.

Lemma compute_derived_ok (yes_bid no_bid : Z) :
  let '(yes_ask, no_ask, spread, midpoint, _) := _compute_derived yes_bid no_bid in
  yes_ask = 100 - no_bid /\ no_ask = 100 - yes_bid /\ spread = yes_ask - yes_bid
  /\ (midpoint == (inject_Z yes_bid + inject_Z yes_ask) / 2)%Q.
Proof. simpl. repeat split; try reflexivity. apply midpoint_eq. Qed.

End Derived.

(** ** What each write stores under the ticker it touches *)
Section Writes.

Variable c : Cache.

Lemma upsert_from_ticker_other (msg : TickerMsg) (t : string) :
  tm_market_ticker msg <> Some t ->
  cache (upsert_from_ticker msg c) !! t = cache c !! t.
Proof.
  intros Hne. unfold upsert_from_ticker.
  ticker_cases (tm_market_ticker msg) H t0 Ht0 Hne0; [|reflexivity].
  destruct (tm_yes_ask msg); simpl; apply lookup_insert_ne; congruence.
Qed.

Lemma upsert_from_ticker_entry (msg : TickerMsg) (t : string) :
  tm_market_ticker msg = Some t -> t <> EmptyString ->
  exists st, cache (upsert_from_ticker msg c) !! t = Some st
    /\ yes_bid st = default 0 (tm_yes_bid msg)
    /\ no_bid st = default 0 (tm_no_bid msg)
    /\ yes_ask st = default (100 - no_bid st) (tm_yes_ask msg)
    /\ no_ask st = 100 - yes_bid st
    /\ spread st = (100 - no_bid st) - yes_bid st
    /\ (midpoint st == (inject_Z (yes_bid st) + inject_Z (100 - no_bid st)) / 2)%Q.
Proof.
  intros Ht Hne. unfold upsert_from_ticker.
  rewrite Ht, (truthy_nonempty _ Hne). simpl.
  destruct (tm_yes_ask msg) as [a|]; simpl; rewrite lookup_insert_eq;
    eexists; (split; [reflexivity|]);
    destruct (cache c !! t); simpl; repeat split; try reflexivity;
    apply midpoint_eq.
Qed.

Lemma upsert_from_discovery_other (md : MarketData) (t : string) :
  md_ticker md <> Some t ->
  cache (upsert_from_discovery md c) !! t = cache c !! t.
Proof.
  intros Hne. unfold upsert_from_discovery.
  ticker_cases (md_ticker md) H t0 Ht0 Hne0; [|reflexivity].
  apply lookup_insert_ne; congruence.
Qed.

Lemma upsert_from_discovery_new (md : MarketData) (t : string) :
  md_ticker md = Some t -> t <> EmptyString -> cache c !! t = None ->
  exists st, cache (upsert_from_discovery md c) !! t = Some st /\ derived_ok st.
Proof.
  intros Ht Hne Hnone. unfold upsert_from_discovery.
  rewrite Ht, (truthy_nonempty _ Hne). simpl. rewrite Hnone, lookup_insert_eq.
  eexists; split; [reflexivity|].
  unfold derived_ok; simpl. repeat split; try reflexivity. apply midpoint_eq.
Qed.

Lemma upsert_from_discovery_existing (md : MarketData) (t : string) (old : MarketState) :
  md_ticker md = Some t -> t <> EmptyString -> cache c !! t = Some old ->
  exists st, cache (upsert_from_discovery md c) !! t = Some st
    /\ yes_bid st = yes_bid old /\ no_bid st = no_bid old
    /\ yes_ask st = yes_ask old /\ no_ask st = no_ask old
    /\ spread st = spread old /\ midpoint st = midpoint old.
Proof.
  intros Ht Hne Hold. unfold upsert_from_discovery.
  rewrite Ht, (truthy_nonempty _ Hne). simpl. rewrite Hold, lookup_insert_eq.
  eexists; split; [reflexivity|]. simpl. repeat split; reflexivity.
Qed.

Lemma apply_orderbook_delta_other (msg : OrderbookMsg) (t : string) :
  om_market_ticker msg <> Some t ->
  cache (apply_orderbook_delta msg c) !! t = cache c !! t.
Proof.
  intros Hne. unfold apply_orderbook_delta.
  ticker_cases (om_market_ticker msg) H t0 Ht0 Hne0; [|reflexivity].
  destruct (cache c !! t0); [|reflexivity].
  apply lookup_insert_ne; congruence.
Qed.

Lemma apply_orderbook_delta_entry (msg : OrderbookMsg) (t : string) (old : MarketState) :
  om_market_ticker msg = Some t -> t <> EmptyString -> cache c !! t = Some old ->
  exists st, cache (apply_orderbook_delta msg c) !! t = Some st /\ derived_ok st.
Proof.
  intros Ht Hne Hold. unfold apply_orderbook_delta.
  rewrite Ht, (truthy_nonempty _ Hne). simpl. rewrite Hold. simpl.
  rewrite lookup_insert_eq. eexists; split; [reflexivity|].
  unfold derived_ok; simpl. repeat split; try reflexivity. apply midpoint_eq.
Qed.

Lemma append_trade_prices (msg : TradeMsg) (t : string) (st : MarketState) :
  cache (append_trade msg c) !! t = Some st ->
  exists old, cache c !! t = Some old
    /\ yes_bid st = yes_bid old /\ no_bid st = no_bid old
    /\ yes_ask st = yes_ask old /\ no_ask st = no_ask old
    /\ spread st = spread old /\ midpoint st = midpoint old.
Proof.
  unfold append_trade.
  ticker_cases (trm_market_ticker msg) H t0 Ht0 Hne0.
  - destruct (cache c !! t0) as [s0|] eqn:E0.
    + destruct (decide (t0 = t)) as [->|Hd].
      * rewrite lookup_insert_eq. intros [= <-]. exists s0. rewrite E0.
        simpl. repeat split; reflexivity.
      * rewrite lookup_insert_ne by exact Hd. intros Hst. exists st.
        repeat split; auto.
    + intros Hst. exists st. repeat split; auto.
  - intros Hst. exists st. repeat split; auto.
Qed.

Lemma update_status_prices (ticker status t : string) (st : MarketState) :
  cache (update_status ticker status c) !! t = Some st ->
  exists old, cache c !! t = Some old
    /\ yes_bid st = yes_bid old /\ no_bid st = no_bid old
    /\ yes_ask st = yes_ask old /\ no_ask st = no_ask old
    /\ spread st = spread old /\ midpoint st = midpoint old.
Proof.
  unfold update_status. simpl.
  destruct (cache c !! ticker) as [s0|] eqn:E0.
  - destruct (decide (ticker = t)) as [->|Hd].
    + rewrite lookup_insert_eq. intros [= <-]. exists s0. rewrite E0.
      simpl. repeat split; reflexivity.
    + rewrite lookup_insert_ne by exact Hd. intros Hst. exists st.
      repeat split; auto.
  - intros Hst. exists st. repeat split; auto.
Qed.

End Writes.

(** ** Invariants of the cache *)
Section Invariants.

Lemma well_keyed_new : well_keyed new_cache.
Proof. unfold well_keyed. apply lookup_empty. Qed.

Lemma well_keyed_write (w : write) (c : Cache) :
  well_keyed c -> well_keyed (run_write w c).
Proof.
  unfold well_keyed. intros Hc.
  destruct w as [msg|md|msg|msg|ticker status]; simpl.
  - unfold upsert_from_ticker.
    ticker_cases (tm_market_ticker msg) H t Ht Hne; [|exact Hc].
    destruct (tm_yes_ask msg); simpl; rewrite lookup_insert_ne; auto.
  - unfold upsert_from_discovery.
    ticker_cases (md_ticker md) H t Ht Hne; [|exact Hc].
    rewrite lookup_insert_ne; auto.
  - unfold apply_orderbook_delta.
    ticker_cases (om_market_ticker msg) H t Ht Hne; [|exact Hc].
    destruct (cache c !! t); [|exact Hc]. simpl. rewrite lookup_insert_ne; auto.
  - unfold append_trade.
    ticker_cases (trm_market_ticker msg) H t Ht Hne; [|exact Hc].
    destruct (cache c !! t); [|exact Hc]. rewrite lookup_insert_ne; auto.
  - unfold update_status. simpl.
    destruct (cache c !! ticker) eqn:E; [|exact Hc].
    rewrite lookup_insert_ne; [exact Hc|]. intros ->. congruence.
Qed.

Lemma well_keyed_writes (ws : list write) (c : Cache) :
  well_keyed c -> well_keyed (run_writes ws c).
Proof.
  revert c. induction ws as [|w ws IH]; intros c Hc; simpl; [exact Hc|].
  apply IH, well_keyed_write, Hc.
Qed.

Lemma derived_ok_same (st old : MarketState) :
  yes_bid st = yes_bid old -> no_bid st = no_bid old ->
  yes_ask st = yes_ask old -> no_ask st = no_ask old ->
  spread st = spread old -> midpoint st = midpoint old ->
  derived_ok old -> derived_ok st.
Proof.
  unfold derived_ok. intros -> -> -> -> -> ->. auto.
Qed.

Lemma cache_inv_new : cache_inv new_cache.
Proof. intros t st H. simpl in H. rewrite lookup_empty in H. discriminate. Qed.

Lemma cache_inv_write (w : write) (c : Cache) :
  cache_inv c -> write_consistent w -> cache_inv (run_write w c).
Proof.
  intros Hc Hw t st.
  destruct w as [msg|md|msg|msg|ticker status]; simpl.
  - destruct (decide (tm_market_ticker msg = Some t)) as [Ht|Ht].
    + destruct t as [|a t'].
      * unfold upsert_from_ticker. rewrite Ht. simpl. apply Hc.
      * destruct (upsert_from_ticker_entry c msg _ Ht ltac:(discriminate))
          as (st' & -> & Hyb & Hnb & Hya & Hna & Hsp & Hmid).
        intros [= <-]. simpl in Hw. unfold ticker_consistent in Hw.
        assert (Hask : yes_ask st' = 100 - no_bid st').
        { rewrite Hya. destruct (tm_yes_ask msg); simpl; [|reflexivity].
          rewrite Hw, Hnb. reflexivity. }
        unfold derived_ok. rewrite Hask. auto.
    + rewrite upsert_from_ticker_other by exact Ht. apply Hc.
  - destruct (decide (md_ticker md = Some t)) as [Ht|Ht].
    + destruct t as [|a t'].
      * unfold upsert_from_discovery. rewrite Ht. simpl. apply Hc.
      * destruct (cache c !! String a t') as [old|] eqn:E.
        -- destruct (upsert_from_discovery_existing c md _ old Ht ltac:(discriminate) E)
             as (st' & -> & H1 & H2 & H3 & H4 & H5 & H6).
           intros [= <-]. eapply derived_ok_same; eauto.
        -- destruct (upsert_from_discovery_new c md _ Ht ltac:(discriminate) E)
             as (st' & -> & Hok).
           intros [= <-]. exact Hok.
    + rewrite upsert_from_discovery_other by exact Ht. apply Hc.
  - destruct (decide (om_market_ticker msg = Some t)) as [Ht|Ht].
    + destruct t as [|a t'].
      * unfold apply_orderbook_delta. rewrite Ht. simpl. apply Hc.
      * destruct (cache c !! String a t') as [old|] eqn:E.
        -- destruct (apply_orderbook_delta_entry c msg _ old Ht ltac:(discriminate) E)
             as (st' & -> & Hok).
           intros [= <-]. exact Hok.
        -- unfold apply_orderbook_delta. rewrite Ht. simpl. rewrite E. apply Hc.
    + rewrite apply_orderbook_delta_other by exact Ht. apply Hc.
  - intros Hst. destruct (append_trade_prices c msg t st Hst)
      as (old & Hold & H1 & H2 & H3 & H4 & H5 & H6).
    eapply derived_ok_same; eauto.
  - intros Hst. destruct (update_status_prices c ticker status t st Hst)
      as (old & Hold & H1 & H2 & H3 & H4 & H5 & H6).
    eapply derived_ok_same; eauto.
Qed.

(** Every cache built from the empty one by consistent writes satisfies the
    equations of the derived fields. *)
Lemma cache_inv_writes (ws : list write) (c : Cache) :
  cache_inv c -> Forall write_consistent ws -> cache_inv (run_writes ws c).
Proof.
  revert c. induction ws as [|w ws IH]; intros c Hc Hws; simpl; [exact Hc|].
  inversion Hws; subst. apply IH; [apply cache_inv_write|]; assumption.
Qed.

End Invariants.

(** ** The orderbook *)
Section OrderbookFacts.

Lemma dict_of_levels_app (l : list (Z * Z)) (p q : Z) :
  dict_of_levels (l ++ [(p, q)]) = <[p := q]> (dict_of_levels l).
Proof. unfold dict_of_levels. rewrite fold_left_app. reflexivity. Qed.

(** The dict of a list of levels: the last level of a price decides. *)
Lemma dict_of_levels_reverse (l : list (Z * Z)) :
  dict_of_levels l = list_to_map (reverse l).
Proof.
  induction l as [|[p q] l IH] using rev_ind; [reflexivity|].
  rewrite dict_of_levels_app, reverse_snoc. simpl. rewrite IH. reflexivity.
Qed.

(** When no price is listed twice, the dict holds the levels of the message
    and nothing else. *)
Lemma dict_of_levels_NoDup (l : list (Z * Z)) :
  NoDup l.*1 -> map_to_list (dict_of_levels l) ≡ₚ l.
Proof.
  intros Hnd. rewrite dict_of_levels_reverse.
  rewrite map_to_list_to_map.
  - apply reverse_Permutation.
  - rewrite fmap_reverse, reverse_Permutation. exact Hnd.
Qed.

Lemma fold_max_spec (ks : list Z) : forall k,
  fold_left Z.max ks k ∈ k :: ks
  /\ forall x, x ∈ k :: ks -> x <= fold_left Z.max ks k.
Proof.
  induction ks as [|k' ks IH]; intros k; simpl.
  - split; [apply list_elem_of_here|].
    intros x Hx. apply list_elem_of_singleton in Hx. lia.
  - destruct (IH (Z.max k k')) as [Hin Hle]. split.
    + apply elem_of_cons in Hin as [Hin|Hin].
      * rewrite Hin. destruct (Z.max_spec k k') as [[_ ->]|[_ ->]].
        -- apply list_elem_of_further, list_elem_of_here.
        -- apply list_elem_of_here.
      * do 2 apply list_elem_of_further. exact Hin.
    + intros x Hx.
      assert (Hmax : Z.max k k' <= fold_left Z.max ks (Z.max k k'))
        by apply Hle, list_elem_of_here.
      apply elem_of_cons in Hx as [->|Hx]; [lia|].
      apply elem_of_cons in Hx as [->|Hx]; [lia|].
      apply Hle, list_elem_of_further, Hx.
Qed.

(** [max_key] is [max(d.keys(), default=0)]: 0 on the empty dict, else the
    greatest price of the dict. *)
Lemma max_key_spec (d : gmap Z Z) :
  (d = ∅ -> max_key d = 0)
  /\ (d <> ∅ -> max_key d ∈ dom d /\ forall k, k ∈ dom d -> k <= max_key d).
Proof.
  unfold max_key. split.
  - intros ->. rewrite dom_empty_L, elements_empty. reflexivity.
  - intros Hne. destruct (elements (dom d)) as [|k ks] eqn:E.
    + exfalso. apply Hne. apply elements_empty_inv in E.
      apply dom_empty_inv_L. apply leibniz_equiv. exact E.
    + destruct (fold_max_spec ks k) as [Hin Hle]. rewrite <- E in Hin, Hle.
      split; [apply elem_of_elements, Hin|].
      intros x Hx. apply Hle, elem_of_elements, Hx.
Qed.

Lemma apply_orderbook_delta_snapshot (msg : OrderbookMsg) (c : Cache)
    (t : string) (old : MarketState) :
  om_market_ticker msg = Some t -> t <> EmptyString ->
  cache c !! t = Some old ->
  om_seq msg = Some 1 \/ orderbook old = None ->
  exists st, cache (apply_orderbook_delta msg c) !! t = Some st
    /\ orderbook st =
         Some (mkOrderbook (dict_of_levels (om_yes msg))
                           (dict_of_levels (om_no msg)) (om_seq msg)).
Proof.
  intros Ht Hne Hold Hsnap. unfold apply_orderbook_delta.
  rewrite Ht, (truthy_nonempty _ Hne). simpl. rewrite Hold. simpl.
  rewrite lookup_insert_eq. eexists; split; [reflexivity|]. simpl.
  destruct Hsnap as [Hseq|Hnone].
  - rewrite Hseq. rewrite bool_decide_eq_true_2 by reflexivity. reflexivity.
  - rewrite Hnone. rewrite orb_true_r. reflexivity.
Qed.

End OrderbookFacts.

(** ** Claims about the cache *)
Section CacheClaims.

(** C3, as stated, fails: a ticker message that carries its own [yes_ask]
    (here 55, next to [no_bid] 50 and [yes_bid] 40) has it stored as given, so
    the entry written to the empty cache has [yes_ask <> 100 - no_bid], and
    its [spread] (10) and [midpoint] (45) are not those of the stored
    [yes_ask] either. *)
Lemma ticker_yes_ask_breaks_derived :
  exists st,
    cache (upsert_from_ticker ticker_with_ask new_cache) !! "BTC-X"%string = Some st
    /\ yes_ask st = 55 /\ no_bid st = 50 /\ yes_bid st = 40
    /\ spread st = 10 /\ (midpoint st == 45)%Q
    /\ ~ derived_ok st.
Proof.
  destruct (upsert_from_ticker_entry new_cache ticker_with_ask "BTC-X"%string
              eq_refl ltac:(discriminate))
    as (st & Hst & Hyb & Hnb & Hya & Hna & Hsp & Hmid).
  simpl in Hyb, Hnb. rewrite Hnb in Hya, Hsp, Hmid. rewrite Hyb in Hsp, Hmid.
  simpl in Hya.
  exists st. repeat split; try assumption.
  - rewrite Hmid. reflexivity.
  - intros (Hbad & _). rewrite Hya, Hnb in Hbad. discriminate.
Qed.

(** C3, amended: when the equations of the derived fields hold for every
    MarketState before a write, they hold for every MarketState after it,
    for every write (upsert_from_ticker, upsert_from_discovery,
    apply_orderbook_delta, append_trade, update_status) other than a ticker
    message whose own [yes_ask] differs from [100 - no_bid]; a ticker message
    that carries [yes_ask] has that value stored, with
    [no_ask = 100 - yes_bid]. *)
Theorem derived_fields_after_write (w : write) (c : Cache) :
  cache_inv c ->
  (write_consistent w -> cache_inv (run_write w c))
  /\ (forall msg t a,
        w = UpsertFromTicker msg ->
        tm_market_ticker msg = Some t -> t <> EmptyString ->
        tm_yes_ask msg = Some a ->
        exists st, cache (run_write w c) !! t = Some st
          /\ yes_ask st = a /\ no_ask st = 100 - yes_bid st).
Proof.
  intros Hc. split.
  - intros Hw. apply cache_inv_write; assumption.
  - intros msg t a -> Ht Hne Ha. simpl.
    destruct (upsert_from_ticker_entry c msg t Ht Hne)
      as (st & Hst & _ & _ & Hya & Hna & _).
    exists st. rewrite Ha in Hya. auto.
Qed.

Lemma derived_fields_after_write_witness :
  cache_inv new_cache
  /\ write_consistent (UpsertFromTicker ticker_plain)
  /\ cache_inv (run_write (UpsertFromTicker ticker_plain) new_cache).
Proof.
  split; [exact cache_inv_new|]. split; [exact I|].
  apply (proj1 (derived_fields_after_write (UpsertFromTicker ticker_plain)
                  new_cache cache_inv_new)).
  exact I.
Defined.

(** C6: on a market present in the cache, a message with [seq == 1], or any
    message when the market has no orderbook yet, replaces the stored
    orderbook by the dicts of the message's yes and no levels and its seq,
    whatever the book was before; when no price is listed twice these dicts
    hold the levels of the message and nothing else. *)
Theorem snapshot_replaces_book (msg : OrderbookMsg) (c : Cache)
    (t : string) (old : MarketState) :
  well_keyed c ->
  om_market_ticker msg = Some t ->
  cache c !! t = Some old ->
  om_seq msg = Some 1 \/ orderbook old = None ->
  exists st book,
    cache (apply_orderbook_delta msg c) !! t = Some st
    /\ orderbook st = Some book
    /\ book = mkOrderbook (dict_of_levels (om_yes msg))
                          (dict_of_levels (om_no msg)) (om_seq msg)
    /\ (NoDup (om_yes msg).*1 -> map_to_list (ob_yes book) ≡ₚ om_yes msg)
    /\ (NoDup (om_no msg).*1 -> map_to_list (ob_no book) ≡ₚ om_no msg)
    /\ ob_seq book = om_seq msg.
Proof.
  intros Hwk Ht Hold Hsnap.
  assert (Hne : t <> EmptyString).
  { intros ->. unfold well_keyed in Hwk. congruence. }
  destruct (apply_orderbook_delta_snapshot msg c t old Ht Hne Hold Hsnap)
    as (st & Hst & Hbook).
  exists st. eexists. split; [exact Hst|]. split; [exact Hbook|].
  split; [reflexivity|]. simpl.
  repeat split; try reflexivity; apply dict_of_levels_NoDup.
Qed.

(** C10: a message whose market is not in the cache (or that names no market)
    changes nothing: no entry, no orderbook, and the notifier is left as it
    was. *)
Theorem orderbook_delta_unknown_market_noop (msg : OrderbookMsg) (c : Cache) :
  (forall t, om_market_ticker msg = Some t -> cache c !! t = None) ->
  apply_orderbook_delta msg c = c.
Proof.
  intros Habs. unfold apply_orderbook_delta.
  ticker_cases (om_market_ticker msg) H t Ht Hne; [|reflexivity].
  rewrite (Habs t eq_refl). reflexivity.
Qed.

Lemma snapshot_replaces_book_witness :
  exists st book,
    cache (apply_orderbook_delta snapshot_btc cache_with_book) !! "BTC-X"%string = Some st
    /\ orderbook st = Some book
    /\ map_to_list (ob_yes book) ≡ₚ [(40, 10); (38, 5)]
    /\ map_to_list (ob_no book) ≡ₚ [(55, 7)]
    /\ ob_seq book = Some 1.
Proof.
  edestruct (snapshot_replaces_book snapshot_btc cache_with_book "BTC-X"%string)
    as (st & book & Hst & Hbook & _ & Hyes & Hno & Hseq).
  - vm_compute. reflexivity.
  - reflexivity.
  - vm_compute. reflexivity.
  - left. reflexivity.
  - exists st, book. split; [exact Hst|]. split; [exact Hbook|].
    split; [apply Hyes; simpl; apply NoDup_cons; split; [rewrite list_elem_of_singleton; discriminate | apply NoDup_singleton]|].
    split; [apply Hno; simpl; apply NoDup_singleton|].
    exact Hseq.
Defined.

Lemma orderbook_delta_unknown_market_noop_witness :
  apply_orderbook_delta snapshot_btc new_cache = new_cache.
Proof.
  apply (orderbook_delta_unknown_market_noop snapshot_btc new_cache).
  intros t _. apply lookup_empty.
Defined.

Lemma upsert_from_discovery_notifier (md : MarketData) (c : Cache) :
  update_notification (upsert_from_discovery md c) = update_notification c.
Proof.
  unfold upsert_from_discovery.
  destruct (truthy (md_ticker md)); reflexivity.
Qed.

(** The other writes do set the notifier when they reach a market. *)
Lemma sibling_writes_notify (c : Cache) (t : string) :
  t <> EmptyString ->
  (forall msg, tm_market_ticker msg = Some t ->
     update_notification (upsert_from_ticker msg c) = true)
  /\ (forall msg, om_market_ticker msg = Some t -> is_Some (cache c !! t) ->
     update_notification (apply_orderbook_delta msg c) = true)
  /\ (forall msg, trm_market_ticker msg = Some t ->
     update_notification (append_trade msg c) = true)
  /\ (forall status, update_notification (update_status t status c) = true).
Proof.
  intros Hne. repeat split.
  - intros msg Ht. unfold upsert_from_ticker.
    rewrite Ht, (truthy_nonempty _ Hne). simpl.
    destruct (tm_yes_ask msg); reflexivity.
  - intros msg Ht [old Hold]. unfold apply_orderbook_delta.
    rewrite Ht, (truthy_nonempty _ Hne). simpl. rewrite Hold. reflexivity.
  - intros msg Ht. unfold append_trade.
    rewrite Ht, (truthy_nonempty _ Hne). reflexivity.
Qed.

(** C7 fails on the code: [upsert_from_discovery] never touches the
    notifier.  Inserting BTC-X into the empty cache leaves the event unset,
    and so does closing BTC-X after the agents have cleared the event, while
    the same market written by [upsert_from_ticker] sets it. *)
Theorem discovery_upsert_never_notifies :
  (forall md c, update_notification (upsert_from_discovery md c) = update_notification c)
  /\ (cache new_cache !! "BTC-X"%string = None
      /\ is_Some (cache (upsert_from_discovery discovered_btc new_cache) !! "BTC-X"%string)
      /\ update_notification (upsert_from_discovery discovered_btc new_cache) = false)
  /\ (let c1 := clear_notification (upsert_from_ticker ticker_plain new_cache) in
      let c2 := upsert_from_discovery discovered_btc_closed c1 in
      market_status <$> cache c1 !! "BTC-X"%string = Some "open"%string
      /\ market_status <$> cache c2 !! "BTC-X"%string = Some "closed"%string
      /\ update_notification c2 = false)
  /\ update_notification (upsert_from_ticker ticker_plain new_cache) = true.
Proof.
  split; [exact upsert_from_discovery_notifier|].
  split; [|split].
  - split; [apply lookup_empty|]. split; [|reflexivity].
    vm_compute. eexists. reflexivity.
  - vm_compute. repeat split; reflexivity.
  - reflexivity.
Qed.

End CacheClaims.

End MarketCacheFacts.

(** * The WebSocket client *)
Module WebSocketFacts.
Import WebSocket.

Local Open Scope string_scope.
Local Open Scope list_scope.
Local Open Scope Z_scope.

Section SequenceGap.

Variable now : Z.
Variable s : Client.
Variable msg : Msg.
Variable t : string.
Variable seq : Z.

Hypothesis Htype : m_type msg = Some "orderbook_delta".
Hypothesis Hticker : m_ticker msg = Some t.
Hypothesis Hnonempty : t <> "".
Hypothesis Hseq : m_seq msg = Some seq.

Lemma handle_raw_gap (s_prev : Z) :
  _ob_seq s !! t = Some s_prev -> seq <> s_prev + 1 ->
  _handle_raw now (Json msg) s =
    create_task (SubscribeTask ["orderbook_delta"] [t])
      (set_subscriptions (_subscriptions s ∖ {[("orderbook_delta", t)]})
         (set_ob_seq (delete t (_ob_seq s))
            (log WARNING "Orderbook sequence gap detected — re-subscribing" s))).
Proof.
  intros Hprev Hgap. unfold _handle_raw.
  destruct t as [|a t']; [congruence|].
  rewrite Htype. simpl. rewrite Hticker, Hseq. simpl. rewrite Hprev.
  destruct (decide (seq ≠ s_prev + 1)); [reflexivity | contradiction].
Qed.

Lemma handle_raw_in_order :
  (forall s_prev, _ob_seq s !! t = Some s_prev -> seq = s_prev + 1) ->
  _handle_raw now (Json msg) s =
    queue_put (tag_env (_env s) msg) (set_ob_seq (<[t := seq]> (_ob_seq s)) s).
Proof.
  intros Hnext. unfold _handle_raw.
  destruct t as [|a t']; [congruence|].
  rewrite Htype. simpl. rewrite Hticker, Hseq. simpl.
  destruct (_ob_seq s !! String a t') as [s_prev|] eqn:Hprev; [|reflexivity].
  destruct (decide (seq ≠ s_prev + 1)) as [Hgap|_]; [|reflexivity].
  exfalso. apply Hgap, Hnext. reflexivity.
Qed.

End SequenceGap.

Lemma key_set_single (ch mt : string) : key_set [ch] [mt] = {[(ch, mt)]}.
Proof. unfold key_set. simpl. apply union_empty_r_L. Qed.

(** Re-subscribing a key that is not in the desired set adds it and, on an
    open socket, writes one subscribe frame. *)
Lemma subscribe_missing_key (c : Client) (ch mt : string) :
  (ch, mt) ∉ _subscriptions c ->
  let c' := subscribe [ch] [mt] c in
  _subscriptions c' = _subscriptions c ∪ {[(ch, mt)]}
  /\ sent c' =
       (if ws_open c
        then (sent c ++ [mkCommand (_msg_id c + 1) "subscribe" [ch] [mt]])%list
        else sent c)
  /\ _ob_seq c' = _ob_seq c /\ _queue c' = _queue c.
Proof.
  intros Hnot. unfold subscribe. rewrite key_set_single.
  assert (Hdiff : ({[(ch, mt)]} : gset SubscriptionKey) ∖ _subscriptions c = {[(ch, mt)]})
    by set_solver.
  rewrite Hdiff.
  destruct (decide (({[(ch, mt)]} : gset SubscriptionKey) = ∅)) as [He|_];
    [set_solver|].
  simpl. unfold _send_subscribe. simpl.
  destruct (ws_open c); simpl; repeat split; reflexivity.
Qed.

(** C5: an [orderbook_delta] with sequence [seq] on a ticker [t].  When a
    sequence [s_prev] is tracked for [t] and [seq <> s_prev + 1], the message
    is not put on the queue, the tracked sequence of [t] is evicted, the key
    [(orderbook_delta, t)] leaves the desired set and a [subscribe] task for
    it is created; when that task runs the key is back in the set and, on an
    open socket, a subscribe frame for it is written.  Otherwise the message
    (with its environment tag) is put on the queue and [seq] becomes the
    tracked sequence of [t], the desired set being left as it is. *)
Theorem sequence_gap_resubscribes (now : Z) (s : Client) (msg : Msg)
    (t : string) (seq : Z) :
  m_type msg = Some "orderbook_delta" ->
  m_ticker msg = Some t -> t <> "" ->
  m_seq msg = Some seq ->
  let key : SubscriptionKey := ("orderbook_delta", t) in
  let s' := _handle_raw now (Json msg) s in
  (forall s_prev, _ob_seq s !! t = Some s_prev -> seq <> s_prev + 1 ->
     _queue s' = _queue s
     /\ _ob_seq s' = delete t (_ob_seq s)
     /\ _subscriptions s' = _subscriptions s ∖ {[key]}
     /\ tasks s' = (tasks s ++ [SubscribeTask ["orderbook_delta"] [t]])%list
     /\ sent s' = sent s
     /\ let s'' := run_task (SubscribeTask ["orderbook_delta"] [t]) s' in
        key ∈ _subscriptions s''
        /\ _subscriptions s'' = _subscriptions s ∪ {[key]}
        /\ (ws_open s = true ->
            sent s'' =
              (sent s ++
                 [mkCommand (_msg_id s + 1) "subscribe" ["orderbook_delta"] [t]])%list)
        /\ _queue s'' = _queue s
        /\ _ob_seq s'' !! t = None)
  /\ ((forall s_prev, _ob_seq s !! t = Some s_prev -> seq = s_prev + 1) ->
     _queue s' = (_queue s ++ [tag_env (_env s) msg])%list
     /\ _ob_seq s' !! t = Some seq
     /\ _ob_seq s' = <[t := seq]> (_ob_seq s)
     /\ _subscriptions s' = _subscriptions s
     /\ tasks s' = tasks s).
Proof.
  intros Htype Hticker Hne Hseq key s'. split.
  - intros s_prev Hprev Hgap. subst s'.
    rewrite (handle_raw_gap now s msg t seq Htype Hticker Hne Hseq s_prev Hprev Hgap).
    simpl. repeat (split; [reflexivity|]).
    match goal with |- context [subscribe _ _ ?c] => set (c0 := c) end.
    assert (Hnot : key ∉ _subscriptions c0) by (subst c0; simpl; set_solver).
    destruct (subscribe_missing_key c0 "orderbook_delta" t Hnot)
      as (Hsubs & Hsent & Hob & Hq).
    fold key in Hsubs. rewrite Hsubs, Hsent, Hob, Hq. subst c0. simpl.
    split; [set_solver|].
    split.
    { apply set_eq. intros k. destruct (decide (k = key)); set_solver. }
    split; [intros ->; reflexivity|].
    split; [reflexivity|]. apply lookup_delete_eq.
  - intros Hnext. subst s'.
    rewrite (handle_raw_in_order now s msg t seq Htype Hticker Hne Hseq Hnext).
    simpl. repeat split; try reflexivity. apply lookup_insert_eq.
Qed.

Lemma sequence_gap_resubscribes_witness :
  let s' := _handle_raw 0 (Json (delta_btc 13)) client_at_11 in
  _queue s' = []
  /\ _ob_seq s' !! "BTC-X" = None
  /\ (("orderbook_delta", "BTC-X") ∉ _subscriptions s')
  /\ tasks s' = [SubscribeTask ["orderbook_delta"] ["BTC-X"]]
  /\ ("orderbook_delta", "BTC-X") ∈
       _subscriptions (run_task (SubscribeTask ["orderbook_delta"] ["BTC-X"]) s')
  /\ _ob_seq (_handle_raw 0 (Json (delta_btc 12)) client_at_11) !! "BTC-X" = Some 12%Z.
Proof.
  pose proof (sequence_gap_resubscribes 0 client_at_11 (delta_btc 13) "BTC-X" 13
                eq_refl eq_refl ltac:(discriminate) eq_refl) as [Hgap _].
  pose proof (sequence_gap_resubscribes 0 client_at_11 (delta_btc 12) "BTC-X" 12
                eq_refl eq_refl ltac:(discriminate) eq_refl) as [_ Hok].
  destruct (Hgap 11%Z) as (Hq & Hob & Hsubs & Htasks & _ & Hin & _).
  { reflexivity. }
  { discriminate. }
  destruct Hok as (_ & Hseq & _).
  { intros s_prev Hprev. vm_compute in Hprev. injection Hprev as <-. reflexivity. }
  cbv zeta. rewrite Hq, Hob, Hsubs, Htasks.
  split; [reflexivity|]. split; [apply lookup_delete_eq|].
  split; [set_solver|]. split; [reflexivity|]. split; [exact Hin|exact Hseq].
Defined.

End WebSocketFacts.

(** * The permission layer *)
Module PermissionFacts.
Import Trading Permission.

Local Open Scope string_scope.
Local Open Scope list_scope.
Local Open Scope Z_scope.

Section Gates.

Context {W : Type}.
Variable p : Layer W.
Variable intent : TradeIntent.

Lemma submit_blocked (w : W) :
  ~ gates_pass p intent -> submit p intent w = (w, Ok tt).
Proof.
  unfold gates_pass, submit. intros Hno.
  destruct (_global_trading_enabled p); simpl; [|reflexivity].
  destruct (_keys_loaded p !! _active_environment p) as [[|]|]; simpl;
    try reflexivity.
  destruct (_agent_modes p !! agent_id intent) as [mode|]; simpl.
  - destruct (decide (mode ≠ "Auto")) as [|Heq]; [reflexivity|].
    exfalso. apply Hno. apply dec_stable in Heq. subst. auto.
  - reflexivity.
Qed.

Lemma submit_forwarded (callback : Callback W) (w : W) :
  _on_approved p = Some callback -> gates_pass p intent ->
  submit p intent w = callback intent (_active_environment p) w.
Proof.
  unfold gates_pass, submit. intros Hcb (Hglobal & Hkeys & Hmode).
  rewrite Hglobal, Hkeys, Hmode, Hcb. reflexivity.
Qed.

Lemma submit_unregistered (w : W) :
  _on_approved p = None -> submit p intent w = (w, Ok tt).
Proof.
  unfold submit. intros ->.
  destruct (negb _); [reflexivity|]. destruct (negb _); [reflexivity|].
  destruct (decide _); reflexivity.
Qed.

Lemma gates_pass_dec : gates_pass p intent \/ ~ gates_pass p intent.
Proof.
  unfold gates_pass.
  destruct (decide (_global_trading_enabled p = true)); [|tauto].
  destruct (decide (_keys_loaded p !! _active_environment p = Some true)); [|tauto].
  destruct (decide (_agent_modes p !! agent_id intent = Some "Auto")); tauto.
Qed.

End Gates.

(** C4: [submit] hands the intent and the active environment to the
    registered callback exactly when global trading is on, the keys of the
    active environment are loaded and the agent's mode is Auto; when a gate
    fails, or no callback is registered, it returns normally and leaves the
    world as it was. *)
Theorem submit_forwards_iff_gates {W : Type} (p : Layer W) (intent : TradeIntent) :
  (forall w, ~ gates_pass p intent -> submit p intent w = (w, Ok tt))
  /\ (forall callback w,
        _on_approved p = Some callback -> gates_pass p intent ->
        submit p intent w = callback intent (_active_environment p) w)
  /\ (forall w, _on_approved p = None -> submit p intent w = (w, Ok tt))
  /\ (forall calls,
        let calls' := fst (submit (set_on_approved recorder p) intent calls) in
        (calls' = calls ++ [(intent, _active_environment p)] <-> gates_pass p intent)
        /\ (calls' = calls <-> ~ gates_pass p intent)).
Proof.
  split; [intros w; apply submit_blocked|].
  split; [intros callback w; apply submit_forwarded|].
  split; [intros w; apply submit_unregistered|].
  intros calls calls'.
  assert (Hyes : gates_pass p intent -> calls' = calls ++ [(intent, _active_environment p)]).
  { intros Hg. subst calls'.
    rewrite (submit_forwarded (set_on_approved recorder p) intent recorder calls eq_refl Hg).
    reflexivity. }
  assert (Hno : ~ gates_pass p intent -> calls' = calls).
  { intros Hg. subst calls'.
    rewrite (submit_blocked (set_on_approved recorder p) intent calls Hg).
    reflexivity. }
  assert (Hlen : calls ++ [(intent, _active_environment p)] <> calls).
  { intros E. apply (f_equal length) in E. rewrite length_app in E. simpl in E. lia. }
  destruct (gates_pass_dec p intent) as [Hg|Hg].
  - split; split; intros H; auto.
    intros _. apply Hlen. rewrite <- (Hyes Hg). exact H.
  - split; split; intros H; auto.
    exfalso. apply Hlen. rewrite <- H. apply Hno, Hg.
Qed.

Lemma submit_forwards_iff_gates_witness :
  fst (submit open_layer sample_intent []) = [(sample_intent, "demo")]
  /\ submit (set_global_trading false open_layer) sample_intent [] = ([], Ok tt).
Proof.
  split.
  - destruct (submit_forwards_iff_gates open_layer sample_intent) as (_ & _ & _ & H).
    destruct (H []) as [[_ Hfwd] _]. apply Hfwd.
    unfold gates_pass. repeat split; vm_compute; reflexivity.
  - apply (proj1 (submit_forwards_iff_gates (set_global_trading false open_layer)
                    sample_intent)).
    intros (Hglobal & _). discriminate.
Defined.

End PermissionFacts.

(** * The REST client and the execution engine *)
Module ExecutionFacts.
Import Trading Execution.

Local Open Scope string_scope.
Local Open Scope list_scope.
Local Open Scope Z_scope.

Lemma grows_refl e : grows e e [].
Proof. unfold grows. rewrite app_nil_r. repeat split; reflexivity. Qed.

Lemma grows_emit e ev : grows e (emit ev e) [ev].
Proof. unfold grows. simpl. repeat split; reflexivity. Qed.

Lemma grows_answered e : grows e (answered e) [].
Proof. unfold grows. simpl. rewrite app_nil_r. repeat split; reflexivity. Qed.

Lemma grows_trans e1 e2 e3 evs1 evs2 :
  grows e1 e2 evs1 -> grows e2 e3 evs2 -> grows e1 e3 (evs1 ++ evs2).
Proof.
  unfold grows. intros (T1 & A1 & B1 & C1 & D1 & E1 & F1 & G1) (T2 & A2 & B2 & C2 & D2 & E2 & F2 & G2).
  rewrite T2, T1, app_assoc. repeat split; congruence.
Qed.


Lemma posts_app tr1 tr2 : posts (tr1 ++ tr2) = posts tr1 ++ posts tr2.
Proof. apply omap_app. Qed.
Lemma accepted_ids_app tr1 tr2 : accepted_ids (tr1 ++ tr2) = accepted_ids tr1 ++ accepted_ids tr2.
Proof. apply omap_app. Qed.
Lemma inserted_orders_app tr1 tr2 :
  inserted_orders (tr1 ++ tr2) = inserted_orders tr1 ++ inserted_orders tr2.
Proof. apply omap_app. Qed.

(** One request that was not accepted, followed by events that are not
    requests, in front of the rest of a call. *)
Lemma request_post_retry body e e_mid e' r reply rest :
  grows (emit (HttpPost body reply) (answered e)) e_mid rest ->
  served e_mid = S (served e) ->
  posts rest = [] -> inserted_orders rest = [] -> accepted_ids rest = [] ->
  accepted_ids [HttpPost body reply] = [] ->
  request_post body e_mid e' r -> request_post body e e' r.
Proof.
  intros Hmid Hserved Hposts Hins Hacc Hrej (evs & Hg & Hs & Hall & Hi & Ha & Hr & _).
  exists ((HttpPost body reply :: rest) ++ evs).
  split.
  { eapply grows_trans; [|exact Hg].
    change (HttpPost body reply :: rest) with ([] ++ [HttpPost body reply] ++ rest).
    eapply grows_trans; [apply grows_answered|].
    eapply grows_trans; [apply grows_emit|exact Hmid]. }
  rewrite posts_app, inserted_orders_app, accepted_ids_app.
  change (HttpPost body reply :: rest) with ([HttpPost body reply] ++ rest).
  rewrite posts_app, inserted_orders_app, accepted_ids_app, Hposts, Hins, Hacc, Hrej.
  simpl. rewrite Hs, Hserved. repeat split; auto; try lia.
Qed.

Lemma request_post_done body e e' r reply rest :
  grows (emit (HttpPost body reply) (answered e)) e' rest ->
  served e' = S (served e) ->
  posts rest = [] -> inserted_orders rest = [] -> accepted_ids rest = [] ->
  accepted_ids [HttpPost body reply] =
    match r with Ok _ => [b_client_order_id body] | Raise _ => [] end ->
  r <> Raise PermissionError ->
  request_post body e e' r.
Proof.
  intros Hmid Hserved Hposts Hins Hacc Hrej Hr.
  exists (HttpPost body reply :: rest).
  split.
  { change (HttpPost body reply :: rest) with ([] ++ [HttpPost body reply] ++ rest).
    eapply grows_trans; [apply grows_answered|].
    eapply grows_trans; [apply grows_emit|exact Hmid]. }
  change (HttpPost body reply :: rest) with ([HttpPost body reply] ++ rest).
  rewrite posts_app, inserted_orders_app, accepted_ids_app, Hposts, Hins, Hacc, Hrej.
  simpl. rewrite Hserved, ?app_nil_r. repeat split; auto; try lia.
Qed.

Lemma raise_for_status_no_retry status :
  status ∈ _NO_RETRY_CODES -> raise_for_status status = Some (ClientResponseError status).
Proof.
  unfold _NO_RETRY_CODES. rewrite !elem_of_cons, elem_of_nil.
  intros [->|[->|[->|[]]]]; reflexivity.
Qed.

Section Rest.
Variable exchange : nat -> HttpReply.

Lemma request_spec fuel body : forall attempt e e' r,
  _request exchange fuel body attempt e = Some (e', r) -> request_post body e e' r.
Proof.
  induction fuel as [|fuel IH]; intros attempt e e' r; simpl; [discriminate|].
  destruct (rest_configured e) eqn:Hconf; simpl.
  2:{ intros [= <- <-]. exists []. split; [apply grows_refl|]. simpl.
      repeat split; try reflexivity; try constructor; try discriminate;
        try congruence; lia. }
  destruct (exchange (served e)) as [status rb| |] eqn:Hreply.
  - destruct ((status =? 200) || (status =? 201)) eqn:H2xx.
    + intros [= <- <-].
      eapply request_post_done with (rest := []);
        [apply grows_refl|reflexivity..| |discriminate].
      simpl. rewrite H2xx. reflexivity.
    + assert (Hrej : accepted_ids [HttpPost body (Response status rb)] = [])
        by (simpl; rewrite H2xx; reflexivity).
      destruct (bool_decide (status ∈ _NO_RETRY_CODES)) eqn:Hnr.
      * apply bool_decide_eq_true_1 in Hnr.
        rewrite (raise_for_status_no_retry _ Hnr).
        intros [= <- <-].
        eapply request_post_done with (rest := [_]);
          [apply grows_emit|reflexivity..|exact Hrej|discriminate].
      * apply bool_decide_eq_false_1 in Hnr.
        destruct (status =? 401) eqn:H401.
        { exfalso. apply Hnr. apply Z.eqb_eq in H401. subst.
          unfold _NO_RETRY_CODES. set_solver. }
        match goal with
        | |- context [match ?retry with Some _ => _ | None => _ end] =>
            destruct retry as [delay|]
        end.
        -- intros Hrec. apply IH in Hrec.
           eapply request_post_retry with (rest := [_; _]); [| | | | |exact Hrej|exact Hrec];
             [eapply (grows_trans _ _ _ [_] [_]); apply grows_emit|reflexivity..].
        -- destruct (raise_for_status status) as [ex|] eqn:Hrfs.
           ++ intros [= <- <-].
              eapply request_post_done with (rest := [_]);
                [apply grows_emit|reflexivity..|exact Hrej|].
              unfold raise_for_status in Hrfs. destruct (400 <=? status); congruence.
           ++ intros Hrec. apply IH in Hrec.
              eapply request_post_retry with (rest := [_]); [| | | | |exact Hrej|exact Hrec];
                [apply grows_emit|reflexivity..].
  - destruct (attempt <? 3)%nat.
    + intros Hrec. apply IH in Hrec.
      eapply request_post_retry with (rest := [_]); [| | | | | |exact Hrec];
        [apply grows_emit|reflexivity..].
    + intros [= <- <-].
      eapply request_post_done with (rest := []);
        [apply grows_refl|reflexivity..|discriminate].
  - intros [= <- <-].
    eapply request_post_done with (rest := []);
      [apply grows_refl|reflexivity..|discriminate].
Qed.
(** With an exchange that answers 200, 201 or an error status, six turns of
    the loop are enough for [_request] to return. *)
Lemma request_returns fuel body : forall attempt e,
  plain exchange -> (6 <= fuel + attempt)%nat -> (1 <= fuel)%nat ->
  exists e' r, _request exchange fuel body attempt e = Some (e', r).
Proof.
  induction fuel as [|fuel IH]; intros attempt e Hplain Hfuel Hpos; [lia|]. simpl.
  destruct (rest_configured e); simpl; [|eauto].
  destruct (exchange (served e)) as [status rb| |] eqn:Hreply.
  - destruct ((status =? 200) || (status =? 201)) eqn:H2xx; [eauto|].
    destruct (bool_decide (status ∈ _NO_RETRY_CODES)) eqn:Hnr.
    { apply bool_decide_eq_true_1 in Hnr.
      rewrite (raise_for_status_no_retry _ Hnr). eauto. }
    destruct (status =? 401); [eauto|].
    assert (Hbig : raise_for_status status = Some (ClientResponseError status)).
    { unfold raise_for_status. apply orb_false_elim in H2xx as [H200 H201].
      apply Z.eqb_neq in H200, H201.
      destruct (Hplain _ _ _ Hreply) as [?|[?|Hge]]; try contradiction.
      apply Z.leb_le in Hge. rewrite Hge. reflexivity. }
    unfold _RETRY_TABLE.
    destruct (status =? 429); [|destruct (status =? 500); [|destruct (status =? 503)]].
    4:{ rewrite Hbig. eauto. }
    all:
      match goal with
      | |- context [(?a <? ?m)%nat] =>
          destruct (a <? m)%nat eqn:Hlt; simpl;
            [apply Nat.ltb_lt in Hlt; apply IH; [exact Hplain|lia..]
            |rewrite Hbig; eauto]
      end.
  - simpl. destruct (attempt <? 3)%nat eqn:Hlt; [|eauto].
    apply Nat.ltb_lt in Hlt. apply IH; [exact Hplain|lia..].
  - eauto.
Qed.

End Rest.

(** ** The engine *)

Lemma validate_valid (intent : TradeIntent) (e : Engine) :
  valid intent -> _validate intent e = (e, true).
Proof.
  intros ((Hlo & Hhi) & Hcount & Hticker & Haction & Hside). unfold _validate.
  apply Z.leb_le in Hlo, Hhi. rewrite Hlo, Hhi. simpl.
  destruct (count intent <=? 0) eqn:Hc; [apply Z.leb_le in Hc; lia|].
  destruct (decide (market_ticker intent = "")); [contradiction|].
  rewrite !bool_decide_eq_true_2; [reflexivity| |].
  - destruct Hside as [-> | ->]; set_solver.
  - destruct Haction as [-> | ->]; set_solver.
Qed.

Lemma validate_invalid (intent : TradeIntent) (e : Engine) :
  ~ valid intent -> exists text, _validate intent e = (log WARNING text e, false).
Proof.
  intros Hinv. unfold _validate.
  destruct (1 <=? price intent) eqn:Hlo; simpl; [|eauto].
  destruct (price intent <=? 99) eqn:Hhi; simpl; [|eauto].
  destruct (count intent <=? 0) eqn:Hc; [eauto|].
  destruct (decide (market_ticker intent = "")); [eauto|].
  destruct (bool_decide (action intent ∈ ["buy"; "sell"])) eqn:Ha; simpl; [|eauto].
  destruct (bool_decide (side intent ∈ ["yes"; "no"])) eqn:Hs; simpl; [|eauto].
  exfalso. apply Hinv.
  apply Z.leb_le in Hlo, Hhi. apply Z.leb_gt in Hc.
  apply bool_decide_eq_true_1 in Ha, Hs.
  unfold valid. repeat split; try assumption; set_solver.
Qed.

Lemma valid_dec (intent : TradeIntent) : valid intent \/ ~ valid intent.
Proof.
  unfold valid.
  destruct (decide (1 <= price intent <= 99)); [|tauto].
  destruct (decide (0 < count intent)); [|tauto].
  destruct (decide (market_ticker intent = "")); [tauto|].
  destruct (decide (action intent = "buy")); destruct (decide (action intent = "sell"));
    destruct (decide (side intent = "yes")); destruct (decide (side intent = "no"));
    tauto.
Qed.

Lemma on_order_success_spec (resp : RespBody) (intent : TradeIntent)
    (environment : string) (e : Engine) :
  let e' := _on_order_success resp intent environment e in
  exists evs,
    trace e' = trace e ++ evs
    /\ _submitted_ids e' = _submitted_ids e
    /\ served e' = served e
    /\ posts evs = [] /\ accepted_ids evs = []
    /\ (length (inserted_orders evs) <= 1)%nat.
Proof.
  unfold _on_order_success. simpl.
  destruct (_db e); simpl; destruct (_broadcaster e); simpl; eexists;
    (split; [rewrite <- ?app_assoc; reflexivity|]); simpl; repeat split; lia.
Qed.

Lemma on_order_failed_spec (intent : TradeIntent) (environment : string) (e : Engine) :
  let e' := _on_order_failed intent environment e in
  exists evs,
    trace e' = trace e ++ evs
    /\ _submitted_ids e' = _submitted_ids e
    /\ served e' = served e
    /\ posts evs = [] /\ accepted_ids evs = [] /\ inserted_orders evs = [].
Proof.
  unfold _on_order_failed. destruct (_broadcaster e); simpl.
  - exists [Broadcast (OrderFailed (client_order_id intent) (market_ticker intent)
                         environment)].
    repeat split; reflexivity.
  - exists []. rewrite app_nil_r. repeat split; reflexivity.
Qed.

Section Engine.

Variable exchange : nat -> HttpReply.
Variable fuel : nat.

(** Events in front of a submission that hold requests of the intent, none of
    them accepted, and no order row. *)
Lemma submit_post_prefix (intent : TradeIntent) (e e_mid e' : Engine) (pre : list Event) :
  trace e_mid = trace e ++ pre ->
  _submitted_ids e_mid = _submitted_ids e ->
  served e_mid = (served e + length (posts pre))%nat ->
  Forall (eq (order_body intent)) (posts pre) ->
  accepted_ids pre = [] -> inserted_orders pre = [] ->
  submit_post intent e_mid e' -> submit_post intent e e'.
Proof.
  intros Ht Hids Hserved Hall Hacc Hins (evs & Ht' & Hids' & Hserved' & Hall' & Hacc' & Hins').
  exists (pre ++ evs).
  rewrite posts_app, accepted_ids_app, inserted_orders_app, Hacc, Hins. simpl.
  rewrite Ht', Ht, app_assoc, Hids', Hids, Hserved', Hserved, length_app.
  repeat split; auto; try lia. apply Forall_app; auto.
Qed.

Lemma submit_attempts_spec (intent : TradeIntent) (environment : string) :
  forall attempts e e',
    submit_attempts exchange fuel attempts (order_body intent) intent environment e
      = Some e' ->
    submit_post intent e e'.
Proof.
  induction attempts as [|attempt rest IH]; intros e e'; simpl.
  - intros [= <-].
    destruct (on_order_failed_spec intent environment
                (log ERROR "Order permanently FAILED after retries" e))
      as (evs & Ht & Hids & Hserved & Hposts & Hacc & Hins).
    exists (Log ERROR "Order permanently FAILED after retries" :: evs).
    rewrite Ht, Hids, Hserved. simpl. rewrite Hposts, Hacc, Hins, <- app_assoc. simpl.
    repeat split; auto; lia.
  - unfold create_order.
    destruct (_request exchange fuel (order_body intent) 0 e) as [[e1 r]|] eqn:Hreq;
      [|discriminate].
    destruct (request_spec _ _ _ _ _ _ _ Hreq)
      as (evs1 & (Ht1 & _ & _ & _ & _ & Hids1 & _) & Hserved1 & Hall1 & Hins1 & Hacc1
          & Hr & _).
    destruct r as [resp|ex].
    + intros [= <-].
      destruct (on_order_success_spec resp intent environment e1)
        as (evs & Ht & Hids & Hserved & Hposts & Hacc & Hins).
      exists (evs1 ++ evs).
      rewrite posts_app, accepted_ids_app, inserted_orders_app.
      rewrite Ht, Ht1, app_assoc, Hids, Hids1, Hserved, Hserved1.
      rewrite Hposts, Hacc, Hins1, Hacc1, !app_nil_r. simpl.
      repeat split; auto.
    + assert (Hstep : forall e2 pre,
                trace e2 = trace e1 ++ pre -> _submitted_ids e2 = _submitted_ids e1 ->
                served e2 = served e1 -> posts pre = [] -> accepted_ids pre = [] ->
                inserted_orders pre = [] ->
                submit_post intent e2 e' -> submit_post intent e e').
      { intros e2 pre Ht2 Hids2 Hserved2 Hposts2 Hacc2 Hins2 Hpost.
        apply (submit_post_prefix intent e e2 e' (evs1 ++ pre)); auto.
        - rewrite Ht2, Ht1, app_assoc. reflexivity.
        - congruence.
        - rewrite posts_app, Hposts2, app_nil_r. congruence.
        - rewrite posts_app, Hposts2, app_nil_r. exact Hall1.
        - rewrite accepted_ids_app, Hacc1, Hacc2. reflexivity.
        - rewrite inserted_orders_app, Hins1, Hins2. reflexivity. }
      destruct ex; try congruence;
        intros Hrec; apply IH in Hrec;
        apply (Hstep _ [Log WARNING "Order submission failed";
                        Sleep (0.1 * pow2 attempt)%Q]) in Hrec;
        try exact Hrec; try reflexivity;
        simpl; rewrite <- app_assoc; reflexivity.
Qed.

Lemma execute_invalid (intent : TradeIntent) (environment : string) (e : Engine) :
  ~ valid intent ->
  exists text, execute exchange fuel intent environment e = Some (log WARNING text e).
Proof.
  intros Hinv. destruct (validate_invalid intent e Hinv) as (text & Hv).
  exists text. unfold execute. rewrite Hv. reflexivity.
Qed.

Lemma execute_duplicate (intent : TradeIntent) (environment : string) (e : Engine) :
  valid intent -> client_order_id intent ∈ _submitted_ids e ->
  execute exchange fuel intent environment e =
    Some (log DEBUG "Duplicate client_order_id — skipping" e).
Proof.
  intros Hv Hin. unfold execute. rewrite (validate_valid intent e Hv). simpl.
  destruct (decide (client_order_id intent ∈ _submitted_ids e)); [reflexivity|contradiction].
Qed.

(** The id is recorded first, and the submission starts from the engine
    that holds it. *)
Lemma execute_fresh (intent : TradeIntent) (environment : string) (e : Engine) :
  valid intent -> client_order_id intent ∉ _submitted_ids e ->
  execute exchange fuel intent environment e =
    _submit_with_retry exchange fuel intent environment
      (set_submitted_ids (_submitted_ids e ∪ {[client_order_id intent]}) e).
Proof.
  intros Hv Hin. unfold execute. rewrite (validate_valid intent e Hv). simpl.
  destruct (decide (client_order_id intent ∈ _submitted_ids e)); [contradiction|reflexivity].
Qed.

(** A call of [execute] on a recorded id makes no request, hands no row to
    the database and changes nothing but the log. *)
Lemma execute_recorded (intent : TradeIntent) (environment : string) (e : Engine) :
  client_order_id intent ∈ _submitted_ids e ->
  exists l text, execute exchange fuel intent environment e = Some (log l text e).
Proof.
  intros Hin. destruct (valid_dec intent) as [Hv|Hv].
  - exists DEBUG. eexists. apply execute_duplicate; assumption.
  - exists WARNING. apply execute_invalid. exact Hv.
Qed.

Lemma execute_spec (intent : TradeIntent) (environment : string) (e e' : Engine) :
  execute exchange fuel intent environment e = Some e' ->
  exists evs,
    trace e' = trace e ++ evs
    /\ _submitted_ids e ⊆ _submitted_ids e'
    /\ (valid intent -> client_order_id intent ∈ _submitted_ids e')
    /\ (accepted_ids evs = []
        \/ accepted_ids evs = [client_order_id intent]
           /\ (client_order_id intent ∉ _submitted_ids e)
           /\ client_order_id intent ∈ _submitted_ids e').
Proof.
  intros Hex. destruct (valid_dec intent) as [Hv|Hv].
  - destruct (decide (client_order_id intent ∈ _submitted_ids e)) as [Hin|Hin].
    + rewrite (execute_duplicate _ _ _ Hv Hin) in Hex. injection Hex as <-.
      eexists. split; [reflexivity|]. simpl. auto.
    + rewrite (execute_fresh _ _ _ Hv Hin) in Hex.
      apply submit_attempts_spec in Hex
        as (evs & Ht & Hids & _ & _ & Hacc & _).
      simpl in Ht, Hids. exists evs. split; [exact Ht|]. rewrite Hids.
      split; [set_solver|]. split; [set_solver|].
      destruct Hacc as [Hacc|Hacc]; [left; exact Hacc|right].
      split; [exact Hacc|]. split; [exact Hin|set_solver].
  - destruct (execute_invalid intent environment e Hv) as (text & Hex').
    rewrite Hex' in Hex. injection Hex as <-.
    eexists. split; [reflexivity|]. simpl. split; [set_solver|].
    split; [contradiction|]. left. reflexivity.
Qed.

(** With an exchange that answers 200, 201 or an error status, [execute]
    returns as soon as each REST call is given six turns of its loop. *)
Lemma execute_returns (intent : TradeIntent) (environment : string) (e : Engine) :
  plain exchange -> (6 <= fuel)%nat ->
  exists e', execute exchange fuel intent environment e = Some e'.
Proof.
  intros Hplain Hfuel.
  assert (Hloop : forall attempts e0,
            exists e', submit_attempts exchange fuel attempts (order_body intent)
                         intent environment e0 = Some e').
  { induction attempts as [|attempt rest IH]; intros e0; simpl; [eauto|].
    unfold create_order.
    destruct (request_returns exchange fuel (order_body intent) 0%nat e0 Hplain
                ltac:(lia) ltac:(lia)) as (e1 & r & ->).
    destruct r as [resp|[]]; eauto. }
  unfold execute. destruct (_validate intent e) as [e0 []]; simpl; [|eauto].
  destruct (decide (client_order_id intent ∈ _submitted_ids e0)); [eauto|].
  apply Hloop.
Qed.

End Engine.

(** ** The recorded ids over the life of the process *)
Section Calls.

Variable exchange : nat -> HttpReply.
Variable fuel : nat.

Lemma load_rows_spec (rows : list OrderDict) : forall e,
  let e' :=
    fold_left
      (fun e row =>
         let oid := default "" (od_order_id row) in
         let cid := default "" (od_client_order_id row) in
         let e := set_open_orders (<[oid := row]> (_open_orders e)) e in
         set_submitted_ids (_submitted_ids e ∪ {[cid]}) e)
      rows e in
  trace e' = trace e /\ _submitted_ids e ⊆ _submitted_ids e'.
Proof.
  induction rows as [|row rows IH]; intros e; simpl; [split; [reflexivity|set_solver]|].
  match goal with |- context [fold_left ?f rows ?e0] => destruct (IH e0) as [Ht Hids] end.
  simpl in Ht, Hids. split; [exact Ht|]. set_solver.
Qed.

Lemma load_positions_spec (positions : list PositionRow) : forall e,
  let e' :=
    fold_left
      (fun e pos =>
         let ticker := default "" (pr_market_ticker pos) in
         set_positions (<[ticker := pos]> (_positions e)) e)
      positions e in
  trace e' = trace e /\ _submitted_ids e' = _submitted_ids e.
Proof.
  induction positions as [|pos positions IH]; intros e; simpl; [split; reflexivity|].
  match goal with |- context [fold_left ?f positions ?e0] => destruct (IH e0) as [Ht Hids] end.
  simpl in Ht, Hids. split; assumption.
Qed.

Lemma load_state_from_db_spec (rows : list OrderDict) (positions : list PositionRow)
    (e : Engine) :
  let e' := load_state_from_db rows positions e in
  exists evs, trace e' = trace e ++ evs /\ posts evs = [] /\ accepted_ids evs = []
    /\ _submitted_ids e ⊆ _submitted_ids e'.
Proof.
  unfold load_state_from_db. destruct (_db e); simpl.
  - match goal with
    | |- context [fold_left ?g positions (fold_left ?f rows e)] =>
        destruct (load_rows_spec rows e) as [Ht1 Hids1];
        destruct (load_positions_spec positions (fold_left f rows e)) as [Ht2 Hids2]
    end.
    simpl in Ht1, Hids1, Ht2, Hids2.
    eexists. split; [rewrite Ht2, Ht1; reflexivity|].
    rewrite Hids2. repeat split; auto.
  - exists []. rewrite app_nil_r. repeat split; auto.
Qed.

Lemma handle_fill_spec (msg : UserMsg) (environment : string) (e : Engine) :
  let e' := handle_fill msg environment e in
  exists evs, trace e' = trace e ++ evs /\ posts evs = [] /\ accepted_ids evs = []
    /\ _submitted_ids e' = _submitted_ids e.
Proof.
  unfold handle_fill.
  set (e1 := match _open_orders e !! default "" (um_order_id msg) with
             | Some _ => _ | None => _ end).
  assert (H1 : exists evs, trace e1 = trace e ++ evs /\ posts evs = []
                 /\ accepted_ids evs = [] /\ _submitted_ids e1 = _submitted_ids e
                 /\ _db e1 = _db e /\ _broadcaster e1 = _broadcaster e).
  { subst e1. destruct (_open_orders e !! default "" (um_order_id msg)) as [order|].
    - destruct (_ <=? 0); simpl.
      + destruct (_db e) eqn:Hdb; simpl.
        * eexists [_]. repeat split; auto.
        * exists []. rewrite app_nil_r. repeat split; auto.
      + exists []. rewrite app_nil_r. repeat split; auto.
    - exists []. rewrite app_nil_r. repeat split; auto. }
  destruct H1 as (evs1 & Ht1 & Hp1 & Ha1 & Hids1 & Hdb1 & Hb1).
  clearbody e1.
  set (e2 := if truthy (Some (default "" (um_fill_id msg))) && _db e1 then _ else _).
  assert (H2 : exists evs, trace e2 = trace e1 ++ evs /\ posts evs = []
                 /\ accepted_ids evs = [] /\ _submitted_ids e2 = _submitted_ids e1
                 /\ _broadcaster e2 = _broadcaster e1).
  { subst e2. destruct (truthy _ && _db e1); simpl.
    - eexists [_]. repeat split; auto.
    - exists []. rewrite app_nil_r. repeat split; auto. }
  destruct H2 as (evs2 & Ht2 & Hp2 & Ha2 & Hids2 & Hb2).
  clearbody e2.
  destruct (_broadcaster e2); simpl.
  - eexists (evs1 ++ evs2 ++ [_]).
    rewrite Ht2, Ht1, !posts_app, !accepted_ids_app, Hp1, Hp2, Ha1, Ha2, <- !app_assoc.
    repeat split; auto. congruence.
  - exists (evs1 ++ evs2).
    rewrite Ht2, Ht1, !posts_app, !accepted_ids_app, Hp1, Hp2, Ha1, Ha2, <- !app_assoc.
    repeat split; auto. congruence.
Qed.

Lemma handle_order_update_spec (msg : UserMsg) (environment : string) (e : Engine) :
  let e' := handle_order_update msg environment e in
  exists evs, trace e' = trace e ++ evs /\ posts evs = [] /\ accepted_ids evs = []
    /\ _submitted_ids e' = _submitted_ids e.
Proof.
  unfold handle_order_update.
  destruct (bool_decide _); simpl.
  - destruct (_db e); simpl; destruct (_broadcaster e); simpl.
    + eexists [_; _]. rewrite <- app_assoc. repeat split; auto.
    + eexists [_]. repeat split; auto.
    + eexists [_]. repeat split; auto.
    + exists []. rewrite app_nil_r. repeat split; auto.
  - exists []. rewrite app_nil_r. repeat split; auto.
Qed.

(** What any call does to the trace and to the recorded ids: ids are never
    removed, and a request is accepted only for an id that was not recorded
    before the call and is recorded after it. *)
Lemma run_call_spec (c : Call) (e e' : Engine) :
  run_call exchange fuel c e = Some e' ->
  exists evs,
    trace e' = trace e ++ evs
    /\ _submitted_ids e ⊆ _submitted_ids e'
    /\ (accepted_ids evs = []
        \/ exists id, accepted_ids evs = [id]
             /\ (id ∉ _submitted_ids e) /\ id ∈ _submitted_ids e').
Proof.
  destruct c as [intent env|msg env|msg env|rows positions|configured]; simpl.
  - intros Hex. destruct (execute_spec _ _ _ _ _ _ Hex) as (evs & Ht & Hsub & _ & Hacc).
    exists evs. split; [exact Ht|]. split; [exact Hsub|].
    destruct Hacc as [Hacc|Hacc]; [left; exact Hacc|right; eauto].
  - intros [= <-]. destruct (handle_fill_spec msg env e) as (evs & Ht & _ & Ha & Hids).
    exists evs. rewrite Hids. auto.
  - intros [= <-].
    destruct (handle_order_update_spec msg env e) as (evs & Ht & _ & Ha & Hids).
    exists evs. rewrite Hids. auto.
  - intros [= <-].
    destruct (load_state_from_db_spec rows positions e) as (evs & Ht & _ & Ha & Hids).
    exists evs. auto.
  - intros [= <-]. exists []. simpl. rewrite app_nil_r. auto.
Qed.

Lemma run_calls_submitted_mono (cs : list Call) : forall e e',
  run_calls exchange fuel cs e = Some e' -> _submitted_ids e ⊆ _submitted_ids e'.
Proof.
  induction cs as [|c cs IH]; intros e e'; simpl.
  - intros [= <-]. reflexivity.
  - destruct (run_call exchange fuel c e) as [e1|] eqn:Hc; [|discriminate].
    intros Hrest. destruct (run_call_spec _ _ _ Hc) as (_ & _ & Hsub & _).
    etransitivity; [exact Hsub|]. eapply IH, Hrest.
Qed.

Lemma submits_unique_new (configured db : bool) (environment : string) (b : bool) :
  submits_unique (new_engine configured db environment b).
Proof. split; [constructor|]. simpl. intros id Hin. inversion Hin. Qed.

Lemma submits_unique_call (c : Call) (e e' : Engine) :
  submits_unique e -> run_call exchange fuel c e = Some e' -> submits_unique e'.
Proof.
  intros [Hnd Hrec] Hc.
  destruct (run_call_spec _ _ _ Hc) as (evs & Ht & Hsub & Hacc).
  unfold submits_unique. rewrite Ht, accepted_ids_app.
  destruct Hacc as [->|(id & -> & Hfresh & Hin)].
  - rewrite app_nil_r. split; [exact Hnd|]. intros id Hid. apply Hsub, Hrec, Hid.
  - split.
    + apply NoDup_app. split; [exact Hnd|]. split; [|apply NoDup_singleton].
      intros x Hx Hx'. apply list_elem_of_singleton in Hx'. subst x.
      apply Hfresh, Hrec, Hx.
    + intros x Hx. apply elem_of_app in Hx as [Hx|Hx].
      * apply Hsub, Hrec, Hx.
      * apply list_elem_of_singleton in Hx. subst x. exact Hin.
Qed.

Lemma submits_unique_calls (cs : list Call) : forall e e',
  submits_unique e -> run_calls exchange fuel cs e = Some e' -> submits_unique e'.
Proof.
  induction cs as [|c cs IH]; intros e e' Hinv; simpl.
  - intros [= <-]. exact Hinv.
  - destruct (run_call exchange fuel c e) as [e1|] eqn:Hc; [|discriminate].
    apply IH. eapply submits_unique_call; eassumption.
Qed.

End Calls.

(** ** A 401 from the exchange *)
Section Unauthorized.

Variable exchange : nat -> HttpReply.

(** A valid intent with a fresh id on a configured client makes at least
    one request. *)
Lemma submit_with_retry_serves (fuel : nat) (intent : TradeIntent) (environment : string)
    (e e' : Engine) :
  rest_configured e = true ->
  _submit_with_retry exchange fuel intent environment e = Some e' ->
  (served e < served e')%nat.
Proof.
  intros Hconf. unfold _submit_with_retry.
  change (seq 0 5) with (0%nat :: seq 1 4). cbn [submit_attempts]. unfold create_order.
  destruct (_request exchange fuel (order_body intent) 0 e) as [[e1 r]|] eqn:Hreq;
    [|discriminate].
  destruct (request_spec _ _ _ _ _ _ _ Hreq) as (evs1 & _ & Hserved1 & _ & _ & _ & _ & Hpos).
  specialize (Hpos Hconf).
  destruct r as [resp|ex].
  - intros [= <-].
    destruct (on_order_success_spec resp intent environment e1) as (evs & _ & _ & Hs & _).
    rewrite Hs. lia.
  - destruct ex; [intros [= <-]; simpl; lia|..];
      intros Hrec; apply submit_attempts_spec in Hrec as (evs & _ & _ & Hs & _);
      simpl in Hs; lia.
Qed.

(** The first turn of [_request] on a 401. *)
Lemma request_unauthorized (fuel : nat) (body : OrderBody) (attempt : nat) (e : Engine)
    (rb : RespBody) :
  rest_configured e = true -> exchange (served e) = Response 401 rb ->
  _request exchange (S fuel) body attempt e =
    Some (emit (Log WARNING "Kalshi REST non-retryable error")
            (emit (HttpPost body (Response 401 rb)) (answered e)),
          Raise (ClientResponseError 401)).
Proof. intros Hconf Hreply. simpl. rewrite Hconf, Hreply. reflexivity. Qed.

Lemma submit_attempts_unauthorized (fuel : nat) (intent : TradeIntent)
    (environment : string) (rb : RespBody) :
  (forall k, exchange k = Response 401 rb) ->
  forall attempts e,
    rest_configured e = true ->
    exists e',
      submit_attempts exchange (S fuel) attempts (order_body intent) intent environment e
        = Some e'
      /\ trace e' =
           trace e ++ concat (map (unauthorized_attempt (order_body intent) rb) attempts)
                   ++ exhausted intent environment (_broadcaster e)
      /\ served e' = (served e + length attempts)%nat
      /\ _submitted_ids e' = _submitted_ids e
      /\ _open_orders e' = _open_orders e.
Proof.
  intros H401. induction attempts as [|attempt rest IH]; intros e Hconf.
  - eexists. split; [reflexivity|]. unfold _on_order_failed, exhausted. simpl.
    destruct (_broadcaster e); simpl; rewrite <- ?app_assoc;
      repeat split; auto; lia.
  - cbn [submit_attempts]. unfold create_order.
    rewrite (request_unauthorized fuel _ _ e rb Hconf (H401 _)).
    match goal with
    | |- context [submit_attempts _ _ rest _ _ _ ?e0] =>
        destruct (IH e0 Hconf) as (e' & Hrun & Ht & Hs & Hids & Hoo)
    end.
    exists e'. split; [exact Hrun|].
    rewrite Ht, Hs, Hids, Hoo. simpl. rewrite <- !app_assoc. simpl.
    repeat split; auto; lia.
Qed.

End Unauthorized.

(** ** Claims about the engine *)

(** C1 fails on the code.  A 401 leaves [_request] as the
    [ClientResponseError] of [raise_for_status], because 401 is one of
    [_NO_RETRY_CODES] and that test comes first; no call of [_request] ever
    ends in [PermissionError].  The engine therefore treats the 401 like any
    other failure: on an exchange that answers 401 to everything, a valid
    intent with a fresh id is posted five times, with the pauses of the
    backoff in between, and ends as [order_failed]. *)
Theorem unauthorized_is_retried (exchange : nat -> HttpReply) (fuel : nat)
    (intent : TradeIntent) (environment : string) (e : Engine) (rb : RespBody) :
  (forall k, exchange k = Response 401 rb) ->
  rest_configured e = true ->
  valid intent -> client_order_id intent ∉ _submitted_ids e ->
  (forall body attempt,
     _request exchange (S fuel) body attempt e =
       Some (emit (Log WARNING "Kalshi REST non-retryable error")
               (emit (HttpPost body (Response 401 rb)) (answered e)),
             Raise (ClientResponseError 401)))
  /\ (forall n body attempt e0 e1 r,
        _request exchange n body attempt e0 = Some (e1, r) -> r <> Raise PermissionError)
  /\ exists e',
       execute exchange (S fuel) intent environment e = Some e'
       /\ served e' = (served e + 5)%nat
       /\ trace e' =
            trace e
            ++ concat (map (unauthorized_attempt (order_body intent) rb) (seq 0 5))
            ++ exhausted intent environment (_broadcaster e).
Proof.
  intros H401 Hconf Hv Hfresh. split; [|split].
  - intros body attempt. apply request_unauthorized; auto.
  - intros n body attempt e0 e1 r Hreq.
    destruct (request_spec _ _ _ _ _ _ _ Hreq) as (_ & _ & _ & _ & _ & _ & Hr & _).
    exact Hr.
  - rewrite (execute_fresh exchange (S fuel) intent environment e Hv Hfresh).
    unfold _submit_with_retry.
    destruct (submit_attempts_unauthorized exchange fuel intent environment rb H401
                (seq 0 5)
                (set_submitted_ids (_submitted_ids e ∪ {[client_order_id intent]}) e)
                Hconf)
      as (e' & Hrun & Ht & Hs & _).
    exists e'. split; [exact Hrun|]. split; [exact Hs|exact Ht].
Qed.

Lemma unauthorized_is_retried_witness :
  exists e',
    execute (always 401) 1 (intent_at 41) "demo" demo_engine = Some e'
    /\ served e' = 5%nat
    /\ length (posts (trace e')) = 5%nat
    /\ sleeps (trace e') = [0.1; 0.2; 0.4; 0.8; 1.6]%Q
    /\ (Log ERROR "Order rejected with 401 — halting further execution." ∉ trace e')
    /\ last (trace e') = Some (Broadcast (OrderFailed "order-1" "BTC-X" "demo")).
Proof.
  destruct (unauthorized_is_retried (always 401) 0 (intent_at 41) "demo" demo_engine
              empty_body)
    as (_ & _ & e' & Hrun & Hs & Ht).
  - intros k. reflexivity.
  - reflexivity.
  - unfold valid. simpl. repeat split; auto; lia.
  - simpl. apply not_elem_of_empty.
  - exists e'. split; [exact Hrun|]. split; [exact Hs|]. rewrite Ht.
    split; [reflexivity|]. split; [reflexivity|].
    split; [|reflexivity].
    intros H. apply list_elem_of_In in H. vm_compute in H.
    repeat (destruct H as [H|H]; [discriminate|]). exact H.
Defined.

Lemma log_frame (l : level) (text : string) (e : Engine) :
  served (log l text e) = served e
  /\ posts (trace (log l text e)) = posts (trace e)
  /\ inserted_orders (trace (log l text e)) = inserted_orders (trace e)
  /\ accepted_ids (trace (log l text e)) = accepted_ids (trace e)
  /\ _open_orders (log l text e) = _open_orders e
  /\ _submitted_ids (log l text e) = _submitted_ids e.
Proof.
  simpl. rewrite posts_app, inserted_orders_app, accepted_ids_app. simpl.
  rewrite !app_nil_r. repeat split; reflexivity.
Qed.

(** C2: once [execute] has run on a validated intent, a call with the same
    [client_order_id], at once or after any other calls on the engine,
    returns (whatever turns its REST loop would be given) without a request
    to the exchange and without an order row for the database; and over any
    calls made on a new engine no two accepted requests carry the same
    [client_order_id]. *)
Theorem duplicate_submission_is_dropped (exchange : nat -> HttpReply) (fuel fuel' : nat)
    (intent again : TradeIntent) (environment environment' : string) (e e1 : Engine) :
  valid intent ->
  execute exchange fuel intent environment e = Some e1 ->
  client_order_id again = client_order_id intent ->
  (exists e2,
     execute exchange fuel' again environment' e1 = Some e2
     /\ served e2 = served e1
     /\ posts (trace e2) = posts (trace e1)
     /\ inserted_orders (trace e2) = inserted_orders (trace e1)
     /\ accepted_ids (trace e2) = accepted_ids (trace e1)
     /\ _open_orders e2 = _open_orders e1
     /\ _submitted_ids e2 = _submitted_ids e1)
  /\ (forall later e2,
        run_calls exchange fuel later e1 = Some e2 ->
        exists l text,
          execute exchange fuel' again environment' e2 = Some (log l text e2))
  /\ (submits_unique e -> submits_unique e1)
  /\ (forall configured db env0 broadcaster calls e',
        run_calls exchange fuel calls (new_engine configured db env0 broadcaster) = Some e' ->
        NoDup (accepted_ids (trace e'))).
Proof.
  intros Hv Hex Hsame. split; [|split; [|split]].
  2:{ intros later e2 Hlater.
      destruct (execute_spec _ _ _ _ _ _ Hex) as (_ & _ & _ & Hrec & _).
      specialize (Hrec Hv). rewrite <- Hsame in Hrec.
      apply execute_recorded.
      eapply run_calls_submitted_mono; [exact Hlater|exact Hrec]. }
  - destruct (execute_spec _ _ _ _ _ _ Hex) as (_ & _ & _ & Hrec & _).
    specialize (Hrec Hv). rewrite <- Hsame in Hrec.
    destruct (execute_recorded exchange fuel' again environment' e1 Hrec)
      as (l & text & Hdup).
    exists (log l text e1). split; [exact Hdup|]. apply log_frame.
  - intros Hinv. apply (submits_unique_call exchange fuel (Execute intent environment) e e1 Hinv).
    exact Hex.
  - intros configured db env0 broadcaster calls e' Hrun.
    apply (submits_unique_calls exchange fuel calls _ e'
             (submits_unique_new configured db env0 broadcaster) Hrun).
Qed.

Lemma duplicate_submission_is_dropped_witness :
  exists e1 e2,
    execute (always 201) 6 (intent_at 41) "demo" demo_engine = Some e1
    /\ execute (always 201) 6 (intent_at 41) "demo" e1 = Some e2
    /\ length (posts (trace e1)) = 1%nat
    /\ posts (trace e2) = posts (trace e1)
    /\ inserted_orders (trace e2) = inserted_orders (trace e1).
Proof.
  destruct (execute_returns (always 201) 6 (intent_at 41) "demo" demo_engine)
    as (e1 & Hex).
  { intros k status body [= <- _]. right. left. reflexivity. }
  { lia. }
  destruct (duplicate_submission_is_dropped (always 201) 6 6 (intent_at 41) (intent_at 41)
              "demo" "demo" demo_engine e1)
    as ((e2 & Hdup & _ & Hposts & Hins & _) & _).
  - unfold valid. simpl. repeat split; auto; lia.
  - exact Hex.
  - reflexivity.
  - exists e1, e2. split; [exact Hex|]. split; [exact Hdup|].
    split; [|split; assumption].
    vm_compute in Hex. injection Hex as <-. reflexivity.
Defined.

(** C8: prices 1 and 99 pass validation, so that an intent whose other
    fields are valid is recorded and submitted; prices 0 and 100 fail it, and
    [execute] then returns normally having done nothing but write the
    warning: no id recorded, no request made. *)
Theorem price_bounds (exchange : nat -> HttpReply) (fuel : nat) (intent : TradeIntent)
    (environment : string) (e : Engine) :
  ((price intent = 1 \/ price intent = 99) ->
   0 < count intent -> market_ticker intent ≠ "" ->
   (action intent = "buy" \/ action intent = "sell") ->
   (side intent = "yes" \/ side intent = "no") ->
   _validate intent e = (e, true)
   /\ (client_order_id intent ∉ _submitted_ids e ->
       execute exchange fuel intent environment e =
         _submit_with_retry exchange fuel intent environment
           (set_submitted_ids (_submitted_ids e ∪ {[client_order_id intent]}) e)
       /\ forall e', execute exchange fuel intent environment e = Some e' ->
            client_order_id intent ∈ _submitted_ids e'
            /\ (rest_configured e = true -> (served e < served e')%nat)))
  /\ ((price intent = 0 \/ price intent = 100) ->
      _validate intent e = (log WARNING "Invalid price" e, false)
      /\ execute exchange fuel intent environment e = Some (log WARNING "Invalid price" e)
      /\ _submitted_ids (log WARNING "Invalid price" e) = _submitted_ids e
      /\ served (log WARNING "Invalid price" e) = served e
      /\ posts (trace (log WARNING "Invalid price" e)) = posts (trace e)).
Proof.
  split.
  - intros Hprice Hcount Hticker Haction Hside.
    assert (Hv : valid intent).
    { unfold valid. repeat split; auto; destruct Hprice as [-> | ->]; lia. }
    split; [apply validate_valid, Hv|].
    intros Hfresh.
    pose proof (execute_fresh exchange fuel intent environment e Hv Hfresh) as Hfr.
    split; [exact Hfr|].
    intros e' Hex. split.
    + destruct (execute_spec _ _ _ _ _ _ Hex) as (_ & _ & _ & Hrec & _). auto.
    + intros Hconf. rewrite Hfr in Hex.
      apply submit_with_retry_serves in Hex; [exact Hex|exact Hconf].
  - intros Hprice.
    assert (Hval : _validate intent e = (log WARNING "Invalid price" e, false)).
    { unfold _validate. destruct Hprice as [-> | ->]; reflexivity. }
    split; [exact Hval|]. split.
    + unfold execute. rewrite Hval. reflexivity.
    + destruct (log_frame WARNING "Invalid price" e) as (Hs & Hp & _ & _ & _ & Hids).
      auto.
Qed.

Lemma price_bounds_witness :
  _validate (intent_at 1) demo_engine = (demo_engine, true)
  /\ _validate (intent_at 99) demo_engine = (demo_engine, true)
  /\ execute (always 201) 6 (intent_at 0) "demo" demo_engine
       = Some (log WARNING "Invalid price" demo_engine)
  /\ execute (always 201) 6 (intent_at 100) "demo" demo_engine
       = Some (log WARNING "Invalid price" demo_engine).
Proof.
  split; [|split; [|split]].
  - apply (proj1 (price_bounds (always 201) 6 (intent_at 1) "demo" demo_engine));
      simpl; auto; lia.
  - apply (proj1 (price_bounds (always 201) 6 (intent_at 99) "demo" demo_engine));
      simpl; auto; lia.
  - apply (proj2 (price_bounds (always 201) 6 (intent_at 0) "demo" demo_engine)).
    left. reflexivity.
  - apply (proj2 (price_bounds (always 201) 6 (intent_at 100) "demo" demo_engine)).
    right. reflexivity.
Defined.

(** C9: the id of a valid intent is recorded before its submission starts
    and no call on the engine removes it; so however the first call ended,
    and so when its attempts were exhausted and [order_failed] was broadcast,
    a later [execute] with the same [client_order_id] returns without a
    request to the exchange. *)
Theorem failed_intent_stays_recorded (exchange : nat -> HttpReply) (fuel fuel' : nat)
    (intent again : TradeIntent) (environment environment' : string)
    (later : list Call) (e e1 e2 : Engine) :
  valid intent ->
  client_order_id intent ∉ _submitted_ids e ->
  execute exchange fuel intent environment e = Some e1 ->
  run_calls exchange fuel later e1 = Some e2 ->
  client_order_id again = client_order_id intent ->
  execute exchange fuel intent environment e =
    _submit_with_retry exchange fuel intent environment
      (set_submitted_ids (_submitted_ids e ∪ {[client_order_id intent]}) e)
  /\ client_order_id intent ∈ _submitted_ids e1
  /\ client_order_id intent ∈ _submitted_ids e2
  /\ exists e3,
       execute exchange fuel' again environment' e2 = Some e3
       /\ served e3 = served e2
       /\ posts (trace e3) = posts (trace e2).
Proof.
  intros Hv Hfresh Hex Hlater Hsame.
  split; [apply execute_fresh; assumption|].
  destruct (execute_spec _ _ _ _ _ _ Hex) as (_ & _ & _ & Hrec & _).
  specialize (Hrec Hv).
  assert (Hrec2 : client_order_id intent ∈ _submitted_ids e2).
  { eapply run_calls_submitted_mono; [exact Hlater|exact Hrec]. }
  split; [exact Hrec|]. split; [exact Hrec2|].
  rewrite <- Hsame in Hrec2.
  destruct (execute_recorded exchange fuel' again environment' e2 Hrec2)
    as (l & text & Hdup).
  exists (log l text e2). split; [exact Hdup|].
  destruct (log_frame l text e2) as (Hs & Hp & _). auto.
Qed.

Lemma failed_intent_stays_recorded_witness :
  exists e1 e3,
    execute (always 500) 6 (intent_at 41) "demo" demo_engine = Some e1
    /\ last (trace e1) = Some (Broadcast (OrderFailed "order-1" "BTC-X" "demo"))
    /\ served e1 = 20%nat
    /\ execute (always 500) 6 (intent_at 41) "demo" e1 = Some e3
    /\ served e3 = 20%nat.
Proof.
  destruct (execute_returns (always 500) 6 (intent_at 41) "demo" demo_engine)
    as (e1 & Hex).
  { intros k status body [= <- _]. right. right. lia. }
  { lia. }
  destruct (failed_intent_stays_recorded (always 500) 6 6 (intent_at 41) (intent_at 41)
              "demo" "demo" [] demo_engine e1 e1)
    as (_ & _ & _ & e3 & Hdup & Hs & _).
  - unfold valid. simpl. repeat split; auto; lia.
  - simpl. apply not_elem_of_empty.
  - exact Hex.
  - reflexivity.
  - reflexivity.
  - exists e1, e3. vm_compute in Hex. injection Hex as <-.
    split; [vm_compute; reflexivity|]. split; [reflexivity|]. split; [reflexivity|].
    split; [exact Hdup|exact Hs].
Defined.

End ExecutionFacts.

(** * More on the market cache *)
Module MarketCacheExtra.
Import MarketCache MarketCacheFacts.

(** ** Incremental orderbook updates *)

Lemma patch_levels_app (levels : list (Z * Z)) (p q : Z) (side : gmap Z Z) :
  patch_levels (levels ++ [(p, q)]) side =
    if q =? 0 then delete p (patch_levels levels side)
    else <[p := q]> (patch_levels levels side).
Proof. unfold patch_levels. rewrite fold_left_app. reflexivity. Qed.

(** After a patch, a price the message does not list keeps its quantity; a
    listed price follows its last level: gone when the quantity is 0, set to
    the quantity otherwise. *)
Lemma patch_levels_lookup (levels : list (Z * Z)) (side : gmap Z Z) (p : Z) :
  patch_levels levels side !! p =
    match dict_of_levels levels !! p with
    | Some q => if q =? 0 then None else Some q
    | None => side !! p
    end.
Proof.
  induction levels as [|[p' q'] levels IH] using rev_ind.
  - unfold dict_of_levels. simpl. rewrite lookup_empty. reflexivity.
  - rewrite patch_levels_app, dict_of_levels_app.
    destruct (decide (p' = p)) as [->|Hne].
    + rewrite lookup_insert_eq.
      destruct (q' =? 0); [apply lookup_delete_eq|apply lookup_insert_eq].
    + rewrite lookup_insert_ne by exact Hne.
      destruct (q' =? 0);
        [rewrite lookup_delete_ne by exact Hne|rewrite lookup_insert_ne by exact Hne];
        exact IH.
Qed.

Lemma well_keyed_nonempty (c : Cache) (t : string) (st : MarketState) :
  well_keyed c -> cache c !! t = Some st -> t <> EmptyString.
Proof. unfold well_keyed. intros Hwk Hst ->. congruence. Qed.

(** The entry [apply_orderbook_delta] writes for a cached market. *)
Lemma apply_orderbook_delta_book (msg : OrderbookMsg) (c : Cache) (t : string)
    (old : MarketState) :
  om_market_ticker msg = Some t -> t <> EmptyString -> cache c !! t = Some old ->
  exists st book,
    cache (apply_orderbook_delta msg c) !! t = Some st
    /\ orderbook st = Some book
    /\ book =
         match bool_decide (om_seq msg = Some 1), orderbook old with
         | false, Some ob =>
             mkOrderbook (patch_levels (om_yes msg) (ob_yes ob))
                         (patch_levels (om_no msg) (ob_no ob)) (om_seq msg)
         | _, _ =>
             mkOrderbook (dict_of_levels (om_yes msg)) (dict_of_levels (om_no msg))
                         (om_seq msg)
         end
    /\ yes_bid st = max_key (ob_yes book)
    /\ no_bid st = max_key (ob_no book)
    /\ (implied_probability st == inject_Z (yes_bid st) / 100)%Q
    /\ recent_trades st = recent_trades old
    /\ market_status st = market_status old
    /\ last_price st = last_price old.
Proof.
  intros Ht Hne Hold. unfold apply_orderbook_delta.
  rewrite Ht, (truthy_nonempty _ Hne). simpl. rewrite Hold. simpl.
  rewrite lookup_insert_eq. eexists. eexists. split; [reflexivity|]. simpl.
  split; [reflexivity|].
  destruct (bool_decide (om_seq msg = Some 1)), (orderbook old); simpl;
    repeat split; reflexivity.
Qed.

(** X1: an incremental message (one whose seq is not 1, on a market that
    has a book) patches the stored book: on each side a price the message
    does not list keeps its quantity, a listed price follows its last level
    in the message (removed when that quantity is 0, set to it otherwise),
    and the stored seq becomes the message's. *)
Theorem orderbook_patch_applies_levels (msg : OrderbookMsg) (c : Cache) (t : string)
    (old : MarketState) (ob : Orderbook) :
  well_keyed c ->
  om_market_ticker msg = Some t ->
  cache c !! t = Some old ->
  orderbook old = Some ob ->
  om_seq msg <> Some 1 ->
  exists st book,
    cache (apply_orderbook_delta msg c) !! t = Some st
    /\ orderbook st = Some book
    /\ ob_seq book = om_seq msg
    /\ (forall p,
          ob_yes book !! p =
            match dict_of_levels (om_yes msg) !! p with
            | Some q => if q =? 0 then None else Some q
            | None => ob_yes ob !! p
            end)
    /\ (forall p,
          ob_no book !! p =
            match dict_of_levels (om_no msg) !! p with
            | Some q => if q =? 0 then None else Some q
            | None => ob_no ob !! p
            end).
Proof.
  intros Hwk Ht Hold Hob Hseq.
  destruct (apply_orderbook_delta_book msg c t old Ht
              (well_keyed_nonempty c t old Hwk Hold) Hold)
    as (st & book & Hst & Hbook & Heq & _).
  rewrite Hob, bool_decide_eq_false_2 in Heq by exact Hseq.
  exists st, book. split; [exact Hst|]. split; [exact Hbook|]. subst book. simpl.
  split; [reflexivity|]. split; intros p; apply patch_levels_lookup.
Qed.

Lemma orderbook_patch_applies_levels_witness :
  exists st book,
    cache (apply_orderbook_delta patch_seq8 cache_with_book) !! "BTC-X"%string = Some st
    /\ orderbook st = Some book
    /\ ob_seq book = Some 8
    /\ ob_yes book !! 30 = None /\ ob_yes book !! 31 = Some 6
    /\ ob_no book !! 60 = Some 1 /\ ob_no book !! 61 = Some 9.
Proof.
  edestruct (orderbook_patch_applies_levels patch_seq8 cache_with_book "BTC-X"%string)
    as (st & book & Hst & Hbook & Hseq & Hyes & Hno).
  - vm_compute. reflexivity.
  - reflexivity.
  - vm_compute. reflexivity.
  - reflexivity.
  - discriminate.
  - exists st, book. split; [exact Hst|]. split; [exact Hbook|]. split; [exact Hseq|].
    rewrite !Hyes, !Hno. vm_compute. repeat split; reflexivity.
Defined.

(** X2: after any orderbook message on a cached market, [yes_bid] is the
    greatest price held in the yes side of the stored book (0 when that side
    is empty), [no_bid] likewise for the no side, and the asks are their
    complements to 100. *)
Theorem best_bids_follow_book (msg : OrderbookMsg) (c : Cache) (t : string)
    (old : MarketState) :
  well_keyed c ->
  om_market_ticker msg = Some t ->
  cache c !! t = Some old ->
  exists st book,
    cache (apply_orderbook_delta msg c) !! t = Some st
    /\ orderbook st = Some book
    /\ (ob_yes book = ∅ -> yes_bid st = 0)
    /\ (ob_yes book <> ∅ ->
        yes_bid st ∈ dom (ob_yes book) /\ forall k, k ∈ dom (ob_yes book) -> k <= yes_bid st)
    /\ (ob_no book = ∅ -> no_bid st = 0)
    /\ (ob_no book <> ∅ ->
        no_bid st ∈ dom (ob_no book) /\ forall k, k ∈ dom (ob_no book) -> k <= no_bid st)
    /\ yes_ask st = 100 - no_bid st
    /\ no_ask st = 100 - yes_bid st.
Proof.
  intros Hwk Ht Hold.
  pose proof (well_keyed_nonempty c t old Hwk Hold) as Hne.
  destruct (apply_orderbook_delta_book msg c t old Ht Hne Hold)
    as (st & book & Hst & Hbook & _ & Hyb & Hnb & _).
  destruct (apply_orderbook_delta_entry c msg t old Ht Hne Hold)
    as (st' & Hst' & Hya & Hna & _).
  rewrite Hst in Hst'. injection Hst' as <-.
  exists st, book. split; [exact Hst|]. split; [exact Hbook|].
  rewrite Hyb, Hnb in *.
  destruct (max_key_spec (ob_yes book)) as [Hy0 Hy1].
  destruct (max_key_spec (ob_no book)) as [Hn0 Hn1].
  repeat split; auto; try apply Hy1; try apply Hn1; auto.
Qed.

Lemma best_bids_follow_book_witness :
  exists st,
    cache (apply_orderbook_delta snapshot_btc cache_with_btc) !! "BTC-X"%string = Some st
    /\ yes_bid st = 40 /\ no_bid st = 55 /\ yes_ask st = 45 /\ no_ask st = 60.
Proof.
  edestruct (best_bids_follow_book snapshot_btc cache_with_btc "BTC-X"%string)
    as (st & book & Hst & _).
  - vm_compute. reflexivity.
  - reflexivity.
  - vm_compute. reflexivity.
  - exists st. vm_compute in Hst. injection Hst as <-. repeat split; reflexivity.
Defined.

(** ** Where the entries of a cache come from *)

Lemma deque_append_length (n : nat) (d : list Trade) (x : Trade) :
  (length (deque_append n d x) <= n)%nat.
Proof. unfold deque_append. rewrite length_drop, length_app. simpl. lia. Qed.

Lemma deque_append_last (n : nat) (d : list Trade) (x : Trade) :
  (0 < n)%nat -> last (deque_append n d x) = Some x.
Proof.
  intros Hn. unfold deque_append.
  rewrite last_lookup, length_drop, lookup_drop, length_app. simpl.
  replace (length d + 1 - n + Init.Nat.pred (length d + 1 - (length d + 1 - n)))%nat
    with (length d) by lia.
  apply list_lookup_middle. reflexivity.
Qed.

Lemma deque_append_room (n : nat) (d : list Trade) (x : Trade) :
  (length d < n)%nat -> deque_append n d x = d ++ [x].
Proof.
  intros Hlt. unfold deque_append. rewrite length_app. simpl.
  replace (length d + 1 - n)%nat with 0%nat by lia. reflexivity.
Qed.

Lemma deque_append_full (n : nat) (d : list Trade) (x : Trade) :
  (0 < n)%nat -> length d = n -> deque_append n d x = drop 1 d ++ [x].
Proof.
  intros Hn Hlen. unfold deque_append. rewrite length_app. simpl.
  replace (length d + 1 - n)%nat with 1%nat by lia.
  destruct d as [|y d]; [simpl in Hlen; lia|reflexivity].
Qed.

(** An entry found after a write is either new, stored under the ticker of
    the message with no trades yet, or the entry that was there, under the
    same ticker and with its trades kept or extended by one. *)
Lemma write_entry_origin (w : write) (c : Cache) (t : string) (st : MarketState) :
  cache (run_write w c) !! t = Some st ->
  (cache c !! t = None /\ t <> EmptyString /\ market_ticker st = t /\ recent_trades st = [])
  \/ exists old,
       cache c !! t = Some old
       /\ market_ticker st = market_ticker old
       /\ (recent_trades st = recent_trades old
           \/ exists trade, recent_trades st = deque_append 100 (recent_trades old) trade).
Proof.
  assert (Hkeep : forall o : MarketState, cache c !! t = Some o ->
            exists old, cache c !! t = Some old
              /\ market_ticker o = market_ticker old
              /\ (recent_trades o = recent_trades old
                  \/ exists trade,
                       recent_trades o = deque_append 100 (recent_trades old) trade)).
  { intros o Ho. exists o. auto. }
  destruct w as [msg|md|msg|msg|ticker status]; simpl.
  - unfold upsert_from_ticker.
    ticker_cases (tm_market_ticker msg) H t0 Ht0 Hne0; [|intros Hst; right; auto].
    destruct (decide (t0 = t)) as [->|Hd].
    + destruct (tm_yes_ask msg); simpl; rewrite lookup_insert_eq; intros [= <-];
        (destruct (cache c !! t) as [old|] eqn:E;
         [right; exists old; simpl; auto|left; simpl; auto]).
    + destruct (tm_yes_ask msg); simpl; rewrite lookup_insert_ne by exact Hd;
        intros Hst; right; auto.
  - unfold upsert_from_discovery.
    ticker_cases (md_ticker md) H t0 Ht0 Hne0; [|intros Hst; right; auto].
    destruct (decide (t0 = t)) as [->|Hd].
    + rewrite lookup_insert_eq; intros [= <-].
      destruct (cache c !! t) as [old|] eqn:E;
        [right; exists old; simpl; auto|left; simpl; auto].
    + rewrite lookup_insert_ne by exact Hd. intros Hst; right; auto.
  - unfold apply_orderbook_delta.
    ticker_cases (om_market_ticker msg) H t0 Ht0 Hne0; [|intros Hst; right; auto].
    destruct (cache c !! t0) as [old|] eqn:E; [|intros Hst; right; auto].
    simpl. destruct (decide (t0 = t)) as [->|Hd].
    + rewrite lookup_insert_eq; intros [= <-]. right. exists old. simpl. auto.
    + rewrite lookup_insert_ne by exact Hd. intros Hst; right; auto.
  - unfold append_trade.
    ticker_cases (trm_market_ticker msg) H t0 Ht0 Hne0; [|intros Hst; right; auto].
    destruct (cache c !! t0) as [old|] eqn:E; [|intros Hst; right; auto].
    destruct (decide (t0 = t)) as [->|Hd].
    + rewrite lookup_insert_eq; intros [= <-]. right. exists old. simpl. eauto.
    + rewrite lookup_insert_ne by exact Hd. intros Hst; right; auto.
  - unfold update_status. simpl.
    destruct (cache c !! ticker) as [old|] eqn:E; [|intros Hst; right; auto].
    destruct (decide (ticker = t)) as [->|Hd].
    + rewrite lookup_insert_eq; intros [= <-]. right. exists old. simpl. auto.
    + rewrite lookup_insert_ne by exact Hd. intros Hst; right; auto.
Qed.

Lemma keyed_write (w : write) (c : Cache) : keyed c -> keyed (run_write w c).
Proof.
  intros Hc t st Hst.
  destruct (write_entry_origin w c t st Hst)
    as [(_ & Hne & Hmt & _)|(old & Hold & Hmt & _)]; [auto|].
  destruct (Hc t old Hold) as [Hk Hne]. split; [congruence|exact Hne].
Qed.

Lemma trades_bounded_write (w : write) (c : Cache) :
  trades_bounded c -> trades_bounded (run_write w c).
Proof.
  intros Hc t st Hst.
  destruct (write_entry_origin w c t st Hst)
    as [(_ & _ & _ & ->)|(old & Hold & _ & [->|(trade & ->)])].
  - simpl. lia.
  - apply (Hc t old Hold).
  - apply deque_append_length.
Qed.

Lemma dom_write (w : write) (c : Cache) : dom (cache c) ⊆ dom (cache (run_write w c)).
Proof.
  intros t Ht. apply elem_of_dom in Ht as [old Hold]. apply elem_of_dom.
  destruct w as [msg|md|msg|msg|ticker status]; simpl.
  - unfold upsert_from_ticker.
    ticker_cases (tm_market_ticker msg) H t0 Ht0 Hne0; [|eauto].
    destruct (tm_yes_ask msg); simpl; rewrite lookup_insert; case_decide; eauto.
  - unfold upsert_from_discovery.
    ticker_cases (md_ticker md) H t0 Ht0 Hne0; [|eauto].
    rewrite lookup_insert; case_decide; eauto.
  - unfold apply_orderbook_delta.
    ticker_cases (om_market_ticker msg) H t0 Ht0 Hne0; [|eauto].
    destruct (cache c !! t0); [|eauto]. simpl.
    rewrite lookup_insert; case_decide; eauto.
  - unfold append_trade.
    ticker_cases (trm_market_ticker msg) H t0 Ht0 Hne0; [|eauto].
    destruct (cache c !! t0); [|eauto]. rewrite lookup_insert; case_decide; eauto.
  - unfold update_status. simpl.
    destruct (cache c !! ticker); [|eauto]. rewrite lookup_insert; case_decide; eauto.
Qed.

(** X3: in every cache built from the empty one by writes, each entry is
    stored under its own [market_ticker], which is not empty, and holds at
    most 100 recent trades. *)
Theorem entries_keyed_and_bounded (ws : list write) :
  keyed (run_writes ws new_cache) /\ trades_bounded (run_writes ws new_cache).
Proof.
  assert (Hgen : forall c, keyed c -> trades_bounded c ->
            keyed (run_writes ws c) /\ trades_bounded (run_writes ws c)).
  { induction ws as [|w ws IH]; intros c Hk Hb; simpl; [auto|].
    apply IH; [apply keyed_write|apply trades_bounded_write]; assumption. }
  apply Hgen; intros t st Hst; simpl in Hst; rewrite lookup_empty in Hst; discriminate.
Qed.

(** X4: no write removes a market: a ticker found in the cache is still
    found after any further writes. *)
Theorem markets_are_never_removed (ws : list write) (c : Cache) (t : string) :
  is_Some (cache c !! t) -> is_Some (cache (run_writes ws c) !! t).
Proof.
  revert c. induction ws as [|w ws IH]; intros c Hin; simpl; [exact Hin|].
  apply IH. apply elem_of_dom. apply dom_write. apply elem_of_dom. exact Hin.
Qed.

Lemma markets_are_never_removed_witness :
  is_Some (cache (run_writes [UpdateStatus "BTC-X" "settled"; ApplyOrderbookDelta snapshot_btc]
                    cache_with_btc) !! "BTC-X"%string).
Proof.
  apply (markets_are_never_removed _ cache_with_btc "BTC-X"%string).
  vm_compute. eexists. reflexivity.
Defined.

(** ** What each write leaves alone *)

(** X5: [append_trade] on a cached market puts the trade at the end of
    [recent_trades]: after the others while fewer than 100 are held, in
    place of the oldest once 100 are held; prices, status and orderbook are
    left as they were. *)
Theorem append_trade_keeps_last_100 (msg : TradeMsg) (c : Cache) (t : string)
    (old : MarketState) :
  well_keyed c ->
  trm_market_ticker msg = Some t ->
  cache c !! t = Some old ->
  exists st,
    cache (append_trade msg c) !! t = Some st
    /\ last (recent_trades st) = Some (trade_of msg)
    /\ ((length (recent_trades old) < 100)%nat ->
        recent_trades st = recent_trades old ++ [trade_of msg])
    /\ (length (recent_trades old) = 100%nat ->
        recent_trades st = drop 1 (recent_trades old) ++ [trade_of msg])
    /\ (length (recent_trades st) <= 100)%nat
    /\ orderbook st = orderbook old
    /\ market_status st = market_status old
    /\ yes_bid st = yes_bid old /\ no_bid st = no_bid old
    /\ last_price st = last_price old /\ volume st = volume old.
Proof.
  intros Hwk Ht Hold.
  pose proof (well_keyed_nonempty c t old Hwk Hold) as Hne.
  unfold append_trade. rewrite Ht, (truthy_nonempty _ Hne). simpl. rewrite Hold.
  simpl. rewrite lookup_insert_eq. eexists. split; [reflexivity|]. simpl.
  fold (trade_of msg).
  split; [apply deque_append_last; lia|].
  split; [apply deque_append_room|].
  split; [apply deque_append_full; lia|].
  split; [apply deque_append_length|]. repeat split; reflexivity.
Qed.

Lemma append_trade_keeps_last_100_witness :
  exists st,
    cache (append_trade trade_btc cache_with_book) !! "BTC-X"%string = Some st
    /\ recent_trades st = [mkTrade 41 3 "yes" 5]
    /\ is_Some (orderbook st).
Proof.
  edestruct (append_trade_keeps_last_100 trade_btc cache_with_book "BTC-X"%string)
    as (st & Hst & _ & Hroom & _ & _ & Hob & _).
  - vm_compute. reflexivity.
  - reflexivity.
  - vm_compute. reflexivity.
  - exists st. split; [exact Hst|]. split.
    + rewrite Hroom; [reflexivity|]. simpl. lia.
    + rewrite Hob. eexists. reflexivity.
Defined.

(** X6: [upsert_from_discovery] on a market that is already cached only
    refreshes [event_ticker], [series_ticker] and [market_status] (each kept
    when the key is absent): bids, asks, last price, volume, open interest,
    derived fields, timestamp, orderbook and recent trades stay as the
    WebSocket writes left them, whatever prices the REST data carries. *)
Theorem discovery_keeps_live_fields (md : MarketData) (c : Cache) (t : string)
    (old : MarketState) :
  well_keyed c ->
  md_ticker md = Some t ->
  cache c !! t = Some old ->
  exists st,
    cache (upsert_from_discovery md c) !! t = Some st
    /\ event_ticker st = default (event_ticker old) (md_event_ticker md)
    /\ series_ticker st = default (series_ticker old) (md_series_ticker md)
    /\ market_status st = default (market_status old) (md_status md)
    /\ yes_bid st = yes_bid old /\ no_bid st = no_bid old
    /\ yes_ask st = yes_ask old /\ no_ask st = no_ask old
    /\ last_price st = last_price old /\ volume st = volume old
    /\ open_interest st = open_interest old
    /\ spread st = spread old /\ midpoint st = midpoint old
    /\ implied_probability st = implied_probability old
    /\ last_updated_timestamp st = last_updated_timestamp old
    /\ orderbook st = orderbook old
    /\ recent_trades st = recent_trades old.
Proof.
  intros Hwk Ht Hold.
  pose proof (well_keyed_nonempty c t old Hwk Hold) as Hne.
  unfold upsert_from_discovery. rewrite Ht, (truthy_nonempty _ Hne). simpl.
  rewrite Hold, lookup_insert_eq. eexists. split; [reflexivity|]. simpl.
  repeat split; reflexivity.
Qed.

Lemma discovery_keeps_live_fields_witness :
  exists st,
    cache (upsert_from_discovery discovered_btc_closed
             (apply_orderbook_delta snapshot_btc cache_with_btc)) !! "BTC-X"%string
      = Some st
    /\ market_status st = "closed"%string /\ yes_bid st = 40 /\ no_bid st = 55
    /\ is_Some (orderbook st).
Proof.
  edestruct (discovery_keeps_live_fields discovered_btc_closed
               (apply_orderbook_delta snapshot_btc cache_with_btc) "BTC-X"%string)
    as (st & Hst & _ & _ & Hstatus & Hyb & Hnb & _ & _ & _ & _ & _ & _ & _ & _ & _ & Hob & _).
  - vm_compute. reflexivity.
  - reflexivity.
  - vm_compute. reflexivity.
  - exists st. split; [exact Hst|]. rewrite Hstatus, Hyb, Hnb, Hob.
    repeat split; try reflexivity. eexists. reflexivity.
Defined.

(** X7: [update_status] sets the status of a cached market and nothing else
    of it (orderbook, recent trades and prices are kept), leaves every other
    market alone, and stores nothing for a ticker that is not cached. *)
Theorem update_status_only_sets_status (ticker status : string) (c : Cache) :
  (forall old, cache c !! ticker = Some old ->
     exists st,
       cache (update_status ticker status c) !! ticker = Some st
       /\ market_status st = status
       /\ orderbook st = orderbook old
       /\ recent_trades st = recent_trades old
       /\ yes_bid st = yes_bid old /\ no_bid st = no_bid old
       /\ yes_ask st = yes_ask old /\ no_ask st = no_ask old
       /\ last_price st = last_price old)
  /\ (forall t, t <> ticker -> cache (update_status ticker status c) !! t = cache c !! t)
  /\ (cache c !! ticker = None -> cache (update_status ticker status c) = cache c).
Proof.
  unfold update_status. simpl. split; [|split].
  - intros old Hold. rewrite Hold, lookup_insert_eq. eexists. split; [reflexivity|].
    simpl. repeat split; reflexivity.
  - intros t Hne. destruct (cache c !! ticker); [|reflexivity].
    apply lookup_insert_ne. congruence.
  - intros ->. reflexivity.
Qed.

Lemma update_status_only_sets_status_witness :
  exists st,
    cache (update_status "BTC-X" "closed" cache_with_book) !! "BTC-X"%string = Some st
    /\ market_status st = "closed"%string
    /\ is_Some (orderbook st).
Proof.
  destruct (update_status_only_sets_status "BTC-X" "closed" cache_with_book)
    as (Hset & _ & _).
  assert (Hold : exists old, cache cache_with_book !! "BTC-X"%string = Some old
                             /\ is_Some (orderbook old))
    by (eexists; split; [vm_compute; reflexivity|eexists; reflexivity]).
  destruct Hold as (old & Hold & Hbook).
  destruct (Hset old Hold) as (st & Hst & Hstatus & Hob & _).
  exists st. split; [exact Hst|]. split; [exact Hstatus|]. rewrite Hob. exact Hbook.
Defined.

(** X8: [upsert_from_ticker] on a market that is already cached replaces
    the bids and derived fields but keeps its orderbook, recent trades,
    event and series tickers and status, and keeps [last_price], [volume],
    [open_interest] and the timestamp where the message has no such key; on
    a market that is not cached it creates the entry with status "open"
    unless the message says otherwise, no orderbook and no trades. *)
Theorem ticker_update_keeps_book_and_trades (msg : TickerMsg) (c : Cache) (t : string) :
  tm_market_ticker msg = Some t -> t <> EmptyString ->
  exists st,
    cache (upsert_from_ticker msg c) !! t = Some st
    /\ yes_bid st = default 0 (tm_yes_bid msg)
    /\ no_bid st = default 0 (tm_no_bid msg)
    /\ match cache c !! t with
       | Some old =>
           orderbook st = orderbook old
           /\ recent_trades st = recent_trades old
           /\ event_ticker st = event_ticker old
           /\ series_ticker st = series_ticker old
           /\ market_status st = market_status old
           /\ last_price st = default (last_price old) (tm_last_price msg)
           /\ volume st = default (volume old) (tm_volume msg)
           /\ open_interest st = default (open_interest old) (tm_open_interest msg)
           /\ last_updated_timestamp st =
                default (last_updated_timestamp old) (tm_ts msg)
       | None =>
           orderbook st = None
           /\ recent_trades st = []
           /\ market_ticker st = t
           /\ market_status st = default "open"%string (tm_status msg)
           /\ last_price st = default 0 (tm_last_price msg)
           /\ volume st = default 0 (tm_volume msg)
           /\ open_interest st = default 0 (tm_open_interest msg)
           /\ last_updated_timestamp st = default 0 (tm_ts msg)
       end.
Proof.
  intros Ht Hne. unfold upsert_from_ticker.
  rewrite Ht, (truthy_nonempty _ Hne). simpl.
  destruct (tm_yes_ask msg); simpl; rewrite lookup_insert_eq;
    (eexists; split; [reflexivity|]);
    destruct (cache c !! t); simpl; repeat split; reflexivity.
Qed.

Lemma ticker_update_keeps_book_and_trades_witness :
  exists st,
    cache (upsert_from_ticker ticker_plain cache_with_book) !! "BTC-X"%string = Some st
    /\ yes_bid st = 40 /\ no_bid st = 50
    /\ is_Some (orderbook st) /\ market_status st = "open"%string.
Proof.
  destruct (ticker_update_keeps_book_and_trades ticker_plain cache_with_book
              "BTC-X"%string eq_refl ltac:(discriminate))
    as (st & Hst & Hyb & Hnb & Hrest).
  exists st. split; [exact Hst|]. split; [exact Hyb|]. split; [exact Hnb|].
  vm_compute in Hst. injection Hst as <-. split; [eexists|]; reflexivity.
Defined.

(** X9: the notifier is also set when nothing was written: [append_trade]
    with a ticker that is not cached and [update_status] on a ticker that is
    not cached leave the map as it is and set the event all the same; a
    trade message that names no market does neither. *)
Theorem unknown_market_still_notifies (c : Cache) :
  (forall msg t,
     trm_market_ticker msg = Some t -> t <> EmptyString -> cache c !! t = None ->
     cache (append_trade msg c) = cache c
     /\ update_notification (append_trade msg c) = true)
  /\ (forall ticker status,
        cache c !! ticker = None ->
        cache (update_status ticker status c) = cache c
        /\ update_notification (update_status ticker status c) = true)
  /\ (forall msg, truthy (trm_market_ticker msg) = false -> append_trade msg c = c).
Proof.
  split; [|split].
  - intros msg t Ht Hne Hnone. unfold append_trade.
    rewrite Ht, (truthy_nonempty _ Hne). simpl. rewrite Hnone. auto.
  - intros ticker status Hnone. unfold update_status. rewrite Hnone. auto.
  - intros msg Hf. unfold append_trade. rewrite Hf. reflexivity.
Qed.

Lemma unknown_market_still_notifies_witness :
  cache (update_status "BTC-X" "closed" new_cache) = cache new_cache
  /\ update_notification (update_status "BTC-X" "closed" new_cache) = true.
Proof.
  destruct (unknown_market_still_notifies new_cache) as (_ & Hstatus & _).
  apply Hstatus. apply lookup_empty.
Defined.

End MarketCacheExtra.

(** * More on the WebSocket client *)
Module WebSocketExtra.
Import WebSocket WebSocketFacts.

Local Open Scope string_scope.
Local Open Scope list_scope.
Local Open Scope Z_scope.

(** ** subscribe and unsubscribe *)

Lemma difference_empty_inv (K S : gset SubscriptionKey) : K ∖ S = ∅ -> K ⊆ S.
Proof.
  intros He k Hk. destruct (decide (k ∈ S)) as [|Hn]; [assumption|].
  exfalso. apply (not_elem_of_empty (C := gset SubscriptionKey) k).
  rewrite <- He. apply elem_of_difference. split; assumption.
Qed.

Lemma subscribe_subscriptions (channels market_tickers : list string) (s : Client) :
  _subscriptions (subscribe channels market_tickers s)
    = _subscriptions s ∪ key_set channels market_tickers.
Proof.
  unfold subscribe.
  destruct (decide (key_set channels market_tickers ∖ _subscriptions s = ∅)) as [He|He].
  - apply difference_empty_inv in He. apply set_eq. intros k.
    rewrite elem_of_union. split; [auto|]. intros [Hk|Hk]; auto.
  - clear He. simpl. unfold _send_subscribe. simpl. destruct (ws_open s); simpl;
      apply set_eq; intros k; destruct (decide (k ∈ _subscriptions s)); set_solver.
Qed.

Lemma subscribe_known (channels market_tickers : list string) (s : Client) :
  key_set channels market_tickers ⊆ _subscriptions s ->
  subscribe channels market_tickers s = s.
Proof.
  intros Hsub. unfold subscribe.
  destruct (decide (key_set channels market_tickers ∖ _subscriptions s = ∅)) as [He|He];
    [reflexivity|].
  exfalso. apply He. apply set_eq. intros k.
  rewrite elem_of_difference. split; [intros [Hk Hn]; exfalso; auto|].
  intros Hk. exfalso. apply (not_elem_of_empty (C := gset SubscriptionKey) k), Hk.
Qed.

(** X10: [subscribe] is idempotent.  When every requested key is already in
    the desired set the client is left as it is, no frame written; so a
    second [subscribe] with the same arguments changes nothing.  When some
    key is new, the desired set gains the requested keys and, on an open
    socket, one frame is written that lists all the requested channels and
    tickers. *)
Theorem subscribe_is_idempotent (channels market_tickers : list string) (s : Client) :
  (key_set channels market_tickers ⊆ _subscriptions s ->
     subscribe channels market_tickers s = s)
  /\ subscribe channels market_tickers (subscribe channels market_tickers s)
       = subscribe channels market_tickers s
  /\ _subscriptions (subscribe channels market_tickers s)
       = _subscriptions s ∪ key_set channels market_tickers
  /\ (~ key_set channels market_tickers ⊆ _subscriptions s ->
      sent (subscribe channels market_tickers s) =
        if ws_open s
        then sent s ++ [mkCommand (_msg_id s + 1) "subscribe" channels market_tickers]
        else sent s).
Proof.
  split; [apply subscribe_known|]. split; [|split].
  - apply subscribe_known. rewrite subscribe_subscriptions. set_solver.
  - apply subscribe_subscriptions.
  - intros Hnew. unfold subscribe.
    destruct (decide (key_set channels market_tickers ∖ _subscriptions s = ∅)) as [He|He].
    + exfalso. apply Hnew, difference_empty_inv, He.
    + simpl. unfold _send_subscribe. simpl. destruct (ws_open s); reflexivity.
Qed.

Lemma subscribe_is_idempotent_witness :
  subscribe ["ticker"] ["BTC-X"] client_at_11 = client_at_11
  /\ sent (subscribe ["trade"] ["BTC-X"] client_at_11)
       = [mkCommand 5 "subscribe" ["trade"] ["BTC-X"]].
Proof.
  destruct (subscribe_is_idempotent ["ticker"] ["BTC-X"] client_at_11) as (Hknown & _).
  destruct (subscribe_is_idempotent ["trade"] ["BTC-X"] client_at_11) as (_ & _ & _ & Hnew).
  split.
  - apply Hknown. rewrite key_set_single. simpl. set_solver.
  - rewrite Hnew; [reflexivity|].
    rewrite key_set_single. simpl. intros Hsub.
    assert (Hin : ("trade", "BTC-X") ∈
                  ({[("orderbook_delta", "BTC-X"); ("ticker", "BTC-X")]}
                   : gset SubscriptionKey)) by set_solver.
    apply elem_of_union in Hin as [Hin|Hin];
      apply elem_of_singleton in Hin; discriminate.
Defined.

(** X11: [unsubscribe] takes every key of channels x tickers out of the
    desired set and leaves the other keys; on an open socket it writes one
    unsubscribe frame under the next id, whether or not any of the keys was
    subscribed; a [subscribe] with the same arguments afterwards brings the
    keys back. *)
Theorem unsubscribe_removes_keys (channels market_tickers : list string) (s : Client) :
  let s' := unsubscribe channels market_tickers s in
  _subscriptions s' = _subscriptions s ∖ key_set channels market_tickers
  /\ sent s' =
       (if ws_open s
        then sent s ++ [mkCommand (_msg_id s + 1) "unsubscribe" channels market_tickers]
        else sent s)
  /\ _ob_seq s' = _ob_seq s
  /\ _queue s' = _queue s
  /\ _subscriptions (subscribe channels market_tickers s')
       = _subscriptions s ∪ key_set channels market_tickers.
Proof.
  unfold unsubscribe. simpl.
  assert (Hback : (_subscriptions s ∖ key_set channels market_tickers)
                    ∪ key_set channels market_tickers
                  = _subscriptions s ∪ key_set channels market_tickers).
  { apply set_eq. intros k.
    destruct (decide (k ∈ key_set channels market_tickers)); set_solver. }
  destruct (ws_open s) eqn:Hopen; simpl;
    (repeat split; try reflexivity);
    rewrite subscribe_subscriptions; simpl; exact Hback.
Qed.

(** ** Reconnect backoff *)

Lemma backoff_delay_value (attempts : nat) :
  _backoff_delay attempts =
    (Some (nth (Nat.min attempts 5) _RECONNECT_DELAYS 30%Q), S attempts).
Proof.
  unfold _backoff_delay. simpl length. simpl Nat.sub. f_equal.
  assert (Hle : (Nat.min attempts 5 <= 5)%nat) by lia.
  destruct (Nat.min attempts 5) as [|[|[|[|[|[|k]]]]]]; try reflexivity. lia.
Qed.

(** X12: [_backoff_delay] always finds its delay in the ladder and moves
    the counter up by one: the k-th failed reconnect in a row (from 0) waits
    0.5 * 2^k seconds for k = 0..4 and 30 seconds from k = 5 on, so the
    delays lie between 0.5 and 30 seconds and never decrease. *)
Theorem backoff_ladder_saturates (k : nat) :
  exists d,
    _backoff_delay k = (Some d, S k)
    /\ ((k < 5)%nat -> (d == inject_Z (2 ^ Z.of_nat k) / 2)%Q)
    /\ ((5 <= k)%nat -> d = 30.0%Q)
    /\ (0.5 <= d)%Q /\ (d <= 30)%Q
    /\ forall d', fst (_backoff_delay (S k)) = Some d' -> (d <= d')%Q.
Proof.
  rewrite (backoff_delay_value k), (backoff_delay_value (S k)). simpl fst.
  eexists. split; [reflexivity|].
  destruct k as [|[|[|[|[|k]]]]].
  1-5: (split; [intros _; vm_compute; reflexivity|]; split; [lia|];
        split; [vm_compute; discriminate|]; split; [vm_compute; discriminate|];
        intros d' [= <-]; vm_compute; discriminate).
  replace (Nat.min (S (S (S (S (S k))))) 5) with 5%nat by lia.
  replace (Nat.min (S (S (S (S (S (S k)))))) 5) with 5%nat by lia.
  split; [lia|]. split; [reflexivity|].
  split; [vm_compute; discriminate|]. split; [vm_compute; discriminate|].
  intros d' [= <-]. vm_compute. discriminate.
Qed.

Lemma backoff_ladder_saturates_witness :
  backoff_delays 8 0 =
    [Some 0.5; Some 1.0; Some 2.0; Some 4.0; Some 8.0; Some 30.0; Some 30.0; Some 30.0]%Q
  /\ exists d, _backoff_delay 7 = (Some d, 8%nat) /\ d = 30.0%Q.
Proof.
  split; [reflexivity|].
  destruct (backoff_ladder_saturates 7) as (d & Hd & _ & Hsat & _).
  exists d. split; [exact Hd|]. apply Hsat. lia.
Defined.

(** ** Runs of the client *)

Lemma ids_increase_snoc (frames : list Command) (f : Command) : forall bound,
  ids_increase bound frames ->
  bound < cmd_id f -> Forall (fun g => cmd_id g < cmd_id f) frames ->
  ids_increase bound (frames ++ [f]).
Proof.
  induction frames as [|g frames IH]; intros bound Hinc Hb Hall; simpl.
  - auto.
  - destruct Hinc as [Hg Hrest]. inversion Hall; subst. split; [exact Hg|].
    apply IH; assumption.
Qed.

(** The invariant of the frame ids: they grow strictly from a message id of
    at least 1 and none exceeds the current [_msg_id]. *)
Lemma ids_invariant_op (o : Op) (s : Client) :
  1 <= _msg_id s -> ids_increase 1 (sent s) ->
  Forall (fun g => cmd_id g <= _msg_id s) (sent s) ->
  let s' := run_op o s in
  1 <= _msg_id s' /\ ids_increase 1 (sent s')
  /\ Forall (fun g => cmd_id g <= _msg_id s') (sent s').
Proof.
  intros Hid Hinc Hall.
  assert (Hsend : forall name chs tks,
            ids_increase 1 (sent s ++ [mkCommand (_msg_id s + 1) name chs tks])
            /\ Forall (fun g => cmd_id g <= _msg_id s + 1)
                 (sent s ++ [mkCommand (_msg_id s + 1) name chs tks])).
  { intros name chs tks. split.
    - apply ids_increase_snoc; [exact Hinc|simpl; lia|].
      eapply Forall_impl; [exact Hall|]. simpl. intros g Hg. lia.
    - apply Forall_app. split.
      + eapply Forall_impl; [exact Hall|]. simpl. intros g Hg. lia.
      + constructor; [simpl; lia|constructor]. }
  assert (Hsub : forall chs tks (c : Client),
            _msg_id c = _msg_id s -> sent c = sent s ->
            1 <= _msg_id (subscribe chs tks c)
            /\ ids_increase 1 (sent (subscribe chs tks c))
            /\ Forall (fun g => cmd_id g <= _msg_id (subscribe chs tks c))
                 (sent (subscribe chs tks c))).
  { intros chs tks c Hc1 Hc2. unfold subscribe.
    destruct (decide (_ = ∅)); [rewrite Hc1, Hc2; auto|].
    simpl. unfold _send_subscribe. simpl.
    destruct (ws_open c); simpl; rewrite Hc1, Hc2; [|auto].
    destruct (Hsend "subscribe" chs tks). split; [lia|auto]. }
  destruct o as [chs tks|chs tks|now raw|]; simpl.
  - apply Hsub; reflexivity.
  - unfold unsubscribe. simpl. destruct (ws_open s); simpl; [|auto].
    destruct (Hsend "unsubscribe" chs tks). split; [lia|auto].
  - unfold _handle_raw. destruct raw as [|msg]; simpl; [auto|].
    repeat (match goal with
            | |- context [match ?x with _ => _ end] => destruct x
            end; simpl); auto.
  - destruct (tasks s) as [|[chs tks] rest]; [auto|]. simpl.
    apply Hsub; reflexivity.
Qed.

(** X13: over any run of [subscribe], [unsubscribe], inbound frames and
    created tasks on a new client, the ids of the subscribe and unsubscribe
    frames written grow strictly (so no two of them share an id), starting
    above 1, and none exceeds the client's [_msg_id]. *)
Theorem frame_ids_grow (os : list Op) (environment : string) (open : bool) :
  let s := run_ops os (new_client environment open) in
  ids_increase 1 (sent s) /\ Forall (fun g => cmd_id g <= _msg_id s) (sent s).
Proof.
  assert (Hgen : forall s0,
            1 <= _msg_id s0 -> ids_increase 1 (sent s0) ->
            Forall (fun g => cmd_id g <= _msg_id s0) (sent s0) ->
            ids_increase 1 (sent (run_ops os s0))
            /\ Forall (fun g => cmd_id g <= _msg_id (run_ops os s0)) (sent (run_ops os s0))).
  { induction os as [|o os IH]; intros s0 H1 H2 H3; simpl; [auto|].
    destruct (ids_invariant_op o s0 H1 H2 H3) as (H1' & H2' & H3').
    apply IH; assumption. }
  apply Hgen; simpl; [lia|exact I|constructor].
Qed.

(** ** Inbound frames *)

Lemma inbound_routing_queue (now : Z) (raw : Raw) (s : Client) :
  (_queue (_handle_raw now raw s) = _queue s
   \/ exists msg, raw = Json msg
        /\ _queue (_handle_raw now raw s) = _queue s ++ [tag_env (_env s) msg])
  /\ _env (_handle_raw now raw s) = _env s.
Proof.
  unfold _handle_raw. destruct raw as [|msg]; simpl; [auto|].
  repeat (match goal with
          | |- context [match ?x with _ => _ end] => destruct x
          end; simpl); split; eauto.
Qed.

(** X14: what [_handle_raw] lets through.  A frame that is not JSON only
    leaves a warning; [pong] only sets [_last_pong]; [subscribed],
    [unsubscribed] and [ok] change nothing at all; none of these is queued.
    Any other frame that is not an [orderbook_delta] is queued once, with
    the client's environment tag, and touches neither the tracked sequences
    nor the desired subscriptions.  In every case the queue is left as it was
    or grows by the tagged frame. *)
Theorem inbound_routing (now : Z) (raw : Raw) (s : Client) :
  let s' := _handle_raw now raw s in
  (raw = NotJson ->
     s' = log WARNING "WebSocket received non-JSON message" s)
  /\ (forall msg, raw = Json msg -> default "" (m_type msg) = "pong" ->
        s' = set_last_pong now s)
  /\ (forall msg, raw = Json msg ->
        default "" (m_type msg) ∈ ["subscribed"; "unsubscribed"; "ok"] -> s' = s)
  /\ (forall msg, raw = Json msg ->
        default "" (m_type msg) ∉ ["pong"; "subscribed"; "unsubscribed"; "ok";
                                   "orderbook_delta"] ->
        s' = queue_put (tag_env (_env s) msg) s)
  /\ (_queue s' = _queue s
      \/ exists msg, raw = Json msg /\ _queue s' = _queue s ++ [tag_env (_env s) msg])
  /\ _env s' = _env s.
Proof.
  cbv zeta. split; [intros ->; reflexivity|].
  split.
  { intros msg -> Hpong. unfold _handle_raw. rewrite Hpong. reflexivity. }
  split.
  { intros msg -> Hctl. unfold _handle_raw.
    destruct (decide (default "" (m_type msg) = "pong")) as [Hp|_].
    - rewrite Hp in Hctl. exfalso.
      rewrite !elem_of_cons, elem_of_nil in Hctl.
      destruct Hctl as [H|[H|[H|[]]]]; discriminate.
    - rewrite bool_decide_eq_true_2 by exact Hctl. reflexivity. }
  split.
  { intros msg -> Hother. unfold _handle_raw.
    rewrite !not_elem_of_cons in Hother.
    destruct Hother as (H1 & H2 & H3 & H4 & H5 & _).
    destruct (decide (default "" (m_type msg) = "pong")); [contradiction|].
    rewrite bool_decide_eq_false_2.
    - simpl. destruct (decide (default "" (m_type msg) = "orderbook_delta"));
        [contradiction|reflexivity].
    - rewrite !elem_of_cons, elem_of_nil. intros [H|[H|[H|[]]]]; contradiction. }
  apply inbound_routing_queue.
Qed.

Lemma queue_tagged_op (o : Op) (s : Client) :
  queue_tagged s -> queue_tagged (run_op o s) /\ _env (run_op o s) = _env s.
Proof.
  unfold queue_tagged. intros Hq.
  assert (Hsub : forall chs tks (c : Client),
            _queue c = _queue s -> _env c = _env s ->
            Forall (fun m => m_env m = Some (_env (subscribe chs tks c)))
              (_queue (subscribe chs tks c))
            /\ _env (subscribe chs tks c) = _env s).
  { intros chs tks c Hc1 Hc2. unfold subscribe.
    destruct (decide (_ = ∅)); [rewrite Hc1, Hc2; auto|].
    simpl. unfold _send_subscribe. simpl.
    destruct (ws_open c); simpl; rewrite Hc1, Hc2; auto. }
  destruct o as [chs tks|chs tks|now raw|]; simpl.
  - apply Hsub; reflexivity.
  - unfold unsubscribe. simpl. destruct (ws_open s); simpl; auto.
  - destruct (inbound_routing_queue now raw s) as (Hqueue & Henv).
    rewrite Henv. split; [|reflexivity].
    destruct Hqueue as [->|(msg & _ & ->)]; [exact Hq|].
    apply Forall_app. split; [exact Hq|]. constructor; [reflexivity|constructor].
  - destruct (tasks s) as [|[chs tks] rest]; [auto|]. simpl.
    apply Hsub; reflexivity.
Qed.

Lemma inbound_routing_witness :
  _handle_raw 0 NotJson client_at_11
  = log WARNING "WebSocket received non-JSON message" client_at_11.
Proof.
  destruct (inbound_routing 0 NotJson client_at_11) as (Hnot & _).
  apply Hnot. reflexivity.
Defined.

(** X15: over any run of the client, every message on the inbound queue
    carries the environment tag of the client that queued it, and the
    client's environment does not change. *)
Theorem queued_messages_are_tagged (os : list Op) (environment : string) (open : bool) :
  let s := run_ops os (new_client environment open) in
  _env s = environment /\ Forall (fun m => m_env m = Some environment) (_queue s).
Proof.
  assert (Hgen : forall s0, queue_tagged s0 ->
            _env (run_ops os s0) = _env s0 /\ queue_tagged (run_ops os s0)).
  { induction os as [|o os IH]; intros s0 Hq; simpl; [auto|].
    destruct (queue_tagged_op o s0 Hq) as [Hq' Henv].
    destruct (IH _ Hq') as [Henv' Hq'']. rewrite Henv' , Henv. auto. }
  destruct (Hgen (new_client environment open)) as [Henv Hq]; [constructor|].
  cbv zeta. unfold queue_tagged in Hq. rewrite Henv in Hq. simpl in *. auto.
Qed.

Lemma run_ops_cons (o : Op) (os : list Op) (s : Client) :
  run_ops (o :: os) s = run_ops os (run_op o s).
Proof. reflexivity. Qed.

(** The frames [seq+a+1 ..] of a ticker tracked at [seq+a], handled in order. *)
Lemma deltas_in_order (now : Z) (t : string) (seq : Z) (n : nat) : forall (a : nat) (s : Client),
  t <> "" ->
  _ob_seq s !! t = Some (seq + Z.of_nat a) ->
  let frames :=
    map (fun k => mkMsg (Some "orderbook_delta") (Some t)
                    (Some (seq + 1 + Z.of_nat k)) None "") (List.seq a n) in
  let s' := run_ops (map (fun m => HandleRaw now (Json m)) frames) s in
  _queue s' = _queue s ++ map (tag_env (_env s)) frames
  /\ _ob_seq s' !! t = Some (seq + Z.of_nat (a + n))
  /\ _subscriptions s' = _subscriptions s
  /\ tasks s' = tasks s
  /\ sent s' = sent s.
Proof.
  induction n as [|n IH]; intros a s Hne Htr; cbv zeta.
  - simpl. rewrite app_nil_r, Nat.add_0_r. auto.
  - change (List.seq a (S n)) with (a :: List.seq (S a) n). rewrite !map_cons.
    rewrite run_ops_cons.
    set (m := mkMsg (Some "orderbook_delta") (Some t) (Some (seq + 1 + Z.of_nat a)) None "").
    change (run_op (HandleRaw now (Json m)) s) with (_handle_raw now (Json m) s).
    assert (Hstep : _handle_raw now (Json m) s =
              queue_put (tag_env (_env s) m)
                (set_ob_seq (<[t := seq + 1 + Z.of_nat a]> (_ob_seq s)) s)).
    { apply (handle_raw_in_order now s m t (seq + 1 + Z.of_nat a));
        try reflexivity; [exact Hne|].
      intros s_prev Hprev. rewrite Htr in Hprev. injection Hprev as <-. lia. }
    rewrite Hstep.
    match goal with |- context [run_ops _ ?s1] => set (s1' := s1) end.
    destruct (IH (S a) s1' Hne) as (Hq & Hob & Hsubs & Htasks & Hsent).
    { subst s1'. simpl. rewrite lookup_insert_eq. f_equal. lia. }
    cbv zeta in Hq, Hob, Hsubs, Htasks, Hsent.
    rewrite Hq, Hob, Hsubs, Htasks, Hsent. subst s1'. simpl.
    rewrite <- app_assoc. simpl.
    repeat split; try reflexivity. f_equal. lia.
Qed.

(** X16: a run of [orderbook_delta] frames on one ticker that continue the
    tracked sequence by one each is queued whole and in order, each frame
    tagged; the last sequence is the one tracked afterwards, and no
    subscription is dropped, no task created, no frame written. *)
Theorem consecutive_deltas_all_queued (now : Z) (t : string) (seq : Z) (n : nat)
    (s : Client) :
  t <> "" ->
  _ob_seq s !! t = Some seq ->
  let frames := deltas t seq n in
  let s' := run_ops (map (HandleRaw now) frames) s in
  length (_queue s') = (length (_queue s) + n)%nat
  /\ _ob_seq s' !! t = Some (seq + Z.of_nat n)
  /\ _subscriptions s' = _subscriptions s
  /\ tasks s' = tasks s
  /\ sent s' = sent s
  /\ _queue s' =
       _queue s ++
       map (fun k => mkMsg (Some "orderbook_delta") (Some t)
                       (Some (seq + 1 + Z.of_nat k)) (Some (_env s)) "")
           (List.seq 0 n).
Proof.
  intros Hne Htr. cbv zeta. unfold deltas. rewrite map_map.
  destruct (deltas_in_order now t seq n 0 s Hne) as (Hq & Hob & Hsubs & Htasks & Hsent).
  { rewrite Htr. f_equal. simpl. lia. }
  cbv zeta in Hq, Hob, Hsubs, Htasks, Hsent. rewrite map_map in Hq, Hob, Hsubs, Htasks, Hsent.
  rewrite Hq, Hob, Hsubs, Htasks, Hsent. rewrite map_map. simpl.
  rewrite length_app, !length_map, length_seq. repeat split; reflexivity.
Qed.

Lemma consecutive_deltas_all_queued_witness :
  let s' := run_ops (map (HandleRaw 0) (deltas "BTC-X" 11 3)) client_at_11 in
  length (_queue s') = 3%nat /\ _ob_seq s' !! "BTC-X" = Some 14.
Proof.
  destruct (consecutive_deltas_all_queued 0 "BTC-X" 11 3 client_at_11)
    as (Hlen & Hob & _).
  - discriminate.
  - reflexivity.
  - cbv zeta. rewrite Hlen, Hob. split; reflexivity.
Defined.

(** ** Re-subscribing after a reconnect *)
















End WebSocketExtra.

(** * More on the REST client and the execution engine *)
Module ExecutionExtra.
Import Trading Execution ExecutionFacts.

Local Open Scope string_scope.
Local Open Scope list_scope.
Local Open Scope Z_scope.

Lemma retry_table_status (status : Z) (d : Q) (m : nat) :
  _RETRY_TABLE status = Some (d, m) ->
  (status = 429 \/ status = 500 \/ status = 503)
  /\ (status =? 200) || (status =? 201) = false
  /\ bool_decide (status ∈ _NO_RETRY_CODES) = false
  /\ (status =? 401) = false
  /\ raise_for_status status = Some (ClientResponseError status).
Proof.
  unfold _RETRY_TABLE.
  destruct (status =? 429) eqn:H429; [apply Z.eqb_eq in H429; subst|].
  { intros _. repeat split; auto. }
  destruct (status =? 500) eqn:H500; [apply Z.eqb_eq in H500; subst|].
  { intros _. repeat split; auto. }
  destruct (status =? 503) eqn:H503; [apply Z.eqb_eq in H503; subst|discriminate].
  intros _. repeat split; auto.
Qed.

Section Retry.
Variable exchange : nat -> HttpReply.

Lemma request_retry_run (status : Z) (d : Q) (m : nat) (body : OrderBody) :
  _RETRY_TABLE status = Some (d, m) -> answers exchange status ->
  forall n attempt fuel e,
    rest_configured e = true -> (attempt + n = m)%nat -> (n < fuel)%nat ->
    exists e',
      _request exchange fuel body attempt e = Some (e', Raise (ClientResponseError status))
      /\ served e' = (served e + S n)%nat
      /\ length (posts (trace e')) = (length (posts (trace e)) + S n)%nat
      /\ sleeps (trace e') = sleeps (trace e) ++ map (retry_delay status d) (seq attempt n).
Proof.
  intros Htab Hans.
  destruct (retry_table_status _ _ _ Htab) as (_ & H2xx & Hnr & H401 & Hrfs).
  induction n as [|n IH]; intros attempt fuel e Hconf Hm Hfuel;
    (destruct fuel as [|fuel]; [lia|]); simpl;
    rewrite Hconf; simpl;
    destruct (Hans (served e)) as (rb & ->);
    rewrite H2xx, Hnr, H401, Htab.
  - replace (attempt <? m)%nat with false by (symmetry; apply Nat.ltb_ge; lia).
    rewrite Hrfs. eexists. split; [reflexivity|]. simpl.
    unfold posts, sleeps. rewrite !omap_app. simpl. rewrite !app_nil_r, !length_app. simpl.
    repeat split; lia.
  - replace (attempt <? m)%nat with true by (symmetry; apply Nat.ltb_lt; lia).
    match goal with
    | |- context [_request exchange fuel body (S attempt) ?e1] =>
        destruct (IH (S attempt) fuel e1) as (e' & Hreq & Hserved & Hposts & Hsleeps);
          [exact Hconf|lia|lia|]
    end.
    exists e'. split; [exact Hreq|]. rewrite Hserved, Hposts, Hsleeps. simpl.
    unfold posts, sleeps. rewrite !omap_app. simpl.
    rewrite !app_nil_r, !length_app, <- !app_assoc. simpl.
    repeat split; try lia.
Qed.

Lemma request_timeout_run (body : OrderBody) :
  times_out exchange ->
  forall n attempt fuel e,
    rest_configured e = true -> (attempt + n = 3)%nat -> (n < fuel)%nat ->
    exists e',
      _request exchange fuel body attempt e = Some (e', Raise TimeoutError)
      /\ served e' = (served e + S n)%nat
      /\ length (posts (trace e')) = (length (posts (trace e)) + S n)%nat
      /\ sleeps (trace e') = sleeps (trace e) ++ repeat 0.25%Q n.
Proof.
  intros Hout.
  induction n as [|n IH]; intros attempt fuel e Hconf Hm Hfuel;
    (destruct fuel as [|fuel]; [lia|]); simpl;
    rewrite Hconf; simpl; rewrite (Hout (served e)).
  - replace (attempt <? 3)%nat with false by (symmetry; apply Nat.ltb_ge; lia).
    eexists. split; [reflexivity|]. simpl.
    unfold posts, sleeps. rewrite !omap_app. simpl. rewrite !app_nil_r, !length_app. simpl.
    repeat split; lia.
  - replace (attempt <? 3)%nat with true by (symmetry; apply Nat.ltb_lt; lia).
    match goal with
    | |- context [_request exchange fuel body (S attempt) ?e1] =>
        destruct (IH (S attempt) fuel e1) as (e' & Hreq & Hserved & Hposts & Hsleeps);
          [exact Hconf|lia|lia|]
    end.
    exists e'. split; [exact Hreq|]. rewrite Hserved, Hposts, Hsleeps. simpl.
    unfold posts, sleeps. rewrite !omap_app. simpl.
    rewrite !app_nil_r, !length_app, <- !app_assoc. simpl.
    repeat split; try lia.
Qed.

(** A status under 400 other than 200 and 201 sends [_request] round its
    loop again, attempt counter untouched. *)
Lemma request_spins (status : Z) (body : OrderBody) :
  answers exchange status -> status < 400 -> status <> 200 -> status <> 201 ->
  forall fuel attempt e,
    rest_configured e = true -> _request exchange fuel body attempt e = None.
Proof.
  intros Hans Hlt H200 H201.
  assert (H2xx : (status =? 200) || (status =? 201) = false).
  { apply orb_false_intro; apply Z.eqb_neq; assumption. }
  assert (Hnr : bool_decide (status ∈ _NO_RETRY_CODES) = false).
  { apply bool_decide_eq_false_2. unfold _NO_RETRY_CODES.
    rewrite !elem_of_cons, elem_of_nil. lia. }
  assert (H401 : (status =? 401) = false) by (apply Z.eqb_neq; lia).
  assert (Htab : _RETRY_TABLE status = None).
  { unfold _RETRY_TABLE.
    replace (status =? 429) with false by (symmetry; apply Z.eqb_neq; lia).
    replace (status =? 500) with false by (symmetry; apply Z.eqb_neq; lia).
    replace (status =? 503) with false by (symmetry; apply Z.eqb_neq; lia).
    reflexivity. }
  assert (Hrfs : raise_for_status status = None).
  { unfold raise_for_status.
    replace (400 <=? status) with false by (symmetry; apply Z.leb_gt; lia).
    reflexivity. }
  induction fuel as [|fuel IH]; intros attempt e Hconf; simpl; [reflexivity|].
  rewrite Hconf. simpl. destruct (Hans (served e)) as (rb & ->).
  rewrite H2xx, Hnr, H401, Htab, Hrfs. apply IH. exact Hconf.
Qed.

(** With an exchange that answers 200, 201 or an error status, [_request]
    returns after at most [6 - attempt] requests. *)
Lemma request_bounded (fuel : nat) (body : OrderBody) : forall attempt e,
  plain exchange -> (6 <= fuel + attempt)%nat -> (1 <= fuel)%nat ->
  exists e' r,
    _request exchange fuel body attempt e = Some (e', r)
    /\ (served e <= served e' <= served e + S (5 - attempt))%nat.
Proof.
  induction fuel as [|fuel IH]; intros attempt e Hplain Hfuel Hpos; [lia|]. simpl.
  destruct (rest_configured e); simpl; [|eexists; eexists; split; [reflexivity|lia]].
  destruct (exchange (served e)) as [status rb| |] eqn:Hreply.
  - destruct ((status =? 200) || (status =? 201)) eqn:H2xx;
      [eexists; eexists; split; [reflexivity|simpl; lia]|].
    destruct (bool_decide (status ∈ _NO_RETRY_CODES)) eqn:Hnr.
    { apply bool_decide_eq_true_1 in Hnr.
      rewrite (raise_for_status_no_retry _ Hnr).
      eexists; eexists; split; [reflexivity|simpl; lia]. }
    destruct (status =? 401); [eexists; eexists; split; [reflexivity|simpl; lia]|].
    assert (Hbig : raise_for_status status = Some (ClientResponseError status)).
    { unfold raise_for_status. apply orb_false_elim in H2xx as [H200 H201].
      apply Z.eqb_neq in H200, H201.
      destruct (Hplain _ _ _ Hreply) as [?|[?|Hge]]; try contradiction.
      apply Z.leb_le in Hge. rewrite Hge. reflexivity. }
    unfold _RETRY_TABLE.
    destruct (status =? 429); [|destruct (status =? 500); [|destruct (status =? 503)]].
    4:{ rewrite Hbig. eexists; eexists; split; [reflexivity|simpl; lia]. }
    all:
      match goal with
      | |- context [(?a <? ?m)%nat] =>
          destruct (a <? m)%nat eqn:Hlt; simpl;
            [apply Nat.ltb_lt in Hlt
            |rewrite Hbig; eexists; eexists; split; [reflexivity|simpl; lia]]
      end.
    all:
      match goal with
      | |- context [_request _ _ _ (S ?a) ?e1] =>
          destruct (IH (S a) e1 Hplain ltac:(lia) ltac:(lia))
            as (e' & r & Hreq & Hb)
      end; exists e', r; (split; [exact Hreq|simpl in Hb; lia]).
  - simpl. destruct (attempt <? 3)%nat eqn:Hlt;
      [|eexists; eexists; split; [reflexivity|simpl; lia]].
    apply Nat.ltb_lt in Hlt.
    match goal with
    | |- context [_request exchange fuel body (S attempt) ?e1] =>
        destruct (IH (S attempt) e1 Hplain ltac:(lia) ltac:(lia))
          as (e' & r & Hreq & Hb)
    end; exists e', r; (split; [exact Hreq|simpl in Hb; lia]).
  - eexists; eexists; split; [reflexivity|simpl; lia].
Qed.

End Retry.

Lemma answers_plain (exchange : nat -> HttpReply) (status : Z) :
  answers exchange status -> 400 <= status -> plain exchange.
Proof.
  intros Hans Hge k status' body Hk. destruct (Hans k) as (rb & Hrb).
  rewrite Hrb in Hk. injection Hk as <- _. auto.
Qed.

Lemma served_on_order_success resp intent env e :
  served (_on_order_success resp intent env e) = served e.
Proof.
  unfold _on_order_success. simpl.
  destruct (_db e); simpl; destruct (_broadcaster e); reflexivity.
Qed.

Lemma served_on_order_failed intent env e :
  served (_on_order_failed intent env e) = served e.
Proof. unfold _on_order_failed. destruct (_broadcaster e); reflexivity. Qed.

Section Submission.
Variable exchange : nat -> HttpReply.
Variable fuel : nat.

Lemma submit_attempts_bounded (intent : TradeIntent) (env : string) :
  plain exchange -> (6 <= fuel)%nat ->
  forall attempts e,
    exists e',
      submit_attempts exchange fuel attempts (order_body intent) intent env e = Some e'
      /\ (served e' <= served e + 6 * length attempts)%nat.
Proof.
  intros Hplain Hfuel.
  induction attempts as [|attempt rest IH]; intros e; simpl.
  - eexists. split; [reflexivity|]. rewrite served_on_order_failed. simpl. lia.
  - unfold create_order.
    destruct (request_bounded exchange fuel (order_body intent) 0%nat e Hplain
                ltac:(lia) ltac:(lia)) as (e1 & r & -> & Hb).
    destruct r as [resp|ex].
    + eexists. split; [reflexivity|]. rewrite served_on_order_success. lia.
    + destruct ex;
        try (match goal with
             | |- context [submit_attempts _ _ rest _ _ _ ?e2] =>
                 destruct (IH e2) as (e' & -> & Hb'); exists e';
                 split; [reflexivity|simpl in Hb'; lia]
             end).
      eexists. split; [reflexivity|]. simpl. lia.
Qed.

Lemma submit_attempts_refused (intent : TradeIntent) (env : string)
    (status : Z) (d : Q) (m : nat) :
  _RETRY_TABLE status = Some (d, m) -> answers exchange status -> (m < fuel)%nat ->
  forall attempts e,
    rest_configured e = true ->
    exists e',
      submit_attempts exchange fuel attempts (order_body intent) intent env e = Some e'
      /\ served e' = (served e + S m * length attempts)%nat.
Proof.
  intros Htab Hans Hfuel.
  induction attempts as [|attempt rest IH]; intros e Hconf; simpl.
  - eexists. split; [reflexivity|]. rewrite served_on_order_failed. simpl. lia.
  - unfold create_order.
    destruct (request_retry_run exchange status d m (order_body intent) Htab Hans
                m 0%nat fuel e Hconf ltac:(lia) Hfuel)
      as (e1 & Hreq & Hserved & _).
    rewrite Hreq.
    destruct (request_spec _ _ _ _ _ _ _ Hreq) as (_ & (_ & Hconf1 & _) & _).
    match goal with
    | |- context [submit_attempts _ _ rest _ _ _ ?e2] =>
        destruct (IH e2) as (e' & -> & Hb'); [simpl; congruence|]; exists e';
        split; [reflexivity|simpl in Hb'; lia]
    end.
Qed.

Lemma submit_attempts_unconfigured (intent : TradeIntent) (env : string) :
  (1 <= fuel)%nat ->
  forall attempts e,
    rest_configured e = false ->
    exists e',
      submit_attempts exchange fuel attempts (order_body intent) intent env e = Some e'
      /\ trace e' = trace e ++ concat (map failed_attempt attempts)
                      ++ exhausted intent env (_broadcaster e)
      /\ served e' = served e
      /\ _submitted_ids e' = _submitted_ids e
      /\ _open_orders e' = _open_orders e.
Proof.
  intros Hfuel. destruct fuel as [|fuel']; [lia|].
  induction attempts as [|attempt rest IH]; intros e Hconf.
  - simpl. eexists. split; [reflexivity|].
    unfold _on_order_failed, exhausted. simpl.
    destruct (_broadcaster e); simpl; rewrite <- ?app_assoc; repeat split; reflexivity.
  - cbn [submit_attempts]. unfold create_order. cbn [_request]. rewrite Hconf. simpl.
    match goal with
    | |- context [submit_attempts _ _ rest _ _ _ ?e2] =>
        destruct (IH e2) as (e' & -> & Ht & Hs & Hids & Hoo); [exact Hconf|]; exists e'
    end.
    split; [reflexivity|]. rewrite Ht, Hs, Hids, Hoo. simpl.
    rewrite <- !app_assoc. repeat split; reflexivity.
Qed.

End Submission.

(** X18: [_request] does not return on a status under 400 other than 200
    and 201 (202, 204, ...): [raise_for_status] raises nothing there, so the
    [while True] loop sends the request again, attempt counter untouched.
    While the exchange keeps answering so, no number of turns of the loop is
    enough, and [execute] on a new valid intent does not return either. *)
Theorem other_success_status_never_returns (exchange : nat -> HttpReply) (status : Z)
    (fuel : nat) (e : Engine) :
  answers exchange status -> status < 400 -> status <> 200 -> status <> 201 ->
  rest_configured e = true ->
  (forall body attempt, _request exchange fuel body attempt e = None)
  /\ (forall intent env,
        valid intent -> (client_order_id intent ∉ _submitted_ids e) ->
        execute exchange fuel intent env e = None).
Proof.
  intros Hans Hlt H200 H201 Hconf. split.
  - intros body attempt. eapply request_spins; eassumption.
  - intros intent env Hv Hfresh. rewrite (execute_fresh _ _ _ _ _ Hv Hfresh).
    unfold _submit_with_retry. change (seq 0 5) with (0%nat :: seq 1 4).
    cbn [submit_attempts]. unfold create_order.
    rewrite (request_spins exchange status (order_body intent) Hans Hlt H200 H201);
      [reflexivity|exact Hconf].
Qed.

Lemma other_success_status_never_returns_witness :
  answers (always 204) 204
  /\ _request (always 204) 1000 (order_body (intent_at 41)) 0 demo_engine = None
  /\ execute (always 204) 1000 (intent_at 41) "demo" demo_engine = None.
Proof.
  assert (Hans : answers (always 204) 204) by (intros k; eexists; reflexivity).
  split; [exact Hans|].
  destruct (other_success_status_never_returns (always 204) 204 1000 demo_engine Hans
              ltac:(lia) ltac:(lia) ltac:(lia) eq_refl) as [Hreq Hex].
  split; [apply Hreq|]. apply Hex.
  - unfold valid. simpl. repeat split; try lia; auto; discriminate.
  - simpl. apply not_elem_of_empty.
Defined.

(** X19: the second number of a [_RETRY_TABLE] entry counts the retries, not
    the requests.  When the exchange answers every request with a status of
    the table, [create_order] sends [max_attempts + 1] requests, pauses
    [max_attempts] times (doubling from the base delay for 429, the base delay
    otherwise) and raises the response error of that status; when every
    request times out it sends four requests, pauses three times a quarter
    of a second and raises [TimeoutError]. *)
Theorem retry_table_allows_one_more_request (exchange : nat -> HttpReply) (fuel : nat)
    (body : OrderBody) (e : Engine) :
  rest_configured e = true ->
  (forall status base_delay max_att,
     _RETRY_TABLE status = Some (base_delay, max_att) ->
     answers exchange status -> (max_att < fuel)%nat ->
     exists e',
       create_order exchange fuel body e = Some (e', Raise (ClientResponseError status))
       /\ served e' = (served e + S max_att)%nat
       /\ sleeps (trace e')
          = sleeps (trace e) ++ map (retry_delay status base_delay) (seq 0 max_att))
  /\ (times_out exchange -> (3 < fuel)%nat ->
      exists e',
        create_order exchange fuel body e = Some (e', Raise TimeoutError)
        /\ served e' = (served e + 4)%nat
        /\ sleeps (trace e') = sleeps (trace e) ++ [0.25; 0.25; 0.25]%Q).
Proof.
  intros Hconf. split.
  - intros status d m Htab Hans Hfuel.
    destruct (request_retry_run exchange status d m body Htab Hans m 0%nat fuel e
                Hconf ltac:(lia) Hfuel) as (e' & Hreq & Hserved & _ & Hsleeps).
    exists e'. auto.
  - intros Hout Hfuel.
    destruct (request_timeout_run exchange body Hout 3%nat 0%nat fuel e
                Hconf ltac:(lia) Hfuel) as (e' & Hreq & Hserved & _ & Hsleeps).
    exists e'. auto.
Qed.

Lemma retry_table_allows_one_more_request_witness :
  rest_configured demo_engine = true
  /\ exists e',
       create_order (always 500) 4 (order_body (intent_at 41)) demo_engine
         = Some (e', Raise (ClientResponseError 500))
       /\ served e' = 4%nat
       /\ sleeps (trace e') = [0.5; 0.5; 0.5]%Q.
Proof.
  split; [reflexivity|].
  destruct (retry_table_allows_one_more_request (always 500) 4
              (order_body (intent_at 41)) demo_engine eq_refl) as [Htab _].
  destruct (Htab 500 0.5%Q 3%nat eq_refl) as (e' & Hreq & Hserved & Hsleeps).
  - intros k. eexists. reflexivity.
  - lia.
  - exists e'. split; [exact Hreq|]. split; [exact Hserved|exact Hsleeps].
Defined.

(** X20: with an exchange that answers 200, 201 or an error status,
    [execute] returns, whatever the intent and the engine, after at most 30
    requests (five attempts of at most six requests), each with the body
    built from the intent; the bound is met by a new valid intent when the
    exchange answers 429 to everything. *)
Theorem execute_posts_at_most_30 (exchange : nat -> HttpReply) (fuel : nat)
    (intent : TradeIntent) (env : string) (e : Engine) :
  plain exchange -> (6 <= fuel)%nat ->
  exists e' evs,
    execute exchange fuel intent env e = Some e'
    /\ trace e' = trace e ++ evs
    /\ served e' = (served e + length (posts evs))%nat
    /\ (length (posts evs) <= 30)%nat
    /\ Forall (eq (order_body intent)) (posts evs)
    /\ (answers exchange 429 -> valid intent ->
        (client_order_id intent ∉ _submitted_ids e) -> rest_configured e = true ->
        length (posts evs) = 30%nat).
Proof.
  intros Hplain Hfuel.
  destruct (valid_dec intent) as [Hv|Hv].
  2:{ destruct (execute_invalid exchange fuel intent env e Hv) as (text & Hex).
      exists (log WARNING text e), [Log WARNING text]. rewrite Hex. simpl.
      repeat split; auto; try lia. contradiction. }
  destruct (decide (client_order_id intent ∈ _submitted_ids e)) as [Hin|Hin].
  { exists (log DEBUG "Duplicate client_order_id — skipping" e),
      [Log DEBUG "Duplicate client_order_id — skipping"].
    rewrite (execute_duplicate _ _ _ _ _ Hv Hin). simpl.
    repeat split; auto; try lia. contradiction. }
  rewrite (execute_fresh _ _ _ _ _ Hv Hin). unfold _submit_with_retry.
  set (e0 := set_submitted_ids _ e).
  destruct (submit_attempts_bounded exchange fuel intent env Hplain Hfuel (seq 0 5) e0)
    as (e' & Hsub & Hb).
  destruct (submit_attempts_spec _ _ _ _ _ _ _ Hsub) as (evs & Ht & _ & Hserved & Hall & _).
  exists e', evs. split; [exact Hsub|]. split; [exact Ht|].
  split; [exact Hserved|].
  split; [subst e0; simpl in Hb, Hserved; lia|]. split; [exact Hall|].
  intros Hans _ _ Hconf.
  destruct (submit_attempts_refused exchange fuel intent env 429 0.1%Q 5%nat eq_refl
              Hans ltac:(lia) (seq 0 5) e0 Hconf) as (e'' & Hsub' & Hserved').
  rewrite Hsub in Hsub'. injection Hsub' as <-.
  subst e0. simpl in Hserved', Hserved. lia.
Qed.

Lemma execute_posts_at_most_30_witness :
  plain (always 429)
  /\ exists e' evs,
       execute (always 429) 6 (intent_at 41) "demo" demo_engine = Some e'
       /\ trace e' = evs /\ length (posts evs) = 30%nat.
Proof.
  assert (Hans : answers (always 429) 429) by (intros k; eexists; reflexivity).
  assert (Hplain : plain (always 429)) by (apply (answers_plain _ 429 Hans); lia).
  split; [exact Hplain|].
  destruct (execute_posts_at_most_30 (always 429) 6 (intent_at 41) "demo" demo_engine
              Hplain ltac:(lia)) as (e' & evs & Hex & Ht & _ & _ & _ & Hmax).
  exists e', evs. split; [exact Hex|]. split; [exact Ht|].
  apply Hmax; [exact Hans| |simpl; apply not_elem_of_empty|reflexivity].
  unfold valid. simpl. repeat split; try lia; auto; discriminate.
Defined.

(** X21: on an engine whose REST client has no keys, [execute] on a new
    valid intent sends nothing: each of the five attempts fails before any
    request, the engine pauses 0.1, 0.2, 0.4, 0.8 and 1.6 seconds and reports
    the order as failed.  The [client_order_id] is recorded all the same, so
    the same intent is dropped as a duplicate once the keys are loaded. *)
Theorem unconfigured_client_sends_nothing (exchange : nat -> HttpReply) (fuel fuel' : nat)
    (intent : TradeIntent) (env : string) (e : Engine) :
  rest_configured e = false -> valid intent ->
  (client_order_id intent ∉ _submitted_ids e) -> (1 <= fuel)%nat ->
  exists e',
    execute exchange fuel intent env e = Some e'
    /\ trace e' = trace e ++ concat (map failed_attempt (seq 0 5))
                    ++ exhausted intent env (_broadcaster e)
    /\ served e' = served e
    /\ _open_orders e' = _open_orders e
    /\ _submitted_ids e' = _submitted_ids e ∪ {[client_order_id intent]}
    /\ execute exchange fuel' intent env (set_rest_configured true e')
       = Some (log DEBUG "Duplicate client_order_id — skipping"
                 (set_rest_configured true e')).
Proof.
  intros Hconf Hv Hfresh Hfuel.
  rewrite (execute_fresh _ _ _ _ _ Hv Hfresh). unfold _submit_with_retry.
  destruct (submit_attempts_unconfigured exchange fuel intent env Hfuel (seq 0 5)
              (set_submitted_ids (_submitted_ids e ∪ {[client_order_id intent]}) e) Hconf)
    as (e' & Hsub & Ht & Hserved & Hids & Hoo).
  exists e'. split; [exact Hsub|]. split; [exact Ht|]. split; [exact Hserved|].
  split; [exact Hoo|]. split; [exact Hids|].
  apply execute_duplicate; [exact Hv|].
  change (_submitted_ids (set_rest_configured true e')) with (_submitted_ids e').
  rewrite Hids. cbn [_submitted_ids set_submitted_ids].
  apply elem_of_union_r, elem_of_singleton. reflexivity.
Qed.

Lemma unconfigured_client_sends_nothing_witness :
  exists e',
    execute (always 200) 1 (intent_at 41) "demo" (new_engine false true "demo" true)
      = Some e'
    /\ served e' = 0%nat
    /\ posts (trace e') = []
    /\ sleeps (trace e') = map (fun attempt => (0.1 * pow2 attempt)%Q) (seq 0 5).
Proof.
  destruct (unconfigured_client_sends_nothing (always 200) 1 1 (intent_at 41) "demo"
              (new_engine false true "demo" true) eq_refl)
    as (e' & Hex & Ht & Hserved & _).
  - unfold valid. simpl. repeat split; try lia; auto; discriminate.
  - simpl. apply not_elem_of_empty.
  - lia.
  - exists e'. split; [exact Hex|]. split; [exact Hserved|]. rewrite Ht. split; reflexivity.
Defined.

Ltac split_matches :=
  repeat (match goal with
          | |- context [match ?x with _ => _ end] => destruct x eqn:?
          end; simpl).

Lemma status_updates_app tr1 tr2 :
  status_updates (tr1 ++ tr2) = status_updates tr1 ++ status_updates tr2.
Proof. apply omap_app. Qed.

Lemma rows_agree_nil db : rows_agree db [].
Proof. split; [destruct db; reflexivity|constructor]. Qed.

Lemma rows_agree_app db evs1 evs2 :
  rows_agree db evs1 -> rows_agree db evs2 -> rows_agree db (evs1 ++ evs2).
Proof.
  intros [H1 F1] [H2 F2]. unfold rows_agree.
  rewrite inserted_orders_app, accepted_ids_app, map_app, H1, H2.
  split; [destruct db; reflexivity|apply Forall_app; auto].
Qed.

Lemma quiet_log l text e : quiet e (log l text e).
Proof.
  unfold quiet, log. simpl. rewrite inserted_orders_app, accepted_ids_app. simpl.
  rewrite !app_nil_r. auto.
Qed.

Lemma handle_fill_open_orders (msg : UserMsg) (env : string) (e : Engine) :
  let order_id := default "" (um_order_id msg) in
  _open_orders (handle_fill msg env e)
  = match _open_orders e !! order_id with
    | Some order =>
        let remaining := default 0 (od_remaining_count order) - default 0 (um_count msg) in
        if remaining <=? 0 then delete order_id (_open_orders e)
        else <[order_id := with_remaining order remaining]> (_open_orders e)
    | None => _open_orders e
    end.
Proof. unfold handle_fill. simpl. split_matches; reflexivity. Qed.

Lemma handle_fill_status_updates (msg : UserMsg) (env : string) (e : Engine) :
  let order_id := default "" (um_order_id msg) in
  status_updates (trace (handle_fill msg env e))
  = status_updates (trace e)
    ++ match _open_orders e !! order_id with
       | Some order =>
           if default 0 (od_remaining_count order) - default 0 (um_count msg) <=? 0
           then (if _db e then [(order_id, "filled")] else [])
           else []
       | None => []
       end.
Proof.
  unfold handle_fill. simpl.
  split_matches; rewrite ?status_updates_app; simpl; rewrite ?app_nil_r;
    try reflexivity; try congruence.
Qed.

Lemma handle_fill_quiet (msg : UserMsg) (env : string) (e : Engine) :
  quiet e (handle_fill msg env e).
Proof.
  unfold quiet, handle_fill. simpl.
  split_matches; rewrite ?inserted_orders_app, ?accepted_ids_app; simpl;
    rewrite ?app_nil_r; auto.
Qed.

Lemma handle_order_update_quiet (msg : UserMsg) (env : string) (e : Engine) :
  quiet e (handle_order_update msg env e).
Proof.
  unfold quiet, handle_order_update. simpl.
  split_matches; rewrite ?inserted_orders_app, ?accepted_ids_app; simpl;
    rewrite ?app_nil_r; auto.
Qed.

Lemma load_state_from_db_quiet (rows : list OrderDict) (positions : list PositionRow)
    (e : Engine) :
  quiet e (load_state_from_db rows positions e).
Proof.
  unfold load_state_from_db. destruct (_db e) eqn:Hdb; simpl; [|repeat split; auto].
  match goal with
  | |- quiet e (log _ _ (fold_left ?g positions (fold_left ?f rows e))) =>
      assert (Hrows : forall l e0, trace (fold_left f l e0) = trace e0
                                   /\ _db (fold_left f l e0) = _db e0)
        by (induction l as [|x l IH]; intros e0; simpl; [auto|];
            destruct (IH (f e0 x)) as [-> ->]; auto);
      assert (Hpos : forall l e0, trace (fold_left g l e0) = trace e0
                                  /\ _db (fold_left g l e0) = _db e0)
        by (induction l as [|x l IH]; intros e0; simpl; [auto|];
            destruct (IH (g e0 x)) as [-> ->]; auto);
      destruct (Hrows rows e) as [Ht1 Hd1];
      destruct (Hpos positions (fold_left f rows e)) as [Ht2 Hd2]
  end.
  unfold quiet, log. simpl. rewrite inserted_orders_app, accepted_ids_app. simpl.
  rewrite !app_nil_r, Ht2, Ht1, Hd2, Hd1. auto.
Qed.

Lemma on_order_success_rows (resp : RespBody) (intent : TradeIntent) (env : string)
    (e : Engine) :
  let order := default (rb_self resp) (rb_order resp) in
  let e' := _on_order_success resp intent env e in
  exists evs,
    trace e' = trace e ++ evs
    /\ _db e' = _db e
    /\ accepted_ids evs = []
    /\ inserted_orders evs = (if _db e then [order_record order intent] else []).
Proof.
  unfold _on_order_success. simpl.
  destruct (_db e) eqn:Hdb; simpl; destruct (_broadcaster e); simpl;
    rewrite <- ?app_assoc; simpl; eexists; (split; [reflexivity|]); simpl; auto.
Qed.

Section Rows.
Variable exchange : nat -> HttpReply.
Variable fuel : nat.

Lemma submit_attempts_rows (intent : TradeIntent) (env : string) :
  valid intent ->
  forall attempts e e',
    submit_attempts exchange fuel attempts (order_body intent) intent env e = Some e' ->
    exists evs,
      trace e' = trace e ++ evs /\ _db e' = _db e /\ rows_agree (_db e) evs.
Proof.
  intros Hv. induction attempts as [|attempt rest IH]; intros e e'; simpl.
  - intros [= <-]. unfold _on_order_failed. simpl.
    destruct (_broadcaster e); simpl; rewrite <- ?app_assoc; simpl;
      eexists; (split; [reflexivity|]); (split; [reflexivity|]);
      (split; [destruct (_db e); reflexivity|constructor]).
  - unfold create_order.
    destruct (_request exchange fuel (order_body intent) 0 e) as [[e1 r]|] eqn:Hreq;
      [|discriminate].
    destruct (request_spec _ _ _ _ _ _ _ Hreq)
      as (evs1 & (Ht1 & _ & Hdb1 & _) & _ & _ & Hins1 & Hacc1 & Hr & _).
    destruct r as [resp|ex].
    + intros [= <-].
      destruct (on_order_success_rows resp intent env e1)
        as (evs & Ht & Hdb & Hacc & Hins).
      exists (evs1 ++ evs). rewrite Ht, Ht1, app_assoc, Hdb, Hdb1.
      split; [reflexivity|]. split; [reflexivity|].
      unfold rows_agree.
      rewrite inserted_orders_app, accepted_ids_app, Hins1, Hacc1, Hacc, Hins, Hdb1.
      simpl. destruct (_db e); simpl; (split; [reflexivity|]); repeat constructor;
        destruct Hv as (Hp & Hc & _); simpl; lia.
    + assert (Hstep : forall e2 pre,
                trace e2 = trace e1 ++ pre -> _db e2 = _db e1 ->
                rows_agree (_db e) pre ->
                submit_attempts exchange fuel rest (order_body intent) intent env e2
                  = Some e' ->
                exists evs,
                  trace e' = trace e ++ evs /\ _db e' = _db e /\ rows_agree (_db e) evs).
      { intros e2 pre Ht2 Hdb2 Hpre Hrec.
        destruct (IH _ _ Hrec) as (evs & Ht & Hdb & Hrows).
        exists (evs1 ++ pre ++ evs). rewrite Ht, Ht2, Ht1, <- !app_assoc.
        split; [reflexivity|]. split; [congruence|].
        apply rows_agree_app; [|apply rows_agree_app].
        - split; [rewrite Hins1, Hacc1; destruct (_db e); reflexivity
                 |rewrite Hins1; constructor].
        - exact Hpre.
        - rewrite Hdb2, Hdb1 in Hrows. exact Hrows. }
      destruct ex; try congruence;
        (apply (Hstep _ (failed_attempt attempt));
         [simpl; rewrite <- app_assoc; reflexivity|reflexivity
         |split; [destruct (_db e); reflexivity|constructor]]).
Qed.

Lemma rows_agree_quiet (db : bool) (e e' : Engine) :
  quiet e e' -> rows_agree db (trace e) -> rows_agree db (trace e').
Proof. intros (_ & Hins & Hacc). unfold rows_agree. rewrite Hins, Hacc. auto. Qed.

Lemma run_call_rows (c : Call) (e e' : Engine) :
  run_call exchange fuel c e = Some e' ->
  rows_agree (_db e) (trace e) ->
  _db e' = _db e /\ rows_agree (_db e) (trace e').
Proof.
  destruct c as [intent env|msg env|msg env|rows positions|configured]; simpl.
  - intros Hex Hrows. destruct (valid_dec intent) as [Hv|Hv].
    + destruct (decide (client_order_id intent ∈ _submitted_ids e)) as [Hin|Hin].
      * rewrite (execute_duplicate _ _ _ _ _ Hv Hin) in Hex. injection Hex as <-.
        split; [reflexivity|]. eapply rows_agree_quiet; [apply quiet_log|exact Hrows].
      * rewrite (execute_fresh _ _ _ _ _ Hv Hin) in Hex.
        apply (submit_attempts_rows _ _ Hv) in Hex as (evs & Ht & Hdb & Hevs).
        simpl in Ht, Hdb, Hevs. split; [exact Hdb|]. rewrite Ht.
        apply rows_agree_app; assumption.
    + destruct (execute_invalid exchange fuel intent env e Hv) as (text & Hex').
      rewrite Hex' in Hex. injection Hex as <-.
      split; [reflexivity|]. eapply rows_agree_quiet; [apply quiet_log|exact Hrows].
  - intros [= <-] Hrows. pose proof (handle_fill_quiet msg env e) as Hq.
    split; [apply Hq|]. eapply rows_agree_quiet; eassumption.
  - intros [= <-] Hrows. pose proof (handle_order_update_quiet msg env e) as Hq.
    split; [apply Hq|]. eapply rows_agree_quiet; eassumption.
  - intros [= <-] Hrows. pose proof (load_state_from_db_quiet rows positions e) as Hq.
    split; [apply Hq|]. eapply rows_agree_quiet; eassumption.
  - intros [= <-] Hrows. split; [reflexivity|exact Hrows].
Qed.

Lemma run_calls_rows (cs : list Call) : forall e e',
  run_calls exchange fuel cs e = Some e' ->
  rows_agree (_db e) (trace e) -> rows_agree (_db e) (trace e').
Proof.
  induction cs as [|c cs IH]; intros e e'; simpl.
  - intros [= <-]. auto.
  - destruct (run_call exchange fuel c e) as [e1|] eqn:Hc; [|discriminate].
    intros Hrest Hrows. destruct (run_call_rows _ _ _ Hc Hrows) as [Hdb Hrows1].
    rewrite <- Hdb. eapply IH; [exact Hrest|]. rewrite Hdb. exact Hrows1.
Qed.

End Rows.

(** X22: over any calls on a new engine, the order rows handed to the
    database are the accepted requests: with a database one row for each
    request the exchange accepted, in the same order and under the same
    [client_order_id], without a database none; and every row has a price
    from 1 to 99, a positive count and [remaining_count] equal to [count]. *)
Theorem accepted_orders_reach_the_database (exchange : nat -> HttpReply) (fuel : nat)
    (cs : list Call) (configured db : bool) (env : string) (broadcaster : bool)
    (e : Engine) :
  run_calls exchange fuel cs (new_engine configured db env broadcaster) = Some e ->
  map or_client_order_id (inserted_orders (trace e))
  = (if db then accepted_ids (trace e) else [])
  /\ Forall row_ok (inserted_orders (trace e)).
Proof.
  intros Hrun. apply (run_calls_rows _ _ _ _ _ Hrun). apply rows_agree_nil.
Qed.

Lemma accepted_orders_reach_the_database_witness :
  exists e,
    run_calls (always 201) 6
      [Execute (intent_at 41) "demo"; HandleFill (fill_of "O1" 1 "F1") "demo";
       Execute (intent_at 41) "demo"]
      demo_engine = Some e
    /\ map or_client_order_id (inserted_orders (trace e)) = ["order-1"]
    /\ accepted_ids (trace e) = ["order-1"].
Proof.
  eexists. split; [vm_compute; reflexivity|].
  match goal with
  | |- map _ (inserted_orders (trace ?e)) = _ /\ _ =>
      destruct (accepted_orders_reach_the_database (always 201) 6
                  [Execute (intent_at 41) "demo"; HandleFill (fill_of "O1" 1 "F1") "demo";
                   Execute (intent_at 41) "demo"] true true "demo" true e)
        as [Hrows _]; [vm_compute; reflexivity|]
  end.
  split; [rewrite Hrows|]; vm_compute; reflexivity.
Defined.

Lemma db_handle_fill (msg : UserMsg) (env : string) (e : Engine) :
  _db (handle_fill msg env e) = _db e.
Proof. apply handle_fill_quiet. Qed.

(** X23: when the exchange accepts the first request of a new valid
    intent, [execute] makes that one request, keeps the order of the response
    in [_open_orders] under its [order_id] (under the empty string when the
    response has none), hands one row to the database and broadcasts
    [order_submitted].  The order kept is the response's, not the row: when
    it has no [remaining_count], the first fill for it, of whatever count,
    takes it out of [_open_orders] and marks it filled. *)
Theorem accepted_order_is_tracked (exchange : nat -> HttpReply) (fuel : nat)
    (intent : TradeIntent) (env : string) (e : Engine) (status : Z) (body : RespBody) :
  valid intent -> (client_order_id intent ∉ _submitted_ids e) ->
  rest_configured e = true -> (1 <= fuel)%nat ->
  exchange (served e) = Response status body -> status = 200 \/ status = 201 ->
  let order := default (rb_self body) (rb_order body) in
  let order_id := default "" (od_order_id order) in
  exists e',
    execute exchange fuel intent env e = Some e'
    /\ served e' = S (served e)
    /\ _open_orders e' = <[order_id := order]> (_open_orders e)
    /\ trace e'
       = trace e
         ++ [HttpPost (order_body intent) (Response status body);
             Log INFO "Order submitted successfully"]
         ++ (if _db e then [DbInsertOrder (order_record order intent) env] else [])
         ++ (if _broadcaster e
             then [Broadcast (OrderSubmitted order_id (market_ticker intent)
                                (action intent) (side intent) (price intent)
                                (count intent) env)]
             else [])
    /\ (od_remaining_count order = None ->
        forall msg env',
          default "" (um_order_id msg) = order_id -> 0 <= default 0 (um_count msg) ->
          _open_orders (handle_fill msg env' e') !! order_id = None
          /\ status_updates (trace (handle_fill msg env' e'))
             = status_updates (trace e')
               ++ (if _db e then [(order_id, "filled")] else [])).
Proof.
  intros Hv Hfresh Hconf Hfuel Hreply Hstatus order order_id.
  assert (H2xx : (status =? 200) || (status =? 201) = true)
    by (destruct Hstatus; subst; reflexivity).
  rewrite (execute_fresh _ _ _ _ _ Hv Hfresh). unfold _submit_with_retry.
  change (seq 0 5) with (0%nat :: seq 1 4). cbn [submit_attempts].
  unfold create_order. destruct fuel as [|fuel']; [lia|]. cbn [_request].
  cbn [rest_configured set_submitted_ids served]. rewrite Hconf, Hreply. simpl negb.
  cbv iota. rewrite H2xx.
  eexists. split; [reflexivity|].
  assert (Hdb : forall e0, _db (_on_order_success body intent env e0) = _db e0).
  { intros e0. destruct (on_order_success_rows body intent env e0) as (_ & _ & H & _).
    exact H. }
  split; [rewrite served_on_order_success; reflexivity|].
  split; [unfold _on_order_success; simpl;
          destruct (_db e); simpl; destruct (_broadcaster e); reflexivity|].
  split; [unfold _on_order_success; simpl;
          destruct (_db e); simpl; destruct (_broadcaster e); simpl;
          rewrite <- ?app_assoc; reflexivity|].
  intros Hnone msg env' Hmsg Hcount.
  assert (Hoo : _open_orders (_on_order_success body intent env
                   (emit (HttpPost (order_body intent) (Response status body))
                      (answered (set_submitted_ids
                         (_submitted_ids e ∪ {[client_order_id intent]}) e))))
                = <[order_id := order]> (_open_orders e)).
  { unfold _on_order_success; simpl.
    destruct (_db e); simpl; destruct (_broadcaster e); reflexivity. }
  rewrite handle_fill_status_updates, handle_fill_open_orders. cbv zeta.
  rewrite Hmsg, Hoo, lookup_insert_eq, Hnone, Hdb. simpl default.
  replace (0 - default 0 (um_count msg) <=? 0) with true
    by (symmetry; apply Z.leb_le; lia).
  split; [apply lookup_delete_eq|reflexivity].
Qed.

Lemma accepted_order_is_tracked_witness :
  exists e',
    execute (always 201) 1 (intent_at 41) "demo" demo_engine = Some e'
    /\ _open_orders e' !! "O1" = rb_order resting_O1
    /\ _open_orders (handle_fill (fill_of "O1" 0 "F1") "demo" e') !! "O1" = None.
Proof.
  destruct (accepted_order_is_tracked (always 201) 1 (intent_at 41) "demo" demo_engine
              201 resting_O1) as (e' & Hex & _ & Hoo & _ & Hfill).
  - unfold valid. simpl. repeat split; try lia; auto; discriminate.
  - simpl. apply not_elem_of_empty.
  - reflexivity.
  - lia.
  - reflexivity.
  - right. reflexivity.
  - exists e'. split; [exact Hex|]. split.
    + rewrite Hoo. simpl. apply lookup_insert_eq.
    + apply (Hfill eq_refl (fill_of "O1" 0 "F1") "demo"); [reflexivity|simpl; lia].
Defined.

Lemma filled_nonneg (msgs : list UserMsg) :
  Forall (fun msg => 0 <= default 0 (um_count msg)) msgs -> 0 <= filled msgs.
Proof.
  induction 1 as [|msg msgs Hm _ IH]; [simpl; lia|].
  change (filled (msg :: msgs)) with (default 0 (um_count msg) + filled msgs). lia.
Qed.

Lemma handle_fills_closed (order_id env : string) (msgs : list UserMsg) : forall e,
  Forall (fun msg => default "" (um_order_id msg) = order_id) msgs ->
  _open_orders e !! order_id = None ->
  _open_orders (handle_fills msgs env e) = _open_orders e
  /\ status_updates (trace (handle_fills msgs env e)) = status_updates (trace e).
Proof.
  induction msgs as [|msg msgs IH]; intros e Hall Hnone; simpl; [auto|].
  apply Forall_cons in Hall as [Hmsg Hrest].
  pose proof (handle_fill_open_orders msg env e) as Hoo.
  pose proof (handle_fill_status_updates msg env e) as Hsu.
  cbv zeta in Hoo, Hsu. rewrite Hmsg, Hnone in Hoo, Hsu. rewrite app_nil_r in Hsu.
  destruct (IH (handle_fill msg env e) Hrest) as [Hoo' Hsu'];
    [rewrite Hoo; exact Hnone|].
  unfold handle_fills in *. rewrite Hoo', Hsu', Hoo, Hsu. auto.
Qed.

(** X24: fills on a tracked order with [remaining] contracts open, no
    count negative: while the counts add up to less than [remaining] the
    order stays in [_open_orders] with what is left and the database is told
    nothing; once they reach it the order is gone and the database was told
    [filled] once (later fills for it change neither). *)
Theorem fills_close_an_order_at_its_count (order_id env : string) (msgs : list UserMsg) :
  forall (e : Engine) (order : OrderDict) (remaining : Z),
    _open_orders e !! order_id = Some order ->
    od_remaining_count order = Some remaining -> 0 < remaining ->
    Forall (fun msg => default "" (um_order_id msg) = order_id
                       /\ 0 <= default 0 (um_count msg)) msgs ->
    let e' := handle_fills msgs env e in
    (filled msgs < remaining ->
       _open_orders e'
       = <[order_id := with_remaining order (remaining - filled msgs)]> (_open_orders e)
       /\ status_updates (trace e') = status_updates (trace e))
    /\ (remaining <= filled msgs ->
          _open_orders e' = delete order_id (_open_orders e)
          /\ status_updates (trace e')
             = status_updates (trace e) ++ (if _db e then [(order_id, "filled")] else [])).
Proof.
  induction msgs as [|msg msgs IH]; intros e order remaining Hopen Hrem Hpos Hall.
  - simpl. split; [|lia]. intros _. split; [|reflexivity].
    rewrite Z.sub_0_r. symmetry. apply insert_id. rewrite Hopen. f_equal.
    destruct order; simpl in *. subst. reflexivity.
  - apply Forall_cons in Hall as [[Hmsg Hcount] Hrest].
    assert (Hrest_id : Forall (fun msg => default "" (um_order_id msg) = order_id) msgs)
      by (eapply Forall_impl; [exact Hrest|]; simpl; tauto).
    assert (Hrest_nn : Forall (fun msg => 0 <= default 0 (um_count msg)) msgs)
      by (eapply Forall_impl; [exact Hrest|]; simpl; tauto).
    pose proof (filled_nonneg msgs Hrest_nn) as Hnn.
    pose proof (handle_fill_open_orders msg env e) as Hoo.
    pose proof (handle_fill_status_updates msg env e) as Hsu.
    pose proof (db_handle_fill msg env e) as Hdb.
    cbv zeta in Hoo, Hsu. rewrite Hmsg, Hopen, Hrem in Hoo, Hsu.
    change (default 0 (Some remaining)) with remaining in Hoo, Hsu.
    change (handle_fills (msg :: msgs) env e)
      with (handle_fills msgs env (handle_fill msg env e)).
    change (filled (msg :: msgs)) with (default 0 (um_count msg) + filled msgs).
    destruct (remaining - default 0 (um_count msg) <=? 0) eqn:Hle.
    + apply Z.leb_le in Hle.
      destruct (handle_fills_closed _ env msgs (handle_fill msg env e) Hrest_id)
        as [Hoo' Hsu']; [rewrite Hoo; apply lookup_delete_eq|].
      cbv zeta. split; [lia|]. intros _. rewrite Hoo', Hsu', Hoo, Hsu. auto.
    + apply Z.leb_gt in Hle.
      destruct (IH (handle_fill msg env e)
                  (with_remaining order (remaining - default 0 (um_count msg)))
                  (remaining - default 0 (um_count msg)))
        as [Hlt Hge]; [rewrite Hoo; apply lookup_insert_eq|reflexivity|lia|exact Hrest|].
      cbv zeta in Hlt, Hge |- *. rewrite Hoo, Hsu, Hdb, app_nil_r in *.
      rewrite insert_insert_eq in Hlt. rewrite delete_insert_eq in Hge.
      replace (remaining - (default 0 (um_count msg) + filled msgs))
        with (remaining - default 0 (um_count msg) - filled msgs) by lia.
      split; intros H; [apply Hlt; lia|apply Hge; lia].
Qed.

Lemma fills_close_an_order_at_its_count_witness :
  _open_orders (handle_fills [fill_of "O1" 1 "F1"] "demo" engine_with_O1) !! "O1"
  = Some (mkOrderDict (Some "O1") (Some "order-1") (Some "resting") (Some 2))
  /\ _open_orders (handle_fills [fill_of "O1" 1 "F1"; fill_of "O1" 2 "F2"] "demo"
                     engine_with_O1) !! "O1" = None.
Proof.
  assert (Hopen : _open_orders engine_with_O1 !! "O1"
                  = Some (mkOrderDict (Some "O1") (Some "order-1") (Some "resting")
                            (Some 3))) by reflexivity.
  split.
  - destruct (fills_close_an_order_at_its_count "O1" "demo" [fill_of "O1" 1 "F1"]
                engine_with_O1 _ 3 Hopen eq_refl ltac:(lia)) as [Hlt _].
    + repeat constructor. simpl. lia.
    + destruct Hlt as [-> _]; [simpl; lia|]. apply lookup_insert_eq.
  - destruct (fills_close_an_order_at_its_count "O1" "demo"
                [fill_of "O1" 1 "F1"; fill_of "O1" 2 "F2"]
                engine_with_O1 _ 3 Hopen eq_refl ltac:(lia)) as [_ Hge].
    + repeat constructor; simpl; lia.
    + destruct Hge as [-> _]; [simpl; lia|]. apply lookup_delete_eq.
Defined.

Lemma load_rows_ids (rows : list OrderDict) : forall e,
  let e' :=
    fold_left
      (fun e row =>
         let oid := default "" (od_order_id row) in
         let cid := default "" (od_client_order_id row) in
         let e := set_open_orders (<[oid := row]> (_open_orders e)) e in
         set_submitted_ids (_submitted_ids e ∪ {[cid]}) e)
      rows e in
  _submitted_ids e'
  = _submitted_ids e ∪ list_to_set (map (fun row => default "" (od_client_order_id row)) rows)
  /\ dom (_open_orders e')
     = dom (_open_orders e) ∪ list_to_set (map (fun row => default "" (od_order_id row)) rows)
  /\ served e' = served e /\ trace e' = trace e.
Proof.
  induction rows as [|row rows IH]; intros e; simpl.
  - repeat split; auto; set_solver.
  - match goal with
    | |- context [fold_left ?f rows ?e0] => destruct (IH e0) as (Hids & Hdom & Hs & Ht)
    end.
    simpl in Hids, Hdom, Hs, Ht. rewrite Hids, Hdom, Hs, Ht.
    rewrite dom_insert_L. repeat split; auto; set_solver.
Qed.

Lemma load_positions_frame (positions : list PositionRow) : forall e,
  let e' :=
    fold_left
      (fun e pos =>
         let ticker := default "" (pr_market_ticker pos) in
         set_positions (<[ticker := pos]> (_positions e)) e)
      positions e in
  _submitted_ids e' = _submitted_ids e /\ _open_orders e' = _open_orders e
  /\ served e' = served e /\ trace e' = trace e.
Proof.
  induction positions as [|pos positions IH]; intros e; simpl; [repeat split; auto|].
  match goal with
  | |- context [fold_left ?f positions ?e0] =>
      destruct (IH e0) as (Hids & Hoo & Hs & Ht)
  end.
  simpl in *. repeat split; assumption.
Qed.

(** X25: [load_state_from_db] does nothing without a database.  With one,
    the [client_order_id] of every row is recorded as submitted and every row
    is tracked under its [order_id], without any request; [execute] on an
    intent that carries the [client_order_id] of a loaded row then only
    writes a log line. *)
Theorem warm_start_restores_the_guard (exchange : nat -> HttpReply) (fuel : nat)
    (rows : list OrderDict) (positions : list PositionRow) (e : Engine) :
  let e1 := load_state_from_db rows positions e in
  (_db e = false -> e1 = e)
  /\ (_db e = true ->
      _submitted_ids e1
      = _submitted_ids e
        ∪ list_to_set (map (fun row => default "" (od_client_order_id row)) rows)
      /\ dom (_open_orders e1)
         = dom (_open_orders e)
           ∪ list_to_set (map (fun row => default "" (od_order_id row)) rows)
      /\ served e1 = served e
      /\ posts (trace e1) = posts (trace e)
      /\ forall intent env row,
           row ∈ rows -> od_client_order_id row = Some (client_order_id intent) ->
           exists l text, execute exchange fuel intent env e1 = Some (log l text e1)).
Proof.
  cbv zeta. unfold load_state_from_db. split.
  - intros ->. reflexivity.
  - intros ->. simpl negb. cbv iota.
    match goal with
    | |- context [fold_left ?g positions (fold_left ?f rows e)] =>
        pose proof (load_rows_ids rows e) as Hrows;
        pose proof (load_positions_frame positions (fold_left f rows e)) as Hpos;
        set (e2 := fold_left g positions (fold_left f rows e)) in *
    end.
    cbv zeta in Hrows, Hpos.
    destruct Hrows as (Hids & Hdom & Hs & Ht).
    destruct Hpos as (Hids' & Hoo' & Hs' & Ht').
    assert (Hall : _submitted_ids (log INFO "Execution engine loaded state from DB" e2)
                   = _submitted_ids e
                     ∪ list_to_set
                         (map (fun row => default "" (od_client_order_id row)) rows)).
    { simpl. rewrite Hids'. exact Hids. }
    split; [exact Hall|].
    split; [simpl; rewrite Hoo'; exact Hdom|].
    split; [simpl; rewrite Hs'; exact Hs|].
    split; [simpl; rewrite posts_app, Ht', Ht; simpl; apply app_nil_r|].
    intros intent env row Hrow Hcid. apply execute_recorded.
    rewrite Hall. apply elem_of_union_r, elem_of_list_to_set, list_elem_of_fmap.
    exists row. rewrite Hcid. auto.
Qed.

Lemma warm_start_restores_the_guard_witness :
  exists l text,
    execute (always 200) 6 (intent_at 41) "demo"
      (load_state_from_db
         [mkOrderDict (Some "O1") (Some "order-1") (Some "resting") (Some 3)] []
         demo_engine)
    = Some (log l text
              (load_state_from_db
                 [mkOrderDict (Some "O1") (Some "order-1") (Some "resting") (Some 3)] []
                 demo_engine)).
Proof.
  destruct (warm_start_restores_the_guard (always 200) 6
              [mkOrderDict (Some "O1") (Some "order-1") (Some "resting") (Some 3)] []
              demo_engine) as [_ H].
  destruct (H eq_refl) as (_ & _ & _ & _ & Hex).
  apply (Hex (intent_at 41) "demo"
           (mkOrderDict (Some "O1") (Some "order-1") (Some "resting") (Some 3)));
    [apply list_elem_of_here|reflexivity].
Defined.

End ExecutionExtra.

(** * More on the permission layer *)
Module PermissionExtra.
Import Trading Permission PermissionFacts.

Local Open Scope string_scope.
Local Open Scope list_scope.
Local Open Scope Z_scope.

Section Settings.
Context {W : Type}.

Lemma settings_keep_trading_off (ss : list (Setting W)) : forall p : Layer W,
  Forall (fun s => s <> SetGlobalTrading true) ss ->
  _global_trading_enabled p = false ->
  _global_trading_enabled (apply_settings ss p) = false.
Proof.
  induction ss as [|s ss IH]; intros p Hall Hoff; simpl; [exact Hoff|].
  apply Forall_cons in Hall as [Hs Hrest]. apply IH; [exact Hrest|].
  destruct s as [cb|[]|env|env loaded|agent mode]; simpl; auto. congruence.
Qed.

Lemma settings_keep_agent_out (agent : string) (ss : list (Setting W)) :
  forall p : Layer W,
    Forall (fun s => s <> SetAgentMode agent "Auto") ss ->
    _agent_modes p !! agent <> Some "Auto" ->
    _agent_modes (apply_settings ss p) !! agent <> Some "Auto".
Proof.
  induction ss as [|s ss IH]; intros p Hall Hout; simpl; [exact Hout|].
  apply Forall_cons in Hall as [Hs Hrest]. apply IH; [exact Hrest|].
  destruct s as [cb|enabled|env|env loaded|agent' mode]; simpl; auto.
  destruct (decide (agent' = agent)) as [->|Hne].
  - rewrite lookup_insert_eq. intros [= ->]. apply Hs. reflexivity.
  - rewrite lookup_insert_ne by exact Hne. exact Hout.
Qed.

Lemma settings_trading_on (ss : list (Setting W)) : forall p : Layer W,
  _global_trading_enabled (apply_settings ss p) = true ->
  _global_trading_enabled p = true \/ SetGlobalTrading true ∈ ss.
Proof.
  induction ss as [|s ss IH]; intros p Hon; simpl in Hon; [left; exact Hon|].
  destruct (IH _ Hon) as [H|H]; [|right; apply list_elem_of_further, H].
  destruct s as [cb|enabled|env|env loaded|agent mode]; simpl in H; auto.
  subst. right. apply list_elem_of_here.
Qed.

Lemma settings_keys_loaded (environment : string) (ss : list (Setting W)) :
  forall p : Layer W,
    _keys_loaded (apply_settings ss p) !! environment = Some true ->
    _keys_loaded p !! environment = Some true \/ SetKeysLoaded environment true ∈ ss.
Proof.
  induction ss as [|s ss IH]; intros p Hon; simpl in Hon; [left; exact Hon|].
  destruct (IH _ Hon) as [H|H]; [|right; apply list_elem_of_further, H].
  destruct s as [cb|enabled|env|env loaded|agent mode]; simpl in H; auto.
  destruct (decide (env = environment)) as [->|Hne].
  - rewrite lookup_insert_eq in H. injection H as ->. right. apply list_elem_of_here.
  - rewrite lookup_insert_ne in H by exact Hne. auto.
Qed.

Lemma settings_agent_mode (agent mode : string) (ss : list (Setting W)) :
  forall p : Layer W,
    _agent_modes (apply_settings ss p) !! agent = Some mode ->
    _agent_modes p !! agent = Some mode \/ SetAgentMode agent mode ∈ ss.
Proof.
  induction ss as [|s ss IH]; intros p Hon; simpl in Hon; [left; exact Hon|].
  destruct (IH _ Hon) as [H|H]; [|right; apply list_elem_of_further, H].
  destruct s as [cb|enabled|env|env loaded|agent' mode']; simpl in H; auto.
  destruct (decide (agent' = agent)) as [->|Hne].
  - rewrite lookup_insert_eq in H. injection H as ->. right. apply list_elem_of_here.
  - rewrite lookup_insert_ne in H by exact Hne. auto.
Qed.

Lemma settings_callback (callback : Callback W) (ss : list (Setting W)) :
  forall p : Layer W,
    _on_approved (apply_settings ss p) = Some callback ->
    _on_approved p = Some callback \/ SetOnApproved callback ∈ ss.
Proof.
  induction ss as [|s ss IH]; intros p Hon; simpl in Hon; [left; exact Hon|].
  destruct (IH _ Hon) as [H|H]; [|right; apply list_elem_of_further, H].
  destruct s as [cb|enabled|env|env loaded|agent mode]; simpl in H; auto.
  injection H as ->. right. apply list_elem_of_here.
Qed.

End Settings.

(** X26: a closed gate stays closed until its own setter opens it.  After
    [set_global_trading(False)] no intent is forwarded, whatever other
    setters are called, until [set_global_trading(True)]; after an agent was
    given a mode other than Auto none of its intents is forwarded until
    [set_agent_mode(agent, "Auto")]. *)
Theorem closed_gates_stay_closed {W : Type} (ss : list (Setting W)) (p : Layer W)
    (intent : TradeIntent) (w : W) :
  (Forall (fun s => s <> SetGlobalTrading true) ss ->
   submit (apply_settings ss (set_global_trading false p)) intent w = (w, Ok tt))
  /\ (forall mode,
        mode <> "Auto" ->
        Forall (fun s => s <> SetAgentMode (agent_id intent) "Auto") ss ->
        submit (apply_settings ss (set_agent_mode (agent_id intent) mode p)) intent w
        = (w, Ok tt)).
Proof.
  split.
  - intros Hall. unfold submit.
    rewrite (settings_keep_trading_off ss _ Hall); reflexivity.
  - intros mode Hmode Hall. unfold submit.
    assert (Hout : _agent_modes
                     (apply_settings ss (set_agent_mode (agent_id intent) mode p))
                   !! agent_id intent <> Some "Auto").
    { apply settings_keep_agent_out; [exact Hall|].
      simpl. rewrite lookup_insert_eq. congruence. }
    destruct (negb _); [reflexivity|]. destruct (negb _); [reflexivity|].
    destruct (decide _) as [|Hauto]; [reflexivity|]. exfalso.
    apply dec_stable in Hauto. apply Hout.
    destruct (_agent_modes _ !! agent_id intent) as [m|]; simpl in Hauto; congruence.
Qed.

Lemma closed_gates_stay_closed_witness :
  submit (apply_settings [SetKeysLoaded "live" true; SetEnvironment "live";
                          SetAgentMode "agent-1" "Auto"]
            (set_global_trading false open_layer)) sample_intent []
  = ([], Ok tt).
Proof.
  destruct (closed_gates_stay_closed
              [SetKeysLoaded "live" true; SetEnvironment "live";
               SetAgentMode "agent-1" "Auto"] open_layer sample_intent [])
    as [Hswitch _].
  apply Hswitch. repeat constructor; discriminate.
Defined.

(** X27: a new layer denies by default.  If [submit] on a layer reached
    from [TradingPermissionLayer()] by setter calls does anything at all,
    then [set_global_trading(True)], [set_keys_loaded(env, True)] for the
    environment that is active at the end, [set_agent_mode(agent, "Auto")]
    for the agent of the intent and [set_on_approved] were all called, and
    what [submit] does is the registered callback on the intent and that
    environment. *)
Theorem new_layer_denies_by_default {W : Type} (ss : list (Setting W))
    (intent : TradeIntent) (w : W) :
  submit (apply_settings ss new_layer) intent w <> (w, Ok tt) ->
  SetGlobalTrading true ∈ ss
  /\ SetKeysLoaded (_active_environment (apply_settings ss new_layer)) true ∈ ss
  /\ SetAgentMode (agent_id intent) "Auto" ∈ ss
  /\ exists callback,
       SetOnApproved callback ∈ ss
       /\ submit (apply_settings ss new_layer) intent w
          = callback intent (_active_environment (apply_settings ss new_layer)) w.
Proof.
  unfold submit. set (p := apply_settings ss new_layer).
  destruct (_global_trading_enabled p) eqn:Hon; simpl; [|congruence].
  destruct (_keys_loaded p !! _active_environment p) as [[]|] eqn:Hkeys; simpl;
    try congruence.
  destruct (decide _) as [|Hauto]; [congruence|]. apply dec_stable in Hauto.
  destruct (_agent_modes p !! agent_id intent) as [mode|] eqn:Hmode;
    simpl in Hauto; [subst mode|discriminate].
  destruct (_on_approved p) as [callback|] eqn:Hcb; [|congruence].
  intros _. subst p.
  destruct (settings_trading_on _ _ Hon) as [H|H]; [discriminate|].
  split; [exact H|].
  destruct (settings_keys_loaded _ _ _ Hkeys) as [H'|H'].
  { exfalso. simpl in H'. rewrite !lookup_insert, lookup_empty in H'.
    repeat case_decide; discriminate. }
  split; [exact H'|].
  destruct (settings_agent_mode _ _ _ _ Hmode) as [H''|H''];
    [simpl in H''; rewrite lookup_empty in H''; discriminate|].
  split; [exact H''|].
  destruct (settings_callback _ _ _ Hcb) as [H3|H3]; [discriminate|].
  exists callback. split; [exact H3|reflexivity].
Qed.

Lemma new_layer_denies_by_default_witness :
  submit (apply_settings
            [SetOnApproved recorder; SetGlobalTrading true; SetKeysLoaded "demo" true;
             SetAgentMode "agent-1" "Auto"] new_layer) sample_intent []
  <> ([], Ok tt)
  /\ SetAgentMode "agent-1" "Auto"
     ∈ [SetOnApproved recorder; SetGlobalTrading true; SetKeysLoaded "demo" true;
        SetAgentMode "agent-1" "Auto"].
Proof.
  split; [vm_compute; discriminate|].
  apply (new_layer_denies_by_default
           [SetOnApproved recorder; SetGlobalTrading true; SetKeysLoaded "demo" true;
            SetAgentMode "agent-1" "Auto"] sample_intent []).
  vm_compute. discriminate.
Defined.

End PermissionExtra.

(** * Market discovery *)
Module DiscoveryExtra.
Import MarketCache WebSocket Discovery.
Import MarketCacheFacts MarketCacheExtra WebSocketFacts WebSocketExtra.

Local Open Scope string_scope.
Local Open Scope list_scope.
Local Open Scope Z_scope.

Lemma elem_of_key_set (channels : list string) (ticker : string) (key : SubscriptionKey) :
  key ∈ key_set channels [ticker] <-> key.1 ∈ channels /\ key.2 = ticker.
Proof.
  unfold key_set. rewrite elem_of_list_to_set, list_elem_of_bind. split.
  - intros (ch & Hin & Hch). apply list_elem_of_bind in Hin as (mt & Hin & Hmt).
    apply list_elem_of_singleton in Hin, Hmt. subst key mt. auto.
  - intros [Hch Ht]. exists key.1. split; [|exact Hch].
    apply list_elem_of_bind. exists ticker. split; [|apply list_elem_of_here].
    apply list_elem_of_singleton. destruct key; simpl in *. congruence.
Qed.

Lemma unsubscribe_subscriptions (channels market_tickers : list string) (s : Client) :
  _subscriptions (unsubscribe channels market_tickers s)
  = _subscriptions s ∖ key_set channels market_tickers.
Proof. unfold unsubscribe. simpl. destruct (ws_open s); reflexivity. Qed.

Lemma upsert_from_discovery_keeps (market : MarketData) (c : Cache) (t : string) :
  is_Some (cache c !! t) -> is_Some (cache (upsert_from_discovery market c) !! t).
Proof.
  intros H. apply elem_of_dom. apply (dom_write (UpsertFromDiscovery market) c).
  apply elem_of_dom. exact H.
Qed.

Lemma upsert_from_discovery_stores (market : MarketData) (c : Cache) (t : string) :
  md_ticker market = Some t -> t <> "" ->
  is_Some (cache (upsert_from_discovery market c) !! t).
Proof.
  intros Ht Hne. unfold upsert_from_discovery. rewrite Ht.
  destruct t as [|a t']; [congruence|]. simpl.
  rewrite lookup_insert_eq. eauto.
Qed.

Lemma truthy_ticker (o : option string) :
  truthy o = true -> exists t, o = Some t /\ t <> "".
Proof. destruct o as [[|a t]|]; simpl; try discriminate. eauto. Qed.

Lemma process_market_eq (market : MarketData) (d : Discovery) (ticker : string) :
  md_ticker market = Some ticker -> ticker <> "" ->
  exists tasks,
    let d1 := mkDiscovery (upsert_from_discovery market (_cache d)) (_ws d) (_db d)
                          (_subscribed d) tasks in
    _process_market market d
    = if watched market then
        if decide (ticker ∈ _subscribed d) then d1
        else mkDiscovery (_cache d1) (subscribe _WS_CHANNELS [ticker] (_ws d)) (_db d)
                         (_subscribed d ∪ {[ticker]}) tasks
      else if decide (ticker ∈ _subscribed d) then
        mkDiscovery (_cache d1) (unsubscribe _WS_CHANNELS [ticker] (_ws d)) (_db d)
                    (_subscribed d ∖ {[ticker]}) tasks
      else d1.
Proof.
  intros Ht Hne. unfold _process_market, watched, _ensure_subscribed. rewrite Ht.
  destruct ticker as [|a t]; [congruence|]. cbn [truthy negb default].
  destruct (_db d) eqn:Hdb; eexists; cbv zeta; cbn [_cache _ws _db _subscribed persist_tasks];
    rewrite ?Hdb; reflexivity.
Qed.

Lemma process_market_step (market : MarketData) (d : Discovery) :
  agrees d ->
  agrees (_process_market market d)
  /\ forall t,
       t ∈ _subscribed (_process_market market d)
       <-> (if decide (md_ticker market = Some t /\ t <> "")
            then watched market = true
            else t ∈ _subscribed d).
Proof.
  intros [Hkeys Hcached].
  destruct (truthy (md_ticker market)) eqn:Htr.
  2:{ unfold _process_market. rewrite Htr. simpl. split; [split; assumption|]. intros t.
      destruct (decide _) as [[Ht Hne]|]; [|reflexivity].
      rewrite Ht in Htr. destruct t; [congruence|discriminate]. }
  apply truthy_ticker in Htr as (ticker & Hticker & Hne).
  destruct (process_market_eq market d ticker Hticker Hne) as (tasks & Heq).
  cbv zeta in Heq. rewrite Heq. clear Heq.
  assert (Hcached' : forall t, t ∈ _subscribed d ->
            t <> "" /\ is_Some (cache (upsert_from_discovery market (_cache d)) !! t)).
  { intros t Ht. destruct (Hcached t Ht) as [? ?]. split; [assumption|].
    apply upsert_from_discovery_keeps. assumption. }
  assert (Hsel : forall t (A P Q : Prop),
            (t = ticker -> (A <-> P)) -> (t <> ticker -> (A <-> Q)) ->
            (A <-> if decide (md_ticker market = Some t /\ t <> "") then P else Q)).
  { intros t A P Q HP HQ. destruct (decide _) as [[Ht _]|Hn].
    - apply HP. congruence.
    - apply HQ. intros ->. apply Hn. auto. }
  destruct (watched market) eqn:Hw;
    destruct (decide (ticker ∈ _subscribed d)) as [Hin|Hin];
    unfold agrees; cbn [_cache _ws _db _subscribed].
  - split; [split; [exact Hkeys|exact Hcached']|].
    intros t. apply Hsel; [intros ->|intros ?]; intuition congruence.
  - split; [split|].
    + intros key.
      rewrite subscribe_subscriptions, elem_of_union, elem_of_key_set, Hkeys,
        elem_of_union, elem_of_singleton. tauto.
    + intros t Ht. apply elem_of_union in Ht as [Ht|Ht]; [apply Hcached', Ht|].
      apply elem_of_singleton in Ht. subst t. split; [exact Hne|].
      apply upsert_from_discovery_stores; assumption.
    + intros t. rewrite elem_of_union, elem_of_singleton.
      apply Hsel; [intros ->|intros ?]; intuition congruence.
  - split; [split|].
    + intros key.
      rewrite unsubscribe_subscriptions, elem_of_difference, elem_of_key_set, Hkeys,
        elem_of_difference, elem_of_singleton. tauto.
    + intros t Ht. apply elem_of_difference in Ht as [Ht _]. apply Hcached', Ht.
    + intros t. rewrite elem_of_difference, elem_of_singleton.
      apply Hsel; [intros ->|intros ?]; intuition congruence.
  - split; [split; [exact Hkeys|exact Hcached']|].
    intros t. apply Hsel; [intros ->|intros ?]; intuition congruence.
Qed.

Lemma about_snoc (t : string) (markets : list MarketData) (market : MarketData) :
  last (about t (markets ++ [market]))
  = if decide (md_ticker market = Some t) then Some market else last (about t markets).
Proof.
  unfold about. rewrite filter_app, filter_cons, filter_nil. cbv beta.
  destruct (decide (md_ticker market = Some t)) as [Ht|Ht];
    [apply last_snoc|rewrite app_nil_r; reflexivity].
Qed.

Lemma process_markets_spec (markets : list MarketData) (d : Discovery) :
  agrees d ->
  agrees (process_markets markets d)
  /\ forall t,
       t <> "" ->
       (t ∈ _subscribed (process_markets markets d)
        <-> match last (about t markets) with
            | Some market => watched market = true
            | None => t ∈ _subscribed d
            end).
Proof.
  intros Hd. induction markets as [|market markets IH] using rev_ind.
  - simpl. split; [exact Hd|]. intros t _. reflexivity.
  - destruct IH as [Hagrees Hsub].
    unfold process_markets in *. rewrite fold_left_app. simpl.
    destruct (process_market_step market _ Hagrees) as [Hagrees' Hstep].
    split; [exact Hagrees'|]. intros t Hne.
    rewrite Hstep, about_snoc.
    destruct (decide (md_ticker market = Some t)) as [Ht|Ht].
    + destruct (decide _) as [_|Hn]; [reflexivity|]. exfalso. apply Hn. auto.
    + destruct (decide _) as [[Ht' _]|_]; [contradiction|]. apply Hsub, Hne.
Qed.

Lemma watched_statuses (market : MarketData) :
  watched market = true
  <-> lower (default "" (md_status market)) ∈ ["open"; "active"; "halted"].
Proof.
  unfold watched, internal_state, _KALSHI_STATUS_TO_INTERNAL.
  generalize (lower (default "" (md_status market))). intros s.
  cbn [list_to_map foldr uncurry fst snd]. rewrite !lookup_insert, lookup_empty.
  repeat (match goal with
          | |- context [decide (?k = s)] => destruct (decide (k = s)) as [<-|?]
          end);
    (split; intros Hw;
     [try (vm_compute in Hw; discriminate); apply list_elem_of_In; simpl; tauto
     |try (vm_compute; reflexivity);
      apply list_elem_of_In in Hw; simpl in Hw; exfalso; intuition congruence]).
Qed.

(** X28: over the markets of a discovery pass on a client that starts with
    no subscription, the client's desired set is the four channels of
    [_WS_CHANNELS] on the tickers of [_subscribed], each of which is cached;
    and a ticker is in [_subscribed] exactly when the last market processed
    under it had a status that reads open, active or halted, whatever the
    case of its letters.  A market last seen closed, settled, finalized, with
    another status or with none is unsubscribed. *)
Theorem subscriptions_follow_the_last_status (markets : list MarketData)
    (ws_client : Client) (cache0 : Cache) (db : bool) :
  _subscriptions ws_client = ∅ ->
  let d := process_markets markets (new_discovery ws_client cache0 db) in
  (forall channel t,
     (channel, t) ∈ _subscriptions (_ws d)
     <-> channel ∈ _WS_CHANNELS /\ t ∈ _subscribed d)
  /\ (forall t,
        t ∈ _subscribed d
        <-> t <> "" /\ exists market,
              last (about t markets) = Some market
              /\ lower (default "" (md_status market)) ∈ ["open"; "active"; "halted"])
  /\ (forall t, t ∈ _subscribed d -> is_Some (cache (_cache d) !! t)).
Proof.
  intros Hfresh.
  assert (Hnew : agrees (new_discovery ws_client cache0 db)).
  { split; simpl.
    - intros key. rewrite Hfresh. split; [intros H|intros [_ H]];
        exfalso; revert H; apply not_elem_of_empty.
    - intros t H. exfalso. revert H. apply not_elem_of_empty. }
  destruct (process_markets_spec markets _ Hnew) as [[Hkeys Hcached] Hsub].
  cbv zeta. split; [intros channel t; apply (Hkeys (channel, t))|].
  split; [|intros t Ht; apply Hcached, Ht].
  intros t. split.
  - intros Ht. destruct (Hcached t Ht) as [Hne _]. split; [exact Hne|].
    apply (Hsub t Hne) in Ht.
    destruct (last (about t markets)) as [market|].
    + exists market. split; [reflexivity|]. apply watched_statuses, Ht.
    + exfalso. revert Ht. simpl. apply not_elem_of_empty.
  - intros (Hne & market & Hlast & Hstatus). apply (Hsub t Hne).
    rewrite Hlast. apply watched_statuses, Hstatus.
Qed.

Lemma subscriptions_follow_the_last_status_witness :
  let d := process_markets
             [market_of "BTC-X" "open"; market_of "ETH-X" "Halted";
              market_of "BTC-X" "settled"]
             (new_discovery (new_client "demo" true) new_cache true) in
  _subscriptions (new_client "demo" true) = ∅
  /\ ("ETH-X" ∈ _subscribed d) /\ ("BTC-X" ∉ _subscribed d)
  /\ ("trade", "ETH-X") ∈ _subscriptions (_ws d).
Proof.
  cbv zeta. split; [reflexivity|].
  destruct (subscriptions_follow_the_last_status
              [market_of "BTC-X" "open"; market_of "ETH-X" "Halted";
               market_of "BTC-X" "settled"]
              (new_client "demo" true) new_cache true eq_refl) as (Hkeys & Hsub & _).
  cbv zeta in Hkeys, Hsub.
  assert (Heth : "ETH-X" ∈ _subscribed
                   (process_markets
                      [market_of "BTC-X" "open"; market_of "ETH-X" "Halted";
                       market_of "BTC-X" "settled"]
                      (new_discovery (new_client "demo" true) new_cache true))).
  { apply Hsub. split; [discriminate|]. exists (market_of "ETH-X" "Halted").
    split; [reflexivity|]. vm_compute. apply list_elem_of_further, list_elem_of_further,
      list_elem_of_here. }
  split; [exact Heth|]. split.
  - intros H. apply Hsub in H as (_ & market & Hlast & Hstatus).
    vm_compute in Hlast. injection Hlast as <-. vm_compute in Hstatus.
    apply list_elem_of_In in Hstatus. simpl in Hstatus.
    repeat (destruct Hstatus as [Hstatus|Hstatus]; [discriminate|]). exact Hstatus.
  - apply Hkeys. split; [|exact Heth].
    apply list_elem_of_further, list_elem_of_further, list_elem_of_here.
Defined.

End DiscoveryExtra.

(** * Agent Peritia *)
Module PeritiaExtra.
Import Trading Permission Peritia.

Local Open Scope string_scope.
Local Open Scope list_scope.
Local Open Scope Z_scope.

Lemma Qltb_false (a b : Q) : Qltb a b = false -> (b <= a)%Q.
Proof.
  unfold Qltb. intros H. apply negb_false_iff in H. apply Qle_bool_iff. exact H.
Qed.

Lemma Qltb_true (a b : Q) : Qltb a b = true -> (a <= b)%Q.
Proof.
  unfold Qltb. intros H. apply negb_true_iff in H.
  destruct (Qlt_le_dec a b) as [Hlt|Hle]; [apply Qlt_le_weak, Hlt|].
  apply Qle_bool_iff in Hle. congruence.
Qed.

Lemma confidence_bounds (x : Q) :
  Qltb x _IMBALANCE_THRESHOLD = false ->
  (_IMBALANCE_THRESHOLD <= min 1 x <= 1)%Q.
Proof.
  intros Hx. apply Qltb_false in Hx. unfold min.
  destruct (Qltb x 1) eqn:H1.
  - split; [exact Hx|apply Qltb_true, H1].
  - split; [unfold _IMBALANCE_THRESHOLD; discriminate|apply Qle_refl].
Qed.

Lemma limit_price_bounds (bid : Z) : 1 <= limit_price bid <= 99.
Proof. unfold limit_price. destruct (bid <? 98); lia. Qed.

(** X29: [_evaluate_market] either does nothing (agent and world as they
    were) or submits one intent to the permission layer.  That intent is a
    limit buy of one contract on the market of the state, yes or no, at the
    best bid plus one (the bid itself from 98 on) brought into 1..99, with a
    confidence from 0.15 to 1; for a market with a ticker it passes the
    engine's [_validate].  The market is then stamped with [now_ms], and an
    evaluation of the same market less than 5000 ms later does nothing. *)
Theorem peritia_submits_valid_intents {W : Type} (now_ms made_at : Z) (new_id : string)
    (state : MarketCache.MarketState) (layer : Layer W) (a : Agent) (w : W) :
  let ticker := MarketCache.market_ticker state in
  let a' := (_evaluate_market now_ms made_at new_id state layer a w).1 in
  let r := (_evaluate_market now_ms made_at new_id state layer a w).2 in
  (a' = a /\ r = (w, Ok tt))
  \/ exists intent,
       r = submit layer intent w
       /\ _COOLDOWN_MS <= now_ms - default 0 (_last_order_ms a !! ticker)
       /\ _last_order_ms a' = <[ticker := now_ms]> (_last_order_ms a)
       /\ Trading.agent_id intent = agent_id a
       /\ client_order_id intent = new_id
       /\ market_ticker intent = ticker
       /\ action intent = "buy" /\ order_type intent = "limit" /\ count intent = 1
       /\ (side intent = "yes" /\ price intent = limit_price (MarketCache.yes_bid state)
           \/ side intent = "no" /\ price intent = limit_price (MarketCache.no_bid state))
       /\ 1 <= price intent <= 99
       /\ (_IMBALANCE_THRESHOLD <= confidence intent <= 1)%Q
       /\ (ticker <> "" -> forall e, Execution._validate intent e = (e, true))
       /\ (forall now' made' id' state' w',
             MarketCache.market_ticker state' = ticker ->
             now' - now_ms < _COOLDOWN_MS ->
             _evaluate_market now' made' id' state' layer a' w' = (a', (w', Ok tt))).
Proof.
  cbv zeta. unfold _evaluate_market.
  destruct (now_ms - default 0 (_last_order_ms a !! MarketCache.market_ticker state)
            <? _COOLDOWN_MS) eqn:Hcool; [left; auto|].
  apply Z.ltb_ge in Hcool.
  destruct (_compute_imbalance state) as [imbalance|]; [|left; auto].
  destruct (Qltb (abs imbalance) _IMBALANCE_THRESHOLD) eqn:Hthr; [left; auto|].
  pose proof (confidence_bounds _ Hthr) as Hconf.
  right.
  destruct (Qltb 0 imbalance); cbn [fst snd]; eexists; (split; [reflexivity|]);
    cbn [Trading.agent_id client_order_id market_ticker action order_type count side
         price confidence _last_order_ms];
    fold (limit_price (MarketCache.yes_bid state));
    fold (limit_price (MarketCache.no_bid state)).
  all: split; [exact Hcool|].
  all: repeat (split; [reflexivity|]).
  all: split; [auto|].
  all: split; [apply limit_price_bounds|].
  all: split; [exact Hconf|].
  all: split;
    [intros Hne e; apply ExecutionFacts.validate_valid; unfold Execution.valid;
     cbn [price count market_ticker action side];
     pose proof (limit_price_bounds (MarketCache.yes_bid state));
     pose proof (limit_price_bounds (MarketCache.no_bid state));
     unfold _DEFAULT_COUNT; repeat split; auto; lia
    |intros now' made' id' state' w' Hsame Hsoon;
     rewrite Hsame, lookup_insert_eq; change (default 0 (Some now_ms)) with now_ms;
     replace (now' - now_ms <? _COOLDOWN_MS) with true
       by (symmetry; apply Z.ltb_lt; exact Hsoon);
     reflexivity].
Qed.

Lemma peritia_submits_valid_intents_witness :
  exists intent,
    (_evaluate_market 10000 10001 "order-1" btc_with_book open_layer peritia_1 []).2
    = submit open_layer intent []
    /\ 1 <= price intent <= 99
    /\ forall e, Execution._validate intent e = (e, true).
Proof.
  pose proof (peritia_submits_valid_intents 10000 10001 "order-1" btc_with_book open_layer
                peritia_1 []) as H.
  cbv zeta in H.
  destruct H
    as [[Ha _]|(intent & Hr & _ & _ & _ & _ & _ & _ & _ & _ & _ & Hprice & _ & Hvalid & _)].
  - exfalso. apply (f_equal logged) in Ha. vm_compute in Ha. discriminate.
  - exists intent. split; [exact Hr|]. split; [exact Hprice|].
    apply Hvalid. discriminate.
Defined.

Lemma sum_values_nonneg (d : gmap Z Z) :
  map_Forall (fun _ quantity => 0 <= quantity) d -> 0 <= sum_values d.
Proof.
  unfold sum_values.
  apply (map_fold_weak_ind
           (fun total m => map_Forall (fun _ quantity => 0 <= quantity) m -> 0 <= total)).
  - intros _. lia.
  - intros i x m r Hnone IH Hall. apply map_Forall_insert in Hall as [Hx Hm]; [|exact Hnone].
    specialize (IH Hm). lia.
Qed.

Lemma compute_imbalance_volumes (state : MarketCache.MarketState) :
  _compute_imbalance state
  = (if (volumes state).1 + (volumes state).2 =? 0 then None
     else Some (inject_Z ((volumes state).1 - (volumes state).2)
                / inject_Z ((volumes state).1 + (volumes state).2))%Q).
Proof.
  unfold _compute_imbalance, volumes.
  destruct (MarketCache.orderbook state); reflexivity.
Qed.

(** X30: when no quantity of the book is negative (no bid, when the market
    has no book), [_compute_imbalance] returns [None] exactly when both
    volumes are zero, and otherwise a value from -1 to 1 that is positive
    exactly when the yes volume is the larger one.  (With a negative
    quantity the value can leave the interval: volumes 3 and -1 give 2.) *)
Theorem imbalance_is_within_one (state : MarketCache.MarketState) :
  nonneg_volumes state ->
  (_compute_imbalance state = None <-> (volumes state).1 = 0 /\ (volumes state).2 = 0)
  /\ forall imbalance,
       _compute_imbalance state = Some imbalance ->
       (-1 <= imbalance <= 1)%Q
       /\ (Qltb 0 imbalance = true <-> (volumes state).2 < (volumes state).1).
Proof.
  intros Hnn.
  assert (Hvol : 0 <= (volumes state).1 /\ 0 <= (volumes state).2).
  { unfold nonneg_volumes in Hnn. unfold volumes.
    destruct (MarketCache.orderbook state) as [ob|]; simpl; [|exact Hnn].
    destruct Hnn as [Hy Hn]. split; apply sum_values_nonneg; assumption. }
  rewrite compute_imbalance_volumes.
  destruct (volumes state) as [y n]. simpl in *. destruct Hvol as [Hy Hn].
  destruct (y + n =? 0) eqn:Htotal.
  - apply Z.eqb_eq in Htotal. split; [split; [lia|reflexivity]|discriminate].
  - apply Z.eqb_neq in Htotal. split; [split; [discriminate|lia]|].
    intros imbalance [= <-].
    assert (Hpos : (0 < inject_Z (y + n))%Q)
      by (change 0%Q with (inject_Z 0); rewrite <- Zlt_Qlt; lia).
    split; [split|].
    + apply Qle_shift_div_l; [exact Hpos|].
      change (-1)%Q with (inject_Z (-1)). rewrite <- inject_Z_mult, <- Zle_Qle. lia.
    + apply Qle_shift_div_r; [exact Hpos|].
      change 1%Q with (inject_Z 1). rewrite <- inject_Z_mult, <- Zle_Qle. lia.
    + unfold Qltb. rewrite negb_true_iff. split.
      * intros Hle. destruct (Z_lt_le_dec n y) as [|Hge]; [assumption|]. exfalso.
        assert (Hq : (inject_Z (y - n) / inject_Z (y + n) <= 0)%Q).
        { apply Qle_shift_div_r; [exact Hpos|]. rewrite Qmult_0_l.
          change 0%Q with (inject_Z 0). rewrite <- Zle_Qle. lia. }
        apply Qle_bool_iff in Hq. congruence.
      * intros Hlt. destruct (Qle_bool _ 0) eqn:Hq; [|reflexivity]. exfalso.
        apply Qle_bool_iff in Hq.
        assert (Hq' : (0 < inject_Z (y - n) / inject_Z (y + n))%Q).
        { apply Qlt_shift_div_l; [exact Hpos|]. rewrite Qmult_0_l.
          change 0%Q with (inject_Z 0). rewrite <- Zlt_Qlt. lia. }
        apply (Qlt_irrefl 0). eapply Qlt_le_trans; eassumption.
Qed.

Lemma imbalance_is_within_one_witness :
  nonneg_volumes btc_with_book
  /\ exists imbalance,
       _compute_imbalance btc_with_book = Some imbalance
       /\ (-1 <= imbalance <= 1)%Q.
Proof.
  assert (Hnn : nonneg_volumes btc_with_book).
  { split; apply map_Forall_singleton; lia. }
  split; [exact Hnn|].
  destruct (imbalance_is_within_one btc_with_book Hnn) as [_ Hrange].
  eexists. split; [reflexivity|]. apply Hrange. reflexivity.
Defined.

End PeritiaExtra.
